(** * termpdf.py: page presentation and interaction engine

    A shallow embedding of [src/termpdf.py] (the [Document] navigation
    methods, the per-page render-state cache, the kitty graphics transport,
    the overlay list browsers and the key dispatcher of [view]) together with
    the properties the specification states about them.

    Conventions.
    - Python [int] is [Z]; [str] is [string]; [bytes] is [list byte].
    - A Python list indexed with [l[i]] is read through [py_index], which
      implements negative indices and reports [IndexError] as [None].
    - A [dict] whose insertion order is observable (the graphics command)
      is an association list, see [dict_set].
    - Code that writes to the terminal or calls the document engine appends
      to an event trace; code that can raise returns an [outcome]. *)

From Stdlib Require Import ZArith QArith List Strings.String Strings.Ascii Strings.Byte
  DecimalString Qround Bool Lia.
From stdpp Require Import base list.
From Equations Require Import Equations.

Local Open Scope string_scope.
Local Open Scope list_scope.
Local Open Scope Z_scope.

(* ===================================================================== *)
(** * Python primitives *)
(* ===================================================================== *)

Module Py.

(** [l[i]] for a list [l] and an int [i]: indices [-len .. -1] count from
    the end, anything outside [-len .. len-1] raises [IndexError]. *)
Definition py_index {A} (l : list A) (i : Z) : option A :=
  let n := Z.of_nat (length l) in
  if (0 <=? i) && (i <? n) then l !! Z.to_nat i
  else if (- n <=? i) && (i <? 0) then l !! Z.to_nat (n + i)
  else None.

(** [l[i] = x] with the same index rule; [None] is [IndexError]. *)
Definition py_setitem {A} (l : list A) (i : Z) (x : A) : option (list A) :=
  let n := Z.of_nat (length l) in
  if (0 <=? i) && (i <? n) then Some (<[Z.to_nat i := x]> l)
  else if (- n <=? i) && (i <? 0) then Some (<[Z.to_nat (n + i) := x]> l)
  else None.

(** The exceptions the modelled code can raise. *)
Inductive exn :=
| SystemExit (mes : string)
| NameError (name : string)
| IndexError
| KeyError (k : string)
| ZeroDivisionError
| ValueError
| EngineError           (* raised inside the fitz library *)
| CursesError.          (* curses.error *)

(** How a call ends: it returns, it raises, or it waits forever for
    terminal input that never arrives. *)
Inductive outcome (A : Type) :=
| Returned (a : A)
| Raised (e : exn)
| Blocked.
Arguments Returned {A} a.
Arguments Raised {A} e.
Arguments Blocked {A}.

(** [range(a, b)] *)
Definition range (a b : Z) : list Z :=
  map (fun k => a + Z.of_nat k) (seq 0 (Z.to_nat (b - a))).

(** Python's [min(a, b)] and [max(a, b)] on ints. *)
Definition py_min (a b : Z) : Z := if b <? a then b else a.
Definition py_max (a b : Z) : Z := if a <? b then b else a.

End Py.
Import Py.

(* ===================================================================== *)
(** * The data model *)
(* ===================================================================== *)

(** [Page_State.factor] starts out as the tuple [(1,1)] and holds the zoom
    factor once the page has been laid out. *)
Inductive factor_val :=
| Factor_unset            (* the tuple (1,1) of Page_State.__init__ *)
| Factor (q : Q).

(** class Page_State *)
Record Page_State := mkPage_State {
  number : Z;
  stale  : bool;
  factor : factor_val;
  place  : Z * Z * Z * Z;          (* (l_col, t_row, r_col, b_row) *)
  crop   : option (Q * Q * Q * Q)
}.

(** Page_State.__init__(self, p) *)
Definition Page_State_init (p : Z) : Page_State :=
  {| number := p; stale := true; factor := Factor_unset;
     place := (0, 0, 40, 40); crop := None |}.

Definition set_stale (b : bool) (s : Page_State) : Page_State :=
  {| number := number s; stale := b; factor := factor s;
     place := place s; crop := crop s |}.
Definition set_factor (f : Q) (s : Page_State) : Page_State :=
  {| number := number s; stale := stale s; factor := Factor f;
     place := place s; crop := crop s |}.
Definition set_place (pl : Z * Z * Z * Z) (s : Page_State) : Page_State :=
  {| number := number s; stale := stale s; factor := factor s;
     place := pl; crop := crop s |}.

(** ** The document engine (fitz), seen through what the viewer reads *)

(** The pixel buffer returned by [page.getPixmap]. *)
Record Pixmap := mkPixmap {
  pix_width  : Z;
  pix_height : Z;
  samples    : list byte
}.

(** Which crop box [display_page] installed before measuring the page:
    the auto-crop rectangle, the media box, or the box left as it was. *)
Inductive crop_choice := Crop_auto | Crop_media | Crop_keep.

(** A loaded page: its bounds under each crop box and its renderer. *)
Record fitz_Page := mkPage {
  bound     : crop_choice -> Q * Q;                     (* (width, height) *)
  getPixmap : crop_choice -> Q -> Z -> bool -> Pixmap   (* zoom, rotation, alpha *)
}.

(** One entry [lvl, title, page] of [getToC()]. *)
Record toc_entry := mkToc {
  toc_lvl   : Z;
  toc_title : string;
  toc_page  : Z
}.

(** A link of a page, [link['kind']], [link['page']], [link['uri']]. *)
Record link := mkLink {
  link_kind : Z;
  link_page : Z;
  link_uri  : string
}.

(** The [fitz.Document] base object. *)
Record fitz_Document := mkFitz {
  pageCount : Z;
  isPDF     : bool;
  getToC    : list toc_entry;
  metadata  : list (string * string);
  loadPage  : Z -> option fitz_Page;        (* None: fitz raises *)
  getLinks  : Z -> list link
}.

(** class Document(fitz.Document) *)
Record Document := mkDocument {
  base              : fitz_Document;
  key               : option string;
  page              : Z;
  prevpage          : Z;
  pages             : Z;
  first_page_offset : Z;
  chapter           : Z;
  rotation          : Z;
  fontsize          : Z;
  autocrop          : bool;
  alpha             : bool;
  invert            : bool;
  tint              : bool;
  tint_color        : string;
  page_states       : list Page_State
}.

Definition TINT_COLOR : string := "antiquewhite2".

(** Document.__init__ *)
Definition Document_init (f : fitz_Document) : Document :=
  let pages := pageCount f - 1 in
  {| base := f; key := None; page := 0; prevpage := 0;
     pages := pages; first_page_offset := 1; chapter := 0;
     rotation := 0; fontsize := 12;
     autocrop := false; alpha := false; invert := false; tint := false;
     tint_color := TINT_COLOR;
     page_states := map Page_State_init (range 0 (pages + 1)) |}.

(** Field updates ([self.x = v]). *)
Definition with_page (d : Document) (prev cur : Z) : Document :=
  {| base := base d; key := key d; page := cur; prevpage := prev;
     pages := pages d; first_page_offset := first_page_offset d;
     chapter := chapter d; rotation := rotation d; fontsize := fontsize d;
     autocrop := autocrop d; alpha := alpha d; invert := invert d;
     tint := tint d; tint_color := tint_color d;
     page_states := page_states d |}.

Definition with_chapter (d : Document) (n : Z) : Document :=
  {| base := base d; key := key d; page := page d; prevpage := prevpage d;
     pages := pages d; first_page_offset := first_page_offset d;
     chapter := n; rotation := rotation d; fontsize := fontsize d;
     autocrop := autocrop d; alpha := alpha d; invert := invert d;
     tint := tint d; tint_color := tint_color d;
     page_states := page_states d |}.

Definition with_page_states (d : Document) (ps : list Page_State) : Document :=
  {| base := base d; key := key d; page := page d; prevpage := prevpage d;
     pages := pages d; first_page_offset := first_page_offset d;
     chapter := chapter d; rotation := rotation d; fontsize := fontsize d;
     autocrop := autocrop d; alpha := alpha d; invert := invert d;
     tint := tint d; tint_color := tint_color d;
     page_states := ps |}.

Definition with_first_page_offset (d : Document) (n : Z) : Document :=
  {| base := base d; key := key d; page := page d; prevpage := prevpage d;
     pages := pages d; first_page_offset := n;
     chapter := chapter d; rotation := rotation d; fontsize := fontsize d;
     autocrop := autocrop d; alpha := alpha d; invert := invert d;
     tint := tint d; tint_color := tint_color d;
     page_states := page_states d |}.

(** The five display settings, [self.rotation], [self.autocrop], ... *)
Definition with_settings (d : Document) (rot : Z) (ac al inv ti : bool)
  : Document :=
  {| base := base d; key := key d; page := page d; prevpage := prevpage d;
     pages := pages d; first_page_offset := first_page_offset d;
     chapter := chapter d; rotation := rot; fontsize := fontsize d;
     autocrop := ac; alpha := al; invert := inv;
     tint := ti; tint_color := tint_color d;
     page_states := page_states d |}.

Definition with_fontsize (d : Document) (f : Z) : Document :=
  {| base := base d; key := key d; page := page d; prevpage := prevpage d;
     pages := pages d; first_page_offset := first_page_offset d;
     chapter := chapter d; rotation := rotation d; fontsize := f;
     autocrop := autocrop d; alpha := alpha d; invert := invert d;
     tint := tint d; tint_color := tint_color d;
     page_states := page_states d |}.

(* ===================================================================== *)
(** * Navigation *)
(* ===================================================================== *)

Module Nav.

(** Document.goto_page *)
Definition goto_page (d : Document) (p : Z) : Document :=
  let prev := page d in
  if p >? pages d then with_page d prev (pages d)
  else if p <? 0 then with_page d prev 0
  else with_page d prev p.

(** Document.page_to_logical; [None] is the default argument. *)
Definition page_to_logical (d : Document) (p : option Z) : Z :=
  let p := match p with None => page d | Some p => p end in
  p + first_page_offset d.

(** Document.logical_to_page. [not p] holds for [None] and for [0]. *)
Definition logical_to_page (d : Document) (p : option Z) : Z :=
  let p := match p with
           | None => page d
           | Some p => if p =? 0 then page d else p
           end in
  p - first_page_offset d.

(** Document.goto_logical_page *)
Definition goto_logical_page (d : Document) (p : option Z) : Document :=
  let p := logical_to_page d p in
  goto_page d p.

(** Document.next_page, Document.prev_page *)
Definition next_page (d : Document) (count : Z) : Document :=
  goto_page d (page d + count).
Definition prev_page (d : Document) (count : Z) : Document :=
  goto_page d (page d - count).

(** [try: body except: handler]: a bare [except] catches whatever the
    body raises. *)
Definition try_except {A} (body : outcome A) (handler : outcome A)
  : outcome A :=
  match body with
  | Raised _ => handler
  | o => o
  end.

(** Document.goto_chap. Inside the [try], [toc[n]] is evaluated before
    [goto_page] is entered, so the handler starts from the document as
    line 142 left it. *)
Definition goto_chap (d : Document) (n : Z) : outcome Document :=
  let toc := getToC (base d) in
  let len := Z.of_nat (length toc) in
  let n := if n >? len then len else if n <? 0 then 0 else n in
  let d := with_chapter d n in
  try_except
    (match py_index toc n with
     | None => Raised IndexError
     | Some ch => Returned (goto_page d (toc_page ch - 1))
     end)
    (Returned (goto_page d 0)).

(** Document.current_chap *)
Fixpoint current_chap_from (toc : list toc_entry) (i : Z) (p : Z) (len : Z)
  : Z :=
  match toc with
  | [] => len
  | ch :: rest =>
      let cp := toc_page ch - 1 in
      if cp >? p then i - 1 else current_chap_from rest (i + 1) p len
  end.
Definition current_chap (d : Document) : Z :=
  let toc := getToC (base d) in
  current_chap_from toc 0 (page d) (Z.of_nat (length toc)).

(** Document.next_chap, Document.prev_chap *)
Definition next_chap (d : Document) (count : Z) : outcome Document :=
  goto_chap d (chapter d + count).
Definition prev_chap (d : Document) (count : Z) : outcome Document :=
  goto_chap d (chapter d - count).

(** Document.mark_all_pages_stale *)
Definition mark_all_pages_stale (d : Document) : Document :=
  with_page_states d (map (set_stale true) (page_states d)).

End Nav.
Import Nav.

(* ===================================================================== *)
(** * The world the viewer runs in *)
(* ===================================================================== *)

(** class screen (the curses window handle [stdscr] is left out). *)
Record screen := mkScreen {
  rows        : Z;
  cols        : Z;
  width       : Z;
  height      : Z;
  cell_width  : Z;
  cell_height : Z
}.

(** screen.__init__ *)
Definition screen_init : screen :=
  {| rows := 0; cols := 0; width := 0; height := 0;
     cell_width := 0; cell_height := 0 |}.

(** A value stored in a graphics command: an int or a string. *)
Inductive value :=
| VInt (z : Z)
| VStr (s : string).

(** The command dict of the graphics protocol, in insertion order. *)
Definition dict := list (string * value).

(** What the viewer does to the outside, in the order it does it. *)
Inductive event :=
| Gr (cmd : dict) (payload : option (list byte))   (* write_gr_cmd *)
| Set_cursor (r c : Z)                  (* '\033[{r};{c}f' *)
| Clear_screen                          (* '\033[2J' *)
| Stdout (s : string)                   (* sys.stdout.write *)
| Bar_update (bar : list Z)             (* sys.stdout.write(self.bar) *)
| Engine_getPixmap (p : Z) (c : crop_choice) (zoom : Q) (rot : Z) (al : bool)
| Engine_layout (w h f : Z)             (* fitz.Document.layout *)
| Curses_init                           (* screen.init_curses *)
| Curses_end                            (* curses.endwin and doc.close *)
| Text_win (length : Z) (header : string)       (* screen.create_text_win *)
| Pad_refresh (index j : Z)             (* pad.chgat loop and pad.refresh *)
| Open_uri (uri : string).              (* subprocess.run([URL_BROWSER, uri]) *)

(** The shared objects and the terminal. [stdin] holds the bytes the
    terminal will answer with, [keys] the key codes that the keyboard will
    deliver, in order, and [winsz] what the TIOCGWINSZ ioctl reports:
    (rows, cols, width, height). *)
Record World := mkWorld {
  doc   : Document;
  scr   : screen;
  trace : list event;
  stdin : list byte;
  keys  : list Z;
  winsz : Z * Z * Z * Z
}.

Definition put_doc (d : Document) (w : World) : World :=
  {| doc := d; scr := scr w; trace := trace w; stdin := stdin w;
     keys := keys w; winsz := winsz w |}.
Definition put_scr (s : screen) (w : World) : World :=
  {| doc := doc w; scr := s; trace := trace w; stdin := stdin w;
     keys := keys w; winsz := winsz w |}.
Definition put_trace (t : list event) (w : World) : World :=
  {| doc := doc w; scr := scr w; trace := t; stdin := stdin w;
     keys := keys w; winsz := winsz w |}.
Definition put_stdin (i : list byte) (w : World) : World :=
  {| doc := doc w; scr := scr w; trace := trace w; stdin := i;
     keys := keys w; winsz := winsz w |}.
Definition put_keys (k : list Z) (w : World) : World :=
  {| doc := doc w; scr := scr w; trace := trace w; stdin := stdin w;
     keys := k; winsz := winsz w |}.

(** ** A state and exception monad over the world *)

Definition M (A : Type) : Type := World -> outcome A * World.

Definition ret {A} (a : A) : M A := fun w => (Returned a, w).
Definition raise {A} (e : exn) : M A := fun w => (Raised e, w).
Definition block {A} : M A := fun w => (Blocked, w).

Definition bind {A B} (m : M A) (f : A -> M B) : M B :=
  fun w =>
    match m w with
    | (Returned a, w') => f a w'
    | (Raised e, w') => (Raised e, w')
    | (Blocked, w') => (Blocked, w')
    end.

Declare Scope py_scope.
Delimit Scope py_scope with py.
Notation "x <- m ;; k" := (bind m (fun x => k))
  (at level 100, m at next level, right associativity) : py_scope.
Notation "m ;;; k" := (bind m (fun _ => k))
  (at level 100, right associativity) : py_scope.
Local Open Scope py_scope.

Definition get_doc : M Document := fun w => (Returned (doc w), w).
Definition get_scr : M screen := fun w => (Returned (scr w), w).
Definition set_doc (d : Document) : M unit :=
  fun w => (Returned tt, put_doc d w).
Definition modify_doc (f : Document -> Document) : M unit :=
  fun w => (Returned tt, put_doc (f (doc w)) w).
(** A [Document] method that can raise, run on the shared document. *)
Definition run_doc (f : Document -> outcome Document) : M unit :=
  fun w =>
    match f (doc w) with
    | Returned d => (Returned tt, put_doc d w)
    | Raised e => (Raised e, w)
    | Blocked => (Blocked, w)
    end.
Definition emit (e : event) : M unit :=
  fun w => (Returned tt, put_trace (trace w ++ [e]) w).
Definition emit_all (es : list event) : M unit :=
  fun w => (Returned tt, put_trace (trace w ++ es) w).

(** [scr.stdscr.getch()] in blocking mode. *)
Definition getch : M Z :=
  fun w =>
    match keys w with
    | [] => (Blocked, w)
    | k :: rest => (Returned k, put_keys rest w)
    end.

(** [self.page_states[p].stale = b] and its siblings: [None] is the
    [IndexError] of the subscript. *)
Definition update_page_state (f : Page_State -> Page_State) (p : Z)
  : M unit :=
  fun w =>
    match py_index (page_states (doc w)) p with
    | None => (Raised IndexError, w)
    | Some s =>
        match py_setitem (page_states (doc w)) p (f s) with
        | None => (Raised IndexError, w)
        | Some ps => (Returned tt, put_doc (with_page_states (doc w) ps) w)
        end
    end.

(* ===================================================================== *)
(** * Kitty graphics functions *)
(* ===================================================================== *)

Module Kitty.

(** ** dict operations *)

Fixpoint dict_get (k : string) (d : dict) : option value :=
  match d with
  | [] => None
  | (k', v) :: rest => if String.eqb k k' then Some v else dict_get k rest
  end.

(** [d[k] = v]: an existing key keeps its position, a new one goes last. *)
Fixpoint dict_set (k : string) (v : value) (d : dict) : dict :=
  match d with
  | [] => [(k, v)]
  | (k', v') :: rest =>
      if String.eqb k k' then (k', v) :: rest
      else (k', v') :: dict_set k v rest
  end.

Definition dict_keys (d : dict) : list string := map fst d.

(** [a != b] on command values; an int never equals a string. *)
Definition value_neq (a b : value) : bool :=
  match a, b with
  | VInt x, VInt y => negb (x =? y)
  | VStr x, VStr y => negb (String.eqb x y)
  | _, _ => true
  end.

(** ** serialize_gr_command *)

Definition str_of_Z (z : Z) : string :=
  DecimalString.NilZero.string_of_int (Z.to_int z).

Definition str_of_value (v : value) : string :=
  match v with
  | VInt z => str_of_Z z
  | VStr s => s
  end.

(** [','.join('{}={}'.format(k, v) for k, v in cmd.items())] *)
Fixpoint join_items (d : dict) : string :=
  match d with
  | [] => ""
  | [(k, v)] => k ++ "=" ++ str_of_value v
  | (k, v) :: rest => k ++ "=" ++ str_of_value v ++ "," ++ join_items rest
  end.

Definition ESC : byte := "027"%byte.

Definition serialize_gr_command (cmd : dict) (payload : option (list byte))
  : list byte :=
  let cmd := join_items cmd in
  let head := [ESC; "_"%byte; "G"%byte] ++ list_byte_of_string cmd in
  let body := match payload with
              | None | Some [] => []               (* [if payload:] *)
              | Some p => ";"%byte :: p
              end in
  head ++ body ++ [ESC; "\"%byte].

(** ** write_gr_cmd *)
Definition write_gr_cmd (cmd : dict) (payload : option (list byte))
  : M unit :=
  emit (Gr cmd payload).

(** ** write_gr_cmd_with_response *)

(** [resp[-2:] != b'\033\\'] negated: the buffer ends with ESC backslash. *)
Definition ends_with_ST (resp : list byte) : bool :=
  match rev resp with
  | b2 :: b1 :: _ => Byte.eqb b1 ESC && Byte.eqb b2 "\"%byte
  | _ => false
  end.

(** The [while] loop: bytes are taken from stdin one at a time until the
    buffer ends with the terminator. [None]: stdin never delivers it. *)
Fixpoint read_response (resp : list byte) (input : list byte)
  : option (list byte * list byte) :=
  if ends_with_ST resp then Some (resp, input)
  else match input with
       | [] => None
       | b :: rest => read_response (resp ++ [b]) rest
       end.

(** [needle in hay] on bytes. *)
Fixpoint is_prefix (needle hay : list byte) : bool :=
  match needle, hay with
  | [], _ => true
  | _ :: _, [] => false
  | a :: n', b :: h' => Byte.eqb a b && is_prefix n' h'
  end.
Fixpoint bytes_in (needle hay : list byte) : bool :=
  is_prefix needle hay ||
  match hay with
  | [] => false
  | _ :: h' => bytes_in needle h'
  end.

Definition OK : list byte := ["O"%byte; "K"%byte].

Definition write_gr_cmd_with_response (cmd : dict)
    (payload : option (list byte)) : M bool :=
  write_gr_cmd cmd payload ;;;
  fun w =>
    match read_response [] (stdin w) with
    | None => (Blocked, put_stdin [] w)
    | Some (resp, rest) => (Returned (bytes_in OK resp), put_stdin rest w)
    end.

(** ** base64.standard_b64encode *)

Definition b64_alphabet : list byte :=
  list_byte_of_string
    "ABCDEFGHIJKLMNOPQRSTUVWXYZabcdefghijklmnopqrstuvwxyz0123456789+/".

Definition b64_char (n : N) : byte :=
  nth (N.to_nat n) b64_alphabet "="%byte.

Fixpoint standard_b64encode (data : list byte) : list byte :=
  match data with
  | [] => []
  | [a] =>
      let x := Byte.to_N a in
      [b64_char (x / 4); b64_char ((x mod 4) * 16); "="%byte; "="%byte]
  | [a; b] =>
      let x := Byte.to_N a in
      let y := Byte.to_N b in
      [b64_char (x / 4); b64_char ((x mod 4) * 16 + y / 16);
       b64_char ((y mod 16) * 4); "="%byte]
  | a :: b :: c :: rest =>
      let x := Byte.to_N a in
      let y := Byte.to_N b in
      let z := Byte.to_N c in
      b64_char (x / 4) :: b64_char ((x mod 4) * 16 + y / 16)
        :: b64_char ((y mod 16) * 4 + z / 64) :: b64_char (z mod 64)
        :: standard_b64encode rest
  end%N.

(** ** write_chunked *)

(** The [while data:] loop. It returns the frames written, in order, and
    the command dict as the loop leaves it ([cmd.clear()] empties the
    caller's dict after every frame). *)
(** The chunk limit, 4096 encoded bytes. The constant is kept folded in
    proofs. *)
Definition chunk_size : nat := Z.to_nat 4096.
#[global] Opaque chunk_size.

Equations? chunk_loop (cmd : dict) (data : list byte)
  : list event * dict by wf (length data) lt :=
chunk_loop cmd [] := ([], cmd);
chunk_loop cmd (b :: data') :=
  let chunk := firstn chunk_size (b :: data') in
  let data := skipn chunk_size (b :: data') in
  let m := match data with [] => 0 | _ :: _ => 1 end in
  let cmd := dict_set "m" (VInt m) cmd in
  let r := chunk_loop [] data in
  (Gr cmd (Some chunk) :: fst r, snd r).
Proof.
  subst data. rewrite length_skipn. cbn [length].
  assert (0 < chunk_size)%nat
    by (with_strategy transparent [chunk_size] (unfold chunk_size); lia).
  lia.
Qed.

Section WriteChunked.
(** [zlib.compress] *)
Variable zlib_compress : list byte -> list byte.

(** The payload as it goes on the wire, and the command as the first
    frame sees it: compressed, with [o=z], unless [f] is 100. *)
Definition encoded_payload (f : value) (data : list byte) : list byte :=
  let data := if value_neq f (VInt 100) then zlib_compress data
              else data in
  standard_b64encode data.

Definition write_chunked (cmd : dict) (data : list byte) : M dict :=
  match dict_get "f" cmd with
  | None => raise (KeyError "f")
  | Some f =>
      let '(data, cmd) :=
        if value_neq f (VInt 100)
        then (zlib_compress data, dict_set "o" (VStr "z") cmd)
        else (data, cmd) in
      let data := standard_b64encode data in
      let r := chunk_loop cmd data in
      emit_all (fst r) ;;;
      ret (snd r)
  end.
End WriteChunked.

End Kitty.
Import Kitty.

(* ===================================================================== *)
(** * status_bar.update: the text of the bar *)
(* ===================================================================== *)

(** The strings of [status_bar.update] as lists of code points, so that
    [len] counts characters and the ellipsis is one of them. [update]
    returns the message as it leaves it and the text it places in the last
    row; a negative [me_w] makes the format specification ['^-n'], which
    [str.format] refuses for a string with ValueError. *)
Module BarText.

Definition text : Type := list Z.

(** A [str] whose characters are all below 256. *)
Definition text_of (s : string) : text :=
  map (fun c => Z.of_nat (nat_of_ascii c)) (list_ascii_of_string s).

Definition len (s : text) : Z := Z.of_nat (length s).

Definition ELLIPSIS : Z := 8230.

(** [s[:k]] *)
Definition py_slice_to (s : text) (k : Z) : text :=
  if 0 <=? k then take (Z.to_nat k) s
  else take (Z.to_nat (len s + k)) s.

(** ['{:^{w}}'.format(s)] for a width [w >= 0]: the padding that does not
    divide evenly goes to the right. *)
Definition center (s : text) (w : Z) : text :=
  let total := w - len s in
  if total <=? 0 then s
  else repeat 32 (Z.to_nat (total / 2)) ++ s
         ++ repeat 32 (Z.to_nat (total - total / 2)).

(** [self.counter] *)
Definition counter (d : Document) : text :=
  let p := page_to_logical d None in
  let pc := page_to_logical d (Some (pages d)) in
  if pc =? pageCount (base d) then
    text_of ("[" ++ str_of_Z p ++ "/" ++ str_of_Z pc ++ "]")
  else
    let pf := page_to_logical d (Some 0) in
    text_of ("[" ++ str_of_Z pf ++ "(" ++ str_of_Z p ++ ")"
                 ++ str_of_Z pc ++ "]").

(** status_bar.update, up to the call of [place_string]. *)
Definition update (cmd message : text) (d : Document) (cols : Z)
  : outcome (text * text) :=
  let counter := counter d in
  let w := cols in
  let cm_w := len cmd in
  let co_w := len counter in
  let me_w := w - cm_w - co_w - 2 in
  let message := if len message >? me_w
                 then py_slice_to message (me_w - 1) ++ [ELLIPSIS]
                 else message in
  if me_w <? 0 then Raised ValueError
  else Returned (message,
                 cmd ++ [32] ++ center message me_w ++ [32] ++ counter).

End BarText.

(* ===================================================================== *)
(** * Libraries and sub-modes outside the modelled core *)
(* ===================================================================== *)

(** class status_bar: the command echo and the message, both Python
    strings kept as their code points. *)
Record status_bar := mkBar {
  bar_cmd     : list Z;
  bar_message : BarText.text
}.

(** What the viewer calls but this development does not define: zlib, the
    pixel operations of fitz, curses, the timing of the keyboard, and the
    two sub-modes that talk to the clipboard and to the editor.

    [curses_text_win h w y x length header] stands for the curses calls of
    [screen.create_text_win] ([newwin(h, w, y, x)], [box], [addstr],
    [refresh], [newpad(length, 1000)]): [None] when one of them raises
    [curses.error], otherwise the [(h, w)] that [getmaxyx] reports for the
    new window.

    [swallowed ks] is the number of keys at the head of the key queue [ks]
    that arrive while [screen.swallow_keys] is polling (its first [getch]
    and the 0.1 s that follow).

    [visual_mode] receives the document, the screen, the bar and the
    pending keys; it hands back the bar, the keys it left unread and what
    it wrote. Neither sub-mode assigns to a field of the [Document] that
    is modelled here. *)
Class Externals := {
  zlib_compress   : list byte -> list byte;
  invertIRect     : Pixmap -> Pixmap;
  tintWith        : Z -> Z -> Z -> Pixmap -> Pixmap;
  getColor        : string -> Q * Q * Q;
  curses_text_win : Z -> Z -> Z -> Z -> Z -> string -> option (Z * Z);
  swallowed       : list Z -> nat;
  visual_mode     : Document -> screen -> status_bar -> list Z ->
                    outcome status_bar * list Z * list event;
  send_to_neovim  : string -> outcome unit * list event
}.

(* ===================================================================== *)
(** * Float arithmetic *)
(* ===================================================================== *)

(** A Python float is a binary64 number. Here it is the rational it
    denotes, and an operation on floats is the exact operation followed by
    [round64], rounding to the nearest binary64 number, ties to the even
    mantissa. The exponent range is not modelled: overflow, subnormal
    numbers, infinities and NaN do not occur for the pixel counts and page
    sizes the viewer computes with. The control flow (which divisions can
    raise) is the source's.

    The fields of [screen] are read from an array of unsigned shorts and
    are exact as floats. [truediv] is the quotient taken exactly; set_layout
    uses it for [page / pages], where the product [pages * pct] that it
    then rounds to an integer is off by far less than 1/2 in either
    arithmetic. *)
Module Num.

(** The nearest binary64 number: the mantissa [m] has 53 bits,
    [2^52 <= m <= 2^53], and the result is [m * 2^-s]. *)
Definition round64 (x : Q) : Q :=
  let n := Qnum x in
  let d := Zpos (Qden x) in
  if n =? 0 then 0%Q
  else
    let a := Z.abs n in
    let e0 := Z.log2 a - Z.log2 d in
    let below := if 0 <=? e0 then a <? d * 2 ^ e0
                 else a * 2 ^ (- e0) <? d in
    let e := if below then e0 - 1 else e0 in
    let s := 52 - e in
    let num := if 0 <=? s then a * 2 ^ s else a in
    let den := if 0 <=? s then d else d * 2 ^ (- s) in
    let q := num / den in
    let r := num mod den in
    let m := if 2 * r <? den then q
             else if den <? 2 * r then q + 1
             else if Z.even q then q else q + 1 in
    let v := if 0 <=? s then Qred (m # Z.to_pos (2 ^ s))
             else inject_Z (m * 2 ^ (- s)) in
    if n <? 0 then Qopp v else v.

(** [a / b] on floats: ZeroDivisionError when [b == 0]. *)
Definition fdiv (a b : Q) : M Q :=
  if Qeq_bool b 0 then raise ZeroDivisionError
  else ret (round64 (a / b)).

(** [a * b] and [a - b] on floats. *)
Definition fmul (a b : Q) : Q := round64 (a * b).
Definition fsub (a b : Q) : Q := round64 (a - b).

(** [a / b], exact; ZeroDivisionError when [b == 0]. *)
Definition truediv (a b : Q) : M Q :=
  if Qeq_bool b 0 then raise ZeroDivisionError else ret (a / b)%Q.

(** [int(x)]: truncation toward zero. *)
Definition py_int (x : Q) : Z := Z.quot (Qnum x) (Zpos (Qden x)).

(** [min(a, b)] on floats. *)
Definition py_minQ (a b : Q) : Q := if Qle_bool a b then a else b.

(** [round(x)]: to the nearest integer, ties to the even one. *)
Definition py_round (x : Q) : Z :=
  let f := Qfloor x in
  let r := (x - inject_Z f)%Q in
  match Qcompare r (1 # 2) with
  | Lt => f
  | Gt => f + 1
  | Eq => if Z.even f then f else f + 1
  end.

End Num.
Import Num.

(* ===================================================================== *)
(** * screen methods *)
(* ===================================================================== *)

Module Screen.

(** screen.get_size *)
Definition get_size : M unit :=
  fun w =>
    let '(r, c, wd, h) := winsz w in
    let cw := wd / (if c =? 0 then 1 else c) in
    let ch := h / (if r =? 0 then 1 else r) in
    (Returned tt,
     put_scr {| rows := r; cols := c; width := wd; height := h;
                cell_width := cw; cell_height := ch |} w).

(** screen.init_curses *)
Definition init_curses : M unit := emit Curses_init.

(** screen.clear *)
Definition clear : M unit := emit Clear_screen.

(** screen.set_cursor *)
Definition set_cursor (c r : Z) : M unit :=
  s <- get_scr ;;
  let c := if c >? cols s then cols s else if c <? 0 then 0 else c in
  let r := if r >? rows s then rows s else if r <? 0 then 0 else r in
  emit (Set_cursor r c).

Section Curses.
Context {X : Externals}.

(** The dimensions that screen.create_text_win calculates and what curses
    makes of them: [None] when one of its curses calls raises curses.error,
    else the [(h, w)] that [win.getmaxyx()] reports for the window. *)
Definition new_text_win (s : screen) (length : Z) (header : string)
  : option (Z * Z) :=
  (* calculate dimensions *)
  let w := py_max (cols s - 4) 60 in
  let h := rows s - 2 in
  let x := py_int (fsub (round64 (inject_Z (cols s) / 2))
                        (round64 (inject_Z w / 2))) in
  let y := 1 in
  curses_text_win h w y x length header.

(** screen.create_text_win *)
Definition create_text_win (length : Z) (header : string) : M (Z * Z) :=
  s <- get_scr ;;
  match new_text_win s length header with
  | None => raise CursesError
  | Some hw =>
      emit (Text_win length header) ;;;
      ret hw
  end.

(** screen.swallow_keys: the keys that arrive while it polls are read and
    discarded. *)
Definition swallow_keys : M unit :=
  fun w =>
    (Returned tt, put_keys (drop (swallowed (keys w)) (keys w)) w).

End Curses.

End Screen.

(* ===================================================================== *)
(** * Document: display and cache *)
(* ===================================================================== *)

Section Display.
Context {X : Externals}.

(** Document.clear_page *)
Definition clear_page (p : Z) : M unit :=
  let cmd := [("a", VStr "d"); ("d", VStr "a"); ("i", VInt (p + 1))] in
  write_gr_cmd cmd None.

(** Lines 349-374 of display_page: render the page and send the image. *)
Definition render_and_transmit (pg : fitz_Page) (cc : crop_choice)
    (p : Z) (factor : Q) : M unit :=
  d <- get_doc ;;
  emit (Engine_getPixmap p cc factor (rotation d) (alpha d)) ;;;
  let pix := getPixmap pg cc factor (rotation d) (alpha d) in
  let pix := if invert d then invertIRect pix else pix in
  let pix :=
    if tint d then
      let '(t0, t1, t2) := getColor (tint_color d) in
      let red := py_int (t0 * 256) in
      let blue := py_int (t1 * 256) in
      let green := py_int (t2 * 256) in
      tintWith red blue green pix
    else pix in
  let cmd := [("i", VInt (p + 1)); ("t", VStr "d");
              ("s", VInt (pix_width pix)); ("v", VInt (pix_height pix))] in
  let cmd := if alpha d then dict_set "f" (VInt 32) cmd
             else dict_set "f" (VInt 24) cmd in
  write_chunked zlib_compress cmd (samples pix) ;;;
  ret tt.

(** Lines 302-344 of display_page: load the page, pick the crop box,
    compute the zoom factor and the placement, store both in the page
    state and move the cursor. The result is what the rest of the method
    uses: the page, the crop box, the factor and the [page_state] object
    fetched at line 303. *)
Definition layout_page (p : Z)
  : M (fitz_Page * crop_choice * Q * Page_State) :=
  d <- get_doc ;;
  s <- get_scr ;;
  match loadPage (base d) p with
  | None => raise EngineError
  | Some pg =>
  match py_index (page_states d) p with
  | None => raise IndexError
  | Some page_state =>
    let cc := if autocrop d then Crop_auto
              else if isPDF (base d) then Crop_media
              else Crop_keep in
    let dw := inject_Z (width s) in
    let dh := inject_Z (height s - cell_height s) in
    let pw := if (rotation d =? 0) || (rotation d =? 180)
              then fst (bound pg cc) else snd (bound pg cc) in
    let ph := if (rotation d =? 0) || (rotation d =? 180)
              then snd (bound pg cc) else fst (bound pg cc) in
    (* calculate zoom factor *)
    fx <- fdiv dw pw ;;
    fy <- fdiv dh ph ;;
    let factor := py_minQ fx fy in
    update_page_state (set_factor factor) p ;;;
    (* calculate zoomed dimensions *)
    let zw := fmul factor pw in
    let zh := fmul factor ph in
    (* calculate place in pixels, convert to cells *)
    let pix_x := fsub (round64 (dw / 2)) (round64 (zw / 2)) in
    let pix_y := fsub (round64 (dh / 2)) (round64 (zh / 2)) in
    qx <- fdiv pix_x (inject_Z (cell_width s)) ;;
    let l_col := py_int qx in
    qy <- fdiv pix_y (inject_Z (cell_height s)) ;;
    let t_row := py_int qy in
    qw <- fdiv zw (inject_Z (cell_width s)) ;;
    let r_col := l_col + py_int qw in
    qh <- fdiv zh (inject_Z (cell_height s)) ;;
    let b_row := t_row + py_int qh in
    let place := (l_col, t_row, r_col, b_row) in
    update_page_state (set_place place) p ;;;
    (* move cursor to place *)
    Screen.set_cursor l_col t_row ;;;
    ret (pg, cc, factor, page_state)
  end
  end.

(** Lines 376-385 of display_page, the body of [if display:].

    [bar] in the failure branch (line 384) is neither a parameter nor a
    local of [display_page], and the module defines no global of that
    name (the only [bar] is a local variable of [view]): evaluating
    [bar.message = ...] raises NameError, so lines 385-389 are not
    reached on that path. *)
Definition confirm_display (p : Z) : M unit :=
  d <- get_doc ;;
  (* clear prevpage *)
  clear_page (prevpage d) ;;;
  (* display the image *)
  let cmd := [("a", VStr "p"); ("i", VInt (p + 1)); ("z", VInt (-1))] in
  success <- write_gr_cmd_with_response cmd None ;;
  if success then ret tt
  else
    update_page_state (set_stale true) p ;;;
    raise (NameError "bar").

(** Document.display_page *)
Definition display_page (p : Z) (display : bool) : M unit :=
  r <- layout_page p ;;
  let '(pg, cc, factor, page_state) := r in
  (if stale page_state
   then render_and_transmit pg cc p factor
   else ret tt) ;;;
  (if display then confirm_display p else ret tt) ;;;
  update_page_state (set_stale false) p ;;;
  Screen.swallow_keys.

(** Document.set_layout; [fontsize=None] is the default. [if fontsize:]
    is false for [None] and for [0]. *)
Definition set_layout (fontsize_arg : option Z) : M unit :=
  d <- get_doc ;;
  s <- get_scr ;;
  pct <- truediv (inject_Z (page d)) (inject_Z (pages d)) ;;
  let w := width s in
  let h := height s in
  let given := match fontsize_arg with
               | Some f => negb (f =? 0)
               | None => false
               end in
  let f := match fontsize_arg with
           | Some f => if given then f else fontsize d
           | None => fontsize d
           end in
  (if given then modify_doc (fun d => with_fontsize d f) else ret tt) ;;;
  emit (Engine_layout w h f) ;;;
  modify_doc (fun d => goto_page d (py_round (inject_Z (pages d) * pct))).

(** Document.make_link *)
Definition make_link (d : Document) : string :=
  let p := page_to_logical d (Some (page d)) in
  match key d with
  | Some k =>
      if String.eqb k "" then "[" ++ str_of_Z p ++ "]"
      else "[" ++ k ++ ", " ++ str_of_Z p ++ "]"
  | None => "[" ++ str_of_Z p ++ "]"
  end.

End Display.

(* ===================================================================== *)
(** * Key bindings *)
(* ===================================================================== *)

(** class shortcuts. The [curses.KEY_*] constants are the ncurses key
    codes. *)
Module shortcuts.

Definition ord (c : ascii) : Z := Z.of_nat (nat_of_ascii c).

Definition KEY_DOWN   : Z := 258.
Definition KEY_UP     : Z := 259.
Definition KEY_LEFT   : Z := 260.
Definition KEY_RIGHT  : Z := 261.
Definition KEY_ENTER  : Z := 343.
Definition KEY_RESIZE : Z := 410.

Definition GOTO_PAGE        : list Z := [ord "G"].
Definition GOTO             : list Z := [ord "g"].
Definition NEXT_PAGE        : list Z := [ord "j"; KEY_DOWN; ord " "].
Definition PREV_PAGE        : list Z := [ord "k"; KEY_UP].
Definition NEXT_CHAP        : list Z := [ord "l"; KEY_RIGHT].
Definition PREV_CHAP        : list Z := [ord "h"; KEY_LEFT].
Definition HINTS            : list Z := [ord "f"].
Definition OPEN             : list Z := [KEY_ENTER; KEY_RIGHT; 10].
Definition SHOW_TOC         : list Z := [ord "t"].
Definition SHOW_META        : list Z := [ord "M"].
Definition SHOW_URLS        : list Z := [ord "u"].
Definition TOGGLE_TEXT_MODE : list Z := [ord "T"].
Definition ROTATE_CW        : list Z := [ord "r"].
Definition ROTATE_CCW       : list Z := [ord "R"].
Definition VISUAL_MODE      : list Z := [ord "v"].
Definition YANK             : list Z := [ord "y"].
Definition SEND_NOTE        : list Z := [ord "n"].
Definition TOGGLE_AUTOCROP  : list Z := [ord "c"].
Definition TOGGLE_ALPHA     : list Z := [ord "a"].
Definition TOGGLE_INVERT    : list Z := [ord "i"].
Definition TOGGLE_TINT      : list Z := [ord "d"].
Definition INC_FONT         : list Z := [ord "+"].
Definition DEC_FONT         : list Z := [ord "-"].
Definition REFRESH          : list Z := [18; KEY_RESIZE].
Definition QUIT             : list Z := [3; ord "q"].
Definition DEBUG            : list Z := [ord "D"].

(** [key in keys.X] *)
Definition key_in (key : Z) (set : list Z) : bool :=
  existsb (Z.eqb key) set.

(** [key in range(a, b)] *)
Definition in_range (key a b : Z) : bool := (a <=? key) && (key <? b).

End shortcuts.
Import shortcuts.

(* ===================================================================== *)
(** * Overlay list browsers *)
(* ===================================================================== *)

Section Viewer.
Context {X : Externals}.

(** clean_exit: curses is closed, the document is closed, SystemExit. *)
Definition clean_exit {A} : M A :=
  emit Curses_end ;;;
  raise (SystemExit "").

Definition set_message (b : status_bar) (m : BarText.text) : status_bar :=
  {| bar_cmd := bar_cmd b; bar_message := m |}.
Definition set_cmd (b : status_bar) (c : list Z) : status_bar :=
  {| bar_cmd := c; bar_message := bar_message b |}.

(** status_bar.update: the bar is laid out, the message is cut to the room
    it has, and the text is placed in the last row ([place_string] is
    [set_cursor] and a write). The result is the bar with the message as
    [update] leaves it. *)
Definition bar_update (b : status_bar) : M status_bar :=
  d <- get_doc ;;
  s <- get_scr ;;
  match BarText.update (bar_cmd b) (bar_message b) d (cols s) with
  | Raised e => raise e
  | Blocked => block
  | Returned (message, bar) =>
      Screen.set_cursor 1 (rows s) ;;;
      emit (Bar_update bar) ;;;
      ret (set_message b message)
  end.

(** Document.goto_link *)
Definition goto_link (l : link) : M unit :=
  let kind := link_kind l in
  if kind =? 0 then ret tt
  else if kind =? 1 then modify_doc (fun d => goto_page d (link_page l))
  else if kind =? 2 then emit (Open_uri (link_uri l))
  else ret tt.

(** What the OPEN key does in an overlay: the table of contents jumps
    to the entry's page and closes, the link list follows the link and
    closes, the metadata list does nothing and stays open. The result is
    [true] when the overlay returns. *)
Inductive overlay_kind :=
| Overlay_toc (toc : list toc_entry)
| Overlay_meta (meta : list (string * string))
| Overlay_urls (urls : list link).

Definition overlay_len (k : overlay_kind) : Z :=
  match k with
  | Overlay_toc toc => Z.of_nat (length toc)
  | Overlay_meta meta => Z.of_nat (length meta)
  | Overlay_urls urls => Z.of_nat (length urls)
  end.

Definition overlay_toggle (k : overlay_kind) : list Z :=
  match k with
  | Overlay_toc _ => SHOW_TOC
  | Overlay_meta _ => SHOW_META
  | Overlay_urls _ => SHOW_URLS
  end.

Definition overlay_header (k : overlay_kind) : string :=
  match k with
  | Overlay_toc _ => "Table of Contents"
  | Overlay_meta _ => "Metadata"
  | Overlay_urls _ => "URLs"
  end.

Definition overlay_open (k : overlay_kind) (index : Z) : M bool :=
  match k with
  | Overlay_toc toc =>
      Screen.clear ;;;
      match py_index toc index with
      | None => raise IndexError
      | Some ch =>
          modify_doc (fun d => goto_page d (toc_page ch - 1)) ;;;
          ret true
      end
  | Overlay_meta _ => ret false
  | Overlay_urls urls =>
      match py_index urls index with
      | None => raise IndexError
      | Some l =>
          goto_link l ;;;
          Screen.clear ;;;
          ret true
      end
  end.

(** init_pad, the local function of each overlay: the window height and
    width it returns come from [create_text_win]. *)
Definition init_pad (k : overlay_kind) : M (Z * Z) :=
  Screen.create_text_win (overlay_len k) (overlay_header k).

(** The selection step of the NEXT_PAGE and PREV_PAGE branches. *)
Definition overlay_next (len index : Z) : Z := py_min (len - 1) (index + 1).
Definition overlay_prev (index : Z) : Z := py_max 0 (index - 1).

(** The two [if]s that close every loop iteration. *)
Definition overlay_scroll (h index j : Z) : Z :=
  let j := if index >? j + (h - 5) then j + 1 else j in
  if index <? j then j - 1 else j.

(** The [while True:] loop shared by show_toc, show_meta and show_urls,
    by recursion on the keys still to be delivered. *)
Fixpoint overlay_loop (k : overlay_kind) (h : Z) (ks : list Z)
    (index j : Z) (w : World) : outcome unit * World :=
  let w := put_trace (trace w ++ [Pad_refresh index j]) w in
  match ks with
  | [] => (Blocked, put_keys [] w)
  | key :: rest =>
      let w := put_keys rest w in
      let continue index w :=
        overlay_loop k h rest index (overlay_scroll h index j) w in
      if key_in key REFRESH then
        match (Screen.clear ;;;
               Screen.get_size ;;;
               Screen.init_curses ;;;
               set_layout None ;;;
               modify_doc mark_all_pages_stale ;;;
               init_pad k) w with
        | (Returned _, w') => continue index w'
        | (Raised e, w') => (Raised e, w')
        | (Blocked, w') => (Blocked, w')
        end
      else if key_in key QUIT then clean_exit w
      else if (key =? 27) || key_in key (overlay_toggle k) then
        Screen.clear w
      else if key_in key NEXT_PAGE then
        continue (overlay_next (overlay_len k) index) w
      else if key_in key PREV_PAGE then
        continue (overlay_prev index) w
      else if key_in key OPEN then
        match overlay_open k index w with
        | (Returned true, w') => (Returned tt, w')
        | (Returned false, w') => continue index w'
        | (Raised e, w') => (Raised e, w')
        | (Blocked, w') => (Blocked, w')
        end
      else continue index w
  end.

(** The part common to the three overlays after the emptiness test. *)
Definition overlay (k : overlay_kind) (index : Z) : M unit :=
  d <- get_doc ;;
  update_page_state (set_stale true) (page d) ;;;
  clear_page (page d) ;;;
  Screen.clear ;;;
  hw <- init_pad k ;;
  fun w => overlay_loop k (fst hw) (keys w) index 0 w.

(** Document.show_toc *)
Definition show_toc (b : status_bar) : M status_bar :=
  d <- get_doc ;;
  let toc := getToC (base d) in
  match toc with
  | [] => ret (set_message b (BarText.text_of "No ToC available"))
  | _ :: _ =>
      overlay (Overlay_toc toc) (current_chap d) ;;;
      ret b
  end.

(** Document.show_meta *)
Definition show_meta (b : status_bar) : M status_bar :=
  d <- get_doc ;;
  let meta := metadata (base d) in
  match meta with
  | [] => ret (set_message b (BarText.text_of "No metadata available"))
  | _ :: _ =>
      overlay (Overlay_meta meta) 0 ;;;
      ret b
  end.

(** Document.show_urls *)
Definition show_urls (b : status_bar) : M status_bar :=
  d <- get_doc ;;
  let links := getLinks (base d) (page d) in
  let urls := filter (fun l => (0 <? link_kind l) && (link_kind l <? 3))
                links in
  match urls with
  | [] => ret (set_message b (BarText.text_of "No urls on page"))
  | _ :: _ =>
      overlay (Overlay_urls urls) 0 ;;;
      ret b
  end.

End Viewer.

(* ===================================================================== *)
(** * The main view loop *)
(* ===================================================================== *)

Section View.
Context {X : Externals}.

(** The local variables of [view] that survive an iteration. *)
Record view_locals := mkLocals {
  bar          : status_bar;
  count_string : string;
  stack        : list Z
}.

(** [int(count_string)] for a string of decimal digits. *)
Fixpoint int_of_digits (acc : Z) (s : string) : option Z :=
  match s with
  | EmptyString => Some acc
  | String c rest =>
      let n := ord c in
      if in_range n 48 58 then int_of_digits (10 * acc + (n - 48)) rest
      else None
  end.

(** [chr(key)] appended to a string, for a key below 256. *)
Definition append_chr (s : string) (key : Z) : string :=
  s ++ String (ascii_of_nat (Z.to_nat key)) EmptyString.

(** Lines 1104-1107. *)
Definition count_of (count_string : string) : M Z :=
  if String.eqb count_string "" then ret 1
  else match int_of_digits 0 count_string with
       | Some n => ret n
       | None => raise ValueError
       end.

(** The resolved-command epilogue [count_string = ""; stack = [0]]. *)
Definition resolved (b : status_bar) : M view_locals :=
  ret {| bar := b; count_string := ""; stack := [0] |}.

(** Lines 1111-1250: one key event, dispatched. *)
Definition view_key (key count : Z) (l : view_locals) : M view_locals :=
  let b := bar l in
  let count_string := count_string l in
  (* printable characters *)
  let stack := if in_range key 48 257 then stack l ++ [key]
               else stack l in
  if key_in key REFRESH then
    Screen.clear ;;;
    Screen.get_size ;;;
    Screen.init_curses ;;;
    set_layout None ;;;
    modify_doc mark_all_pages_stale ;;;
    ret {| bar := b; count_string := count_string; stack := stack |}
  else if key =? 27 then
    Screen.swallow_keys ;;;
    resolved b
  else if in_range key 48 58 then
    ret {| bar := b; count_string := append_chr count_string key;
           stack := stack |}
  else if key_in key QUIT then clean_exit
  else if key_in key GOTO_PAGE then
    d <- get_doc ;;
    let p := if String.eqb count_string ""
             then page_to_logical d (Some (pages d))
             else count in
    modify_doc (fun d => goto_logical_page d (Some p)) ;;;
    resolved b
  else if key_in key NEXT_PAGE then
    modify_doc (fun d => next_page d count) ;;;
    resolved b
  else if key_in key PREV_PAGE then
    modify_doc (fun d => prev_page d count) ;;;
    resolved b
  else if key_in key NEXT_CHAP then
    run_doc (fun d => next_chap d count) ;;;
    resolved b
  else if key_in key PREV_CHAP then
    run_doc (fun d => prev_chap d count) ;;;
    resolved b
  else
  match py_index stack 0 with
  | None => raise IndexError
  | Some stack0 =>
  if key_in stack0 GOTO && key_in key GOTO then
    modify_doc (fun d => goto_page d 0) ;;;
    resolved b
  else if key_in key ROTATE_CW then
    modify_doc (fun d =>
      with_settings d ((rotation d + 90 * count) mod 360)
        (autocrop d) (alpha d) (invert d) (tint d)) ;;;
    modify_doc mark_all_pages_stale ;;;
    resolved b
  else if key_in key ROTATE_CCW then
    modify_doc (fun d =>
      with_settings d ((rotation d - 90 * count) mod 360)
        (autocrop d) (alpha d) (invert d) (tint d)) ;;;
    modify_doc mark_all_pages_stale ;;;
    resolved b
  else if key_in key TOGGLE_AUTOCROP then
    modify_doc (fun d =>
      with_settings d (rotation d)
        (negb (autocrop d)) (alpha d) (invert d) (tint d)) ;;;
    modify_doc mark_all_pages_stale ;;;
    resolved b
  else if key_in key TOGGLE_ALPHA then
    modify_doc (fun d =>
      with_settings d (rotation d)
        (autocrop d) (negb (alpha d)) (invert d) (tint d)) ;;;
    modify_doc mark_all_pages_stale ;;;
    resolved b
  else if key_in key TOGGLE_INVERT then
    modify_doc (fun d =>
      with_settings d (rotation d)
        (autocrop d) (alpha d) (negb (invert d)) (tint d)) ;;;
    modify_doc mark_all_pages_stale ;;;
    resolved b
  else if key_in key TOGGLE_TINT then
    modify_doc (fun d =>
      with_settings d (rotation d)
        (autocrop d) (alpha d) (invert d) (negb (tint d))) ;;;
    modify_doc mark_all_pages_stale ;;;
    resolved b
  else if key_in key SHOW_TOC then
    b <- show_toc b ;;
    resolved b
  else if key_in key SHOW_META then
    b <- show_meta b ;;
    resolved b
  else if key_in key SHOW_URLS then
    b <- show_urls b ;;
    resolved b
  else if key_in key TOGGLE_TEXT_MODE then
    (* doc.view_text(scr) is [pass] *)
    resolved b
  else if key_in key INC_FONT then
    d <- get_doc ;;
    set_layout (Some (fontsize d + count * 2)) ;;;
    modify_doc mark_all_pages_stale ;;;
    resolved b
  else if key_in key DEC_FONT then
    d <- get_doc ;;
    set_layout (Some (fontsize d - count * 2)) ;;;
    modify_doc mark_all_pages_stale ;;;
    resolved b
  else if key_in key VISUAL_MODE then
    (fun w =>
       let '(o, ks, evs) := visual_mode (doc w) (scr w) b (keys w) in
       let w := put_keys ks (put_trace (trace w ++ evs) w) in
       match o with
       | Returned b' => resolved b' w
       | Raised e => (Raised e, w)
       | Blocked => (Blocked, w)
       end)
  else if key_in key SEND_NOTE then
    d <- get_doc ;;
    let text := make_link d in
    (fun w =>
       let '(o, evs) := send_to_neovim text in
       let w := put_trace (trace w ++ evs) w in
       match o with
       | Returned _ => resolved b w
       | Raised e => (Raised e, w)
       | Blocked => (Blocked, w)
       end)
  else
    (* keys.DEBUG is [pass]; any other key matches no branch *)
    ret {| bar := b; count_string := count_string; stack := stack |}
  end.

(** One pass through the body of [while True:] in [view]. *)
Definition view_iteration (l : view_locals) : M view_locals :=
  let b := set_cmd (bar l) (stack l) in
  b <- bar_update b ;;
  d <- get_doc ;;
  display_page (page d) true ;;;
  count <- count_of (count_string l) ;;
  key <- getch ;;
  view_key key count
    {| bar := b; count_string := count_string l; stack := stack l |}.

(** [n] passes through the loop, from given locals. *)
Fixpoint view_iterate (n : nat) (l : view_locals) : M view_locals :=
  match n with
  | O => ret l
  | S n' =>
      l' <- view_iteration l ;;
      view_iterate n' l'
  end.

(** [view(doc, scr)] up to the point where [n] key events have been
    handled. *)
Definition view (n : nat) : M view_locals :=
  Screen.get_size ;;;
  Screen.init_curses ;;;
  d <- get_doc ;;
  let b := {| bar_cmd := [32]; bar_message := [32] |} in
  let b := match key d with
           | Some k => if String.eqb k "" then b
                       else set_message b (BarText.text_of k)
           | None => b
           end in
  view_iterate n {| bar := b; count_string := ""; stack := [0] |}.

End View.

(* ===================================================================== *)
(** * Opening a document *)
(* ===================================================================== *)

(** The options [parse_args] collects: [-p n] is stored as [n - 1],
    [-f n] as [n], [--citekey k] as [k]. *)
Record opts := mkOpts {
  opt_page              : option Z;
  opt_first_page_offset : option Z;
  opt_key               : option string
}.

Definition with_key (d : Document) (k : option string) : Document :=
  {| base := base d; key := k; page := page d; prevpage := prevpage d;
     pages := pages d; first_page_offset := first_page_offset d;
     chapter := chapter d; rotation := rotation d; fontsize := fontsize d;
     autocrop := autocrop d; alpha := alpha d; invert := invert d;
     tint := tint d; tint_color := tint_color d;
     page_states := page_states d |}.

(** Lines 1268-1276 of [main]: open the file, [setattr] every option and
    normalise the page number. *)
Definition main_open (f : fitz_Document) (o : opts) : Document :=
  let d := Document_init f in
  let d := match opt_page o with
           | Some p => with_page d (prevpage d) p
           | None => d
           end in
  let d := match opt_first_page_offset o with
           | Some n => with_first_page_offset d n
           | None => d
           end in
  let d := match opt_key o with
           | Some k => with_key d (Some k)
           | None => d
           end in
  goto_page d (page d).

(* ===================================================================== *)
(** * Sample data *)
(* ===================================================================== *)

Module Sample.

(** A letter-size page rendered as a 2x1 RGB image whatever the zoom. *)
Definition letter_page : fitz_Page :=
  {| bound := fun _ => (612 # 1, 792 # 1)%Q;
     getPixmap := fun _ _ _ _ =>
       {| pix_width := 2; pix_height := 1;
          samples := list_byte_of_string "abcdef" |} |}.

(** A ten-page PDF with five chapters. *)
Definition book : fitz_Document :=
  {| pageCount := 10;
     isPDF := true;
     getToC := [mkToc 1 "One" 1; mkToc 1 "Two" 3; mkToc 1 "Three" 5;
                mkToc 1 "Four" 7; mkToc 1 "Five" 9];
     metadata := [("title", "Book"); ("author", "A. N. Other")];
     loadPage := fun p => if (0 <=? p) && (p <? 10) then Some letter_page
                          else None;
     getLinks := fun _ => [] |}.

(** A ten-page PDF without a table of contents. *)
Definition plain : fitz_Document :=
  {| pageCount := 10; isPDF := true; getToC := []; metadata := [];
     loadPage := fun p => if (0 <=? p) && (p <? 10) then Some letter_page
                          else None;
     getLinks := fun _ => [] |}.

(** Stand-ins for the libraries: a compressor that only adds the two-byte
    zlib header, pixel operations that leave the image alone, a curses that
    opens every window that starts on the screen, a keyboard on which no
    key arrives while swallow_keys polls, and sub-modes that return at
    once. *)
#[local] Instance externals : Externals :=
  {| zlib_compress := fun data => "120"%byte :: "156"%byte :: data;
     invertIRect := fun pix => pix;
     tintWith := fun _ _ _ pix => pix;
     getColor := fun _ => (1, 1, 1)%Q;
     curses_text_win := fun h w y x _ _ =>
       if (0 <? h) && (0 <=? y) && (0 <=? x) then Some (h, w) else None;
     swallowed := fun _ => 0%nat;
     visual_mode := fun _ _ b ks => (Returned b, ks, []);
     send_to_neovim := fun _ => (Returned tt, []) |}.

(** An 80x24 terminal of 800x480 pixels. *)
Definition terminal : Z * Z * Z * Z := (24, 80, 800, 480).

Definition screen80 : screen :=
  {| rows := 24; cols := 80; width := 800; height := 480;
     cell_width := 10; cell_height := 20 |}.

(** The terminal's answer to a display command: success, and failure. *)
Definition resp_ok : list byte :=
  [ESC] ++ list_byte_of_string "_Gi=1;OK" ++ [ESC; "\"%byte].
Definition resp_fail : list byte :=
  [ESC] ++ list_byte_of_string "_Gi=1;ENOENT:no image" ++ [ESC; "\"%byte].

(** An image command as display_page builds it, and 3100 bytes of pixels. *)
Definition image_cmd : dict :=
  [("i", VInt 1); ("t", VStr "d"); ("s", VInt 50); ("v", VInt 62);
   ("f", VInt 24)].
Definition image_data : list byte := repeat "a"%byte 3100.

Definition world (d : Document) (input : list byte) (ks : list Z) : World :=
  {| doc := d; scr := screen80; trace := []; stdin := input; keys := ks;
     winsz := terminal |}.

End Sample.

(* ===================================================================== *)
(** * Reading the trace *)
(* ===================================================================== *)

(** [ceil(a / b)] on naturals. *)
Definition ceil_div (a b : nat) : nat := (a + (b - 1)) / b.

(** Render calls and image frames in a stretch of trace. *)
Definition is_getPixmap (e : event) : bool :=
  match e with
  | Engine_getPixmap _ _ _ _ _ => true
  | _ => false
  end.

Definition is_image_frame (e : event) : bool :=
  match e with
  | Gr _ (Some _) => true
  | _ => false
  end.

Definition renders (t : list event) : nat :=
  length (filter (fun e => is_getPixmap e = true) t).

Definition image_frames (t : list event) : list event :=
  filter (fun e => is_image_frame e = true) t.

(** The selection shown by the last redraw of an overlay. *)
Definition last_selection (t : list event) : option Z :=
  fold_left (fun acc e => match e with
                          | Pad_refresh index _ => Some index
                          | _ => acc
                          end) t None.

(* ===================================================================== *)
(** * Names for what display_page computes *)
(* ===================================================================== *)

(** The crop box chosen at lines 305-311. *)
Definition crop_box (d : Document) : crop_choice :=
  if autocrop d then Crop_auto
  else if isPDF (base d) then Crop_media
  else Crop_keep.

(** [pw] and [ph] of lines 316-321. *)
Definition page_width (d : Document) (pg : fitz_Page) : Q :=
  if (rotation d =? 0) || (rotation d =? 180)
  then fst (bound pg (crop_box d)) else snd (bound pg (crop_box d)).
Definition page_height (d : Document) (pg : fitz_Page) : Q :=
  if (rotation d =? 0) || (rotation d =? 180)
  then snd (bound pg (crop_box d)) else fst (bound pg (crop_box d)).

(** [factor] of line 326. *)
Definition zoom_factor (d : Document) (s : screen) (pg : fitz_Page) : Q :=
  py_minQ (round64 (inject_Z (width s) / page_width d pg))
          (round64 (inject_Z (height s - cell_height s) / page_height d pg)).

(** [place] of line 340. *)
Definition placement (d : Document) (s : screen) (pg : fitz_Page)
  : Z * Z * Z * Z :=
  let dw := inject_Z (width s) in
  let dh := inject_Z (height s - cell_height s) in
  let factor := zoom_factor d s pg in
  let zw := fmul factor (page_width d pg) in
  let zh := fmul factor (page_height d pg) in
  let pix_x := fsub (round64 (dw / 2)) (round64 (zw / 2)) in
  let pix_y := fsub (round64 (dh / 2)) (round64 (zh / 2)) in
  let l_col := py_int (round64 (pix_x / inject_Z (cell_width s))) in
  let t_row := py_int (round64 (pix_y / inject_Z (cell_height s))) in
  let r_col := l_col + py_int (round64 (zw / inject_Z (cell_width s))) in
  let b_row := t_row + py_int (round64 (zh / inject_Z (cell_height s))) in
  (l_col, t_row, r_col, b_row).

(** None of the divisions of lines 324-339 is by zero. *)
Definition layout_defined (d : Document) (s : screen) (pg : fitz_Page)
  : Prop :=
  Qeq_bool (page_width d pg) 0 = false /\
  Qeq_bool (page_height d pg) 0 = false /\
  Qeq_bool (inject_Z (cell_width s)) 0 = false /\
  Qeq_bool (inject_Z (cell_height s)) 0 = false.

(** The cursor position that [set_cursor] writes for a placement. *)
Definition cursor_event (s : screen) (pl : Z * Z * Z * Z) : event :=
  let '(l_col, t_row, _, _) := pl in
  let c := if l_col >? cols s then cols s
           else if l_col <? 0 then 0 else l_col in
  let r := if t_row >? rows s then rows s
           else if t_row <? 0 then 0 else t_row in
  Set_cursor r c.

(** The two commands of lines 378-381. *)
Definition clear_cmd (p : Z) : event :=
  Gr [("a", VStr "d"); ("d", VStr "a"); ("i", VInt (p + 1))] None.
Definition display_cmd (p : Z) : event :=
  Gr [("a", VStr "p"); ("i", VInt (p + 1)); ("z", VInt (-1))] None.

(** The terminal's next response is complete and contains [OK]
    (acknowledged), or is complete and lacks it (refused). *)
Definition acknowledged (input : list byte) : Prop :=
  exists resp rest,
    read_response [] input = Some (resp, rest) /\ bytes_in OK resp = true.
Definition refused (input : list byte) : Prop :=
  exists resp rest,
    read_response [] input = Some (resp, rest) /\ bytes_in OK resp = false.

(** The stale flag of page [p], when the page has a state. *)
Definition stale_flag (d : Document) (p : Z) : option bool :=
  stale <$> py_index (page_states d) p.

(** Every page state of the document is marked stale. *)
Definition all_stale (d : Document) : Prop :=
  Forall (fun s => stale s = true) (page_states d).

Section RenderNames.
Context {X : Externals}.

(** The pixmap that lines 351-363 end up with. *)
Definition final_pixmap (d : Document) (pg : fitz_Page) (fac : Q) : Pixmap :=
  let pix := getPixmap pg (crop_box d) fac (rotation d) (alpha d) in
  let pix := if invert d then invertIRect pix else pix in
  if tint d then
    let '(t0, t1, t2) := getColor (tint_color d) in
    tintWith (py_int (t0 * 256)) (py_int (t1 * 256)) (py_int (t2 * 256)) pix
  else pix.

(** The command of lines 366-371 as write_chunked sends it with the first
    frame, before the [m] flag is set. *)
Definition transfer_cmd (d : Document) (p : Z) (pix : Pixmap) : dict :=
  [("i", VInt (p + 1)); ("t", VStr "d");
   ("s", VInt (pix_width pix)); ("v", VInt (pix_height pix));
   ("f", VInt (if alpha d then 32 else 24)); ("o", VStr "z")].

(** The image frames of one transmission of page [p]. *)
Definition transfer_frames (d : Document) (p : Z) (pg : fitz_Page) (fac : Q)
  : list event :=
  let pix := final_pixmap d pg fac in
  fst (chunk_loop (transfer_cmd d p pix)
         (standard_b64encode (zlib_compress (samples pix)))).

(** One render-and-transmit cycle of page [p] as it shows in the trace. *)
Definition render_cycle (d : Document) (s : screen) (p : Z) (pg : fitz_Page)
  : list event :=
  Engine_getPixmap p (crop_box d) (zoom_factor d s pg) (rotation d) (alpha d)
    :: transfer_frames d p pg (zoom_factor d s pg).

End RenderNames.


(* ===================================================================== *)
(** * Names for what the dispatcher does *)
(* ===================================================================== *)

(** The six setting keys, each with the settings it leaves behind. *)
Definition toggled (key count : Z) (d : Document) : Document :=
  if key_in key ROTATE_CW then
    with_settings d ((rotation d + 90 * count) mod 360)
      (autocrop d) (alpha d) (invert d) (tint d)
  else if key_in key ROTATE_CCW then
    with_settings d ((rotation d - 90 * count) mod 360)
      (autocrop d) (alpha d) (invert d) (tint d)
  else if key_in key TOGGLE_AUTOCROP then
    with_settings d (rotation d) (negb (autocrop d)) (alpha d) (invert d)
      (tint d)
  else if key_in key TOGGLE_ALPHA then
    with_settings d (rotation d) (autocrop d) (negb (alpha d)) (invert d)
      (tint d)
  else if key_in key TOGGLE_INVERT then
    with_settings d (rotation d) (autocrop d) (alpha d) (negb (invert d))
      (tint d)
  else
    with_settings d (rotation d) (autocrop d) (alpha d) (invert d)
      (negb (tint d)).

Definition setting_keys : list Z :=
  ROTATE_CW ++ ROTATE_CCW ++ TOGGLE_AUTOCROP ++ TOGGLE_ALPHA
    ++ TOGGLE_INVERT ++ TOGGLE_TINT.

(** The second press of the chord: the first [g] is on the stack. *)
Definition chord_pending (l : view_locals) : Prop :=
  exists s, stack l = s ++ [ord "g"].


(* ===================================================================== *)
(** * Before the first display of a page *)
(* ===================================================================== *)

(** Page [p] of the document opened from [f] has a state and the state is
    stale. *)
Definition awaiting (f : fitz_Document) (p : Z) (d : Document) : Prop :=
  base d = f /\
  exists ps, page_states d !! Z.to_nat p = Some ps /\ stale ps = true.

(** A computation leaves the document alone, or keeps a property of it. *)
Definition keeps_doc {A} (m : M A) : Prop :=
  forall w, doc (snd (m w)) = doc w.
Definition preserves (I : Document -> Prop) {A} (m : M A) : Prop :=
  forall w, I (doc w) -> I (doc (snd (m w))).

Section Undisplayed.
Context {X : Externals}.

(** The worlds the viewer can be in while page [p] has not been displayed
    since the document was opened: the world at open; from such a world,
    the world after any key event of the view loop, after displaying
    another page, or after anything that does not touch the document (the
    terminal is resized, keys arrive, the status bar is redrawn). *)
Inductive undisplayed (f : fitz_Document) (p : Z) : World -> Prop :=
| undisplayed_open w o :
    doc w = main_open f o -> undisplayed f p w
| undisplayed_key w key count l :
    undisplayed f p w -> undisplayed f p (snd (view_key key count l w))
| undisplayed_other w q display :
    undisplayed f p w -> 0 <= q -> q <> p ->
    undisplayed f p (snd (display_page q display w))
| undisplayed_env w w' :
    undisplayed f p w -> doc w' = doc w -> undisplayed f p w'.

End Undisplayed.


(* ===================================================================== *)
(** * Names used by the further properties *)
(* ===================================================================== *)

(** The payload bytes of a graphics frame. *)
Definition frame_payload (e : event) : list byte :=
  match e with
  | Gr _ (Some p) => p
  | _ => []
  end.

(** A display command ([a=p]) and a clear command ([a=d]). *)
Definition is_display_cmd (e : event) : bool :=
  match e with
  | Gr cmd None =>
      match dict_get "a" cmd with
      | Some (VStr a) => String.eqb a "p"
      | _ => false
      end
  | _ => false
  end.

Section Transmission.
Context {X : Externals}.

(** The frames of one transmission of the pixmap [pix] for page [p], as
    the terminal has to see them: their payloads, put together, are the
    base64 text of the compressed samples, four characters for every three
    bytes; there is one frame for every 4096 characters, none empty and
    none longer; the first carries the image id, the format and the size
    of the pixmap, and announces compressed data. *)
Definition image_sent (d : Document) (p : Z) (pix : Pixmap)
    (frames : list event) : Prop :=
  let data := zlib_compress (samples pix) in
  concat (map frame_payload frames) = standard_b64encode data /\
  length (concat (map frame_payload frames))
    = (4 * ceil_div (length data) 3)%nat /\
  length frames = ceil_div (4 * ceil_div (length data) 3) chunk_size /\
  Forall (fun e => exists c pl, e = Gr c (Some pl) /\
                     (0 < length pl <= chunk_size)%nat) frames /\
  forall c pl rest, frames = Gr c pl :: rest ->
    dict_get "i" c = Some (VInt (p + 1)) /\
    dict_get "t" c = Some (VStr "d") /\
    dict_get "s" c = Some (VInt (pix_width pix)) /\
    dict_get "v" c = Some (VInt (pix_height pix)) /\
    dict_get "f" c = Some (VInt (if alpha d then 32 else 24)) /\
    dict_get "o" c = Some (VStr "z") /\
    dict_get "m" c = Some (VInt (match rest with [] => 0 | _ :: _ => 1 end)).

End Transmission.

(** Two documents that differ at most in the state of page [i]. *)
Definition same_except (i : nat) (d0 d : Document) : Prop :=
  with_page_states d [] = with_page_states d0 [] /\
  length (page_states d) = length (page_states d0) /\
  forall j, j <> i -> page_states d !! j = page_states d0 !! j.

(** Every key that some branch of [view] acts on; [keys.DEBUG] is tested
    for, but its branch is [pass]. *)
Definition bound_keys : list Z :=
  REFRESH ++ QUIT ++ GOTO_PAGE ++ GOTO ++ NEXT_PAGE ++ PREV_PAGE
    ++ NEXT_CHAP ++ PREV_CHAP ++ ROTATE_CW ++ ROTATE_CCW ++ TOGGLE_AUTOCROP
    ++ TOGGLE_ALPHA ++ TOGGLE_INVERT ++ TOGGLE_TINT ++ SHOW_TOC
    ++ SHOW_META ++ SHOW_URLS ++ TOGGLE_TEXT_MODE ++ INC_FONT ++ DEC_FONT
    ++ VISUAL_MODE ++ SEND_NOTE.

(** The current page is a page of the document and every page has a
    state. *)
Definition page_in_document (d : Document) : Prop :=
  0 <= page d <= pages d /\
  Z.of_nat (length (page_states d)) = pages d + 1.

(** The same, with [pages] still [n0]. *)
Definition in_document (n0 : Z) (d : Document) : Prop :=
  page_in_document d /\ pages d = n0.


(** A redraw of an overlay that shows the highlighted row: the row is an
    entry of the list, and it lies in the part of the pad that
    [pad.refresh(j, 0, y + 3, x + 2, y + h - 2, x + w - 3)] puts on the
    screen, rows [j] to [j + (h - 5)]. *)
Definition row_visible (len h : Z) (e : event) : Prop :=
  match e with
  | Pad_refresh index j =>
      0 <= index < len /\ 0 <= j <= index /\ index <= j + (h - 5)
  | _ => True
  end.

Definition is_pad_refresh (e : event) : bool :=
  match e with
  | Pad_refresh _ _ => true
  | _ => false
  end.

(** A computation that only appends to the trace, and no redraw. *)
Definition no_redraw {A} (m : M A) : Prop :=
  forall w, exists t,
    trace (snd (m w)) = trace w ++ t /\
    Forall (fun e => is_pad_refresh e = false) t.


(** Two more sample documents: an eight-page paper whose first section
    starts on its third page and whose first page carries four links, and
    a leaflet of a single page. *)
Module Sample2.

Definition paper : fitz_Document :=
  {| pageCount := 8;
     isPDF := true;
     getToC := [mkToc 1 "Introduction" 3; mkToc 1 "Results" 6];
     metadata := [("title", "Paper")];
     loadPage := fun p => if (0 <=? p) && (p <? 8)
                          then Some Sample.letter_page else None;
     getLinks := fun p =>
       if p =? 0
       then [mkLink 0 0 ""; mkLink 1 5 "";
             mkLink 2 0 "https://example.org"; mkLink 3 0 ""]
       else [] |}.

Definition leaflet : fitz_Document :=
  {| pageCount := 1; isPDF := true; getToC := []; metadata := [];
     loadPage := fun p => if p =? 0 then Some Sample.letter_page else None;
     getLinks := fun _ => [] |}.

(** A file system with one file, and [int] restricted to digit strings. *)
Definition isfile (s : string) : bool := String.eqb s "paper.pdf".

Definition int_of_str (s : string) : option Z :=
  if String.eqb s "" then None else int_of_digits 0 s.

Definition open_document (s : string) : option fitz_Document :=
  if String.eqb s "paper.pdf" then Some paper else None.

End Sample2.


(* ===================================================================== *)
(** * The command line *)
(* ===================================================================== *)

(** The [opts] dict of [parse_args], one field for each key it can set. *)
Record cli_opts := mkCli {
  cli_page                : option Z;
  cli_first_page_offset   : option Z;
  cli_nvim_listen_address : option string;
  cli_key                 : option string
}.

Definition cli_empty : cli_opts := mkCli None None None None.

(** What [main] hands to [setattr]; [nvim_listen_address] is an attribute
    of the editor bridge, which is not part of [Document] here. *)
Definition to_opts (o : cli_opts) : opts :=
  mkOpts (cli_page o) (cli_first_page_offset o) (cli_key o).

(** [arg in {...}] for strings. *)
Definition str_in (s : string) (set : list string) : bool :=
  existsb (String.eqb s) set.

Section CommandLine.
(** [os.path.isfile], [int] on a string ([None] is its ValueError) and
    [Document(filename)] ([None]: the constructor raises). *)
Variable isfile : string -> bool.
Variable int_of_str : string -> option Z.
Variable open_document : string -> option fitz_Document.

(** The [for i, arg in enumerate(args):] loop of parse_args, by recursion
    on the arguments still to be visited. [args[i + 1]] past the end is an
    IndexError, which the bare [except] turns into the same SystemExit as
    a value that [int] refuses. *)
Fixpoint parse_loop (args rest : list string) (i : Z) (skip : bool)
    (files : list string) (o : cli_opts)
  : outcome (list string * cli_opts) :=
  match rest with
  | [] => Returned (files, o)
  | arg :: rest' =>
      let continue skip files o :=
        parse_loop args rest' (i + 1) skip files o in
      if skip then continue false files o
      else if str_in arg ["-p"; "--page-number"] then
        match py_index args (i + 1) with
        | None => Raised (SystemExit "No valid page number specified")
        | Some v =>
            match int_of_str v with
            | None => Raised (SystemExit "No valid page number specified")
            | Some n =>
                continue true files
                  (mkCli (Some (n - 1)) (cli_first_page_offset o)
                     (cli_nvim_listen_address o) (cli_key o))
            end
        end
      else if str_in arg ["-f"; "--first-page"] then
        match py_index args (i + 1) with
        | None => Raised (SystemExit "No valid first page specified")
        | Some v =>
            match int_of_str v with
            | None => Raised (SystemExit "No valid first page specified")
            | Some n =>
                continue true files
                  (mkCli (cli_page o) (Some n)
                     (cli_nvim_listen_address o) (cli_key o))
            end
        end
      else if str_in arg ["--nvim-listen-address"] then
        match py_index args (i + 1) with
        | None => Raised (SystemExit "No address specified")
        | Some v =>
            continue true files
              (mkCli (cli_page o) (cli_first_page_offset o)
                 (Some v) (cli_key o))
        end
      else if str_in arg ["--citekey"] then
        match py_index args (i + 1) with
        | None => Raised (SystemExit "No citekey specified")
        | Some v =>
            continue true files
              (mkCli (cli_page o) (cli_first_page_offset o)
                 (cli_nvim_listen_address o) (Some v))
        end
      else if isfile arg then continue false (files ++ [arg]) o
      else if String.prefix "-" arg then
        Raised (SystemExit ("Unknown option: " ++ arg))
      else Raised (SystemExit ("Can't open file: " ++ arg))
  end.

(** parse_args. [print_help] and [print_version] print and raise
    SystemExit without a message; what they print is not modelled. *)
Definition parse_args (args : list string)
  : outcome (list string * cli_opts) :=
  let args := if (length args =? 1)%nat then args ++ ["-h"] else args in
  let args := tail args in
  if existsb (fun a => str_in a ["-h"; "--help"]) args then
    Raised (SystemExit "")
  else if existsb (fun a => str_in a ["-v"; "--version"]) args then
    Raised (SystemExit "")
  else parse_loop args args 0 false [] cli_empty.

(** main, up to the call of [view]: the result is the document that
    [view] receives. [files[0]] is evaluated inside the [try]; when
    [files] is empty its IndexError is caught by the bare [except], whose
    body evaluates [files[0]] again. *)
Definition main (isatty : bool) (args : list string) : M Document :=
  if negb isatty then raise (SystemExit "Not an interactive tty")
  else
    Screen.get_size ;;;
    s <- get_scr ;;
    if width s =? 0 then
      raise (SystemExit
               "Terminal does not support reporting screen sizes via the TIOCGWINSZ ioctl")
    else
      match parse_args args with
      | Raised e => raise e
      | Blocked => block
      | Returned (files, o) =>
          match py_index files 0 with
          | None => raise IndexError
          | Some name =>
              match open_document name with
              | None => raise (SystemExit ("Unable to open " ++ name))
              | Some f => ret (main_open f (to_opts o))
              end
          end
      end.

End CommandLine.


(* ===================================================================== *)
(** * visual_mode: the row selection *)
(* ===================================================================== *)

(** The key handling of [visual_mode] (lines 990-1081) as a state machine
    over its local variables. [t] and [b] are the top and bottom rows of
    the page's placement. The highlighting and the status bar are not part
    of it; a yank or a note ends the loop with the rows that are handed to
    [get_text_in_rows]. *)
Module Visual.

Record vstate := mkV {
  current_row   : Z;
  select        : bool;
  selection     : Z * Z;
  vcount_string : string
}.

Inductive vstep :=
| V_continue (s : vstate)       (* next iteration *)
| V_waiting (s : vstate)        (* getch has no key to deliver *)
| V_quit                        (* clean_exit *)
| V_leave                       (* return without an action *)
| V_yank (rows : Z * Z)         (* pyperclip.copy *)
| V_send (rows : Z * Z)         (* doc.send_to_neovim *)
| V_raise (e : exn).

(** The locals before the loop. *)
Definition visual_init (t : Z) : vstate :=
  {| current_row := t; select := false; selection := (t, t);
     vcount_string := "" |}.

(** [selection.sort()] on the two-element list. *)
Definition sort2 (s : Z * Z) : Z * Z :=
  if snd s <? fst s then (snd s, fst s) else s.

(** [if select: selection[1] = current_row
     else: selection = [current_row, current_row]] *)
Definition moved (st : vstate) (row : Z) : vstate :=
  {| current_row := row; select := select st;
     selection := if select st then (fst (selection st), row)
                  else (row, row);
     vcount_string := "" |}.

(** [count] of the iteration: 1, or [int(count_string)]. *)
Definition visual_count (st : vstate) : option Z :=
  if String.eqb (vcount_string st) "" then Some 1
  else int_of_digits 0 (vcount_string st).

(** The [if]/[elif] chain on the key that [getch] returned. *)
Definition visual_key (t b key count : Z) (st : vstate) : vstep :=
  if in_range key 48 58 then
    V_continue {| current_row := current_row st; select := select st;
                  selection := selection st;
                  vcount_string := append_chr (vcount_string st) key |}
  else if key_in key QUIT then V_quit
  else if (key =? 27) || key_in key VISUAL_MODE then V_leave
  else if key_in key [ord "s"] then
    V_continue {| current_row := current_row st;
                  select := negb (select st);
                  selection := (current_row st, current_row st);
                  vcount_string := "" |}
  else if key_in key NEXT_PAGE then
    V_continue (moved st (py_min (current_row st + count) b))
  else if key_in key PREV_PAGE then
    V_continue (moved st (py_max (current_row st - count) t))
  else if key_in key GOTO_PAGE then V_continue (moved st b)
  else if key_in key GOTO then V_continue (moved st t)
  else if key_in key YANK then V_yank (sort2 (selection st))
  else if key_in key SEND_NOTE then V_send (sort2 (selection st))
  else V_continue st.

(** The [while True:] loop, by recursion on the keys to be delivered. *)
Fixpoint visual_loop (t b : Z) (ks : list Z) (st : vstate) : vstep :=
  match visual_count st with
  | None => V_raise ValueError
  | Some count =>
      match ks with
      | [] => V_waiting st
      | key :: rest =>
          match visual_key t b key count st with
          | V_continue st' => visual_loop t b rest st'
          | r => r
          end
      end
  end.

(** What every iteration of the loop finds. *)
Definition visual_inv (t b : Z) (st : vstate) : Prop :=
  t <= current_row st <= b /\
  snd (selection st) = current_row st /\
  t <= fst (selection st) <= b /\
  exists n, int_of_digits 0 (vcount_string st) = Some n.

End Visual.


(* ===================================================================== *)
(** * Facts about the Python primitives *)
(* ===================================================================== *)

Section PyFacts.

Lemma py_min_spec a b : py_min a b = Z.min a b.
Proof. unfold py_min. destruct (Z.ltb_spec b a); lia. Qed.

Lemma py_max_spec a b : py_max a b = Z.max a b.
Proof. unfold py_max. destruct (Z.ltb_spec a b); lia. Qed.

Lemma py_index_nonneg {A} (l : list A) (i : Z) :
  0 <= i -> py_index l i = l !! Z.to_nat i.
Proof.
  intros Hi. unfold py_index.
  destruct (Z.leb_spec 0 i); [|lia]. simpl.
  destruct (Z.ltb_spec i (Z.of_nat (length l))); [reflexivity|].
  destruct (Z.ltb_spec i 0); [lia|].
  rewrite andb_false_r.
  symmetry. apply lookup_ge_None_2. lia.
Qed.

Lemma py_index_len {A} (l : list A) :
  py_index l (Z.of_nat (length l)) = None.
Proof.
  rewrite py_index_nonneg by lia.
  apply lookup_ge_None_2. lia.
Qed.

Lemma py_index_nil {A} (i : Z) : py_index (@nil A) i = None.
Proof.
  unfold py_index. repeat case_match; reflexivity.
Qed.

Lemma range_length a b : length (range a b) = Z.to_nat (b - a).
Proof. unfold range. rewrite length_map, length_seq. reflexivity. Qed.

Lemma range_lookup a b (i : nat) :
  (i < Z.to_nat (b - a))%nat -> range a b !! i = Some (a + Z.of_nat i).
Proof.
  intros Hi. unfold range.
  rewrite list_lookup_fmap, lookup_seq_lt by exact Hi.
  reflexivity.
Qed.

End PyFacts.

(* ===================================================================== *)
(** * Navigation: logical pages and chapters *)
(* ===================================================================== *)

Section NavFacts.

(** goto_page always lands inside [0, pages] on a document with a page. *)
Lemma goto_page_clamp d p :
  0 <= pages d ->
  page (goto_page d p) = Z.max 0 (Z.min (pages d) p).
Proof.
  intros Hp. unfold goto_page.
  destruct (Z.gtb_spec p (pages d)); [simpl; lia|].
  destruct (Z.ltb_spec p 0); simpl; lia.
Qed.

Lemma goto_page_prevpage d p : prevpage (goto_page d p) = page d.
Proof.
  unfold goto_page.
  destruct (p >? pages d); [reflexivity|].
  destruct (p <? 0); reflexivity.
Qed.

Lemma goto_page_page_states d p :
  page_states (goto_page d p) = page_states d.
Proof.
  unfold goto_page.
  destruct (p >? pages d); [reflexivity|].
  destruct (p <? 0); reflexivity.
Qed.

Lemma goto_page_chapter d p : chapter (goto_page d p) = chapter d.
Proof.
  unfold goto_page.
  destruct (p >? pages d); [reflexivity|].
  destruct (p <? 0); reflexivity.
Qed.

Lemma logical_to_page_nonzero d n :
  n <> 0 -> logical_to_page d (Some n) = n - first_page_offset d.
Proof.
  intros Hn. unfold logical_to_page.
  destruct (Z.eqb_spec n 0); [contradiction|reflexivity].
Qed.

(** C6. In a ten-page document whose first_page_offset is 5, logical page
    5 is physical page 0 and logical page 14 is physical page 9, the last
    one; any other non-zero logical page number lands on its physical index
    clamped into 0..9 by goto_page. *)
Theorem goto_logical_page_ten_pages (d : Document) :
  pages d = 9 ->
  first_page_offset d = 5 ->
  page (goto_logical_page d (Some 5)) = 0 /\
  page (goto_logical_page d (Some 14)) = 9 /\
  page (goto_logical_page d (Some 14)) = pages d /\
  forall n, n <> 0 ->
    page (goto_logical_page d (Some n)) = Z.max 0 (Z.min 9 (n - 5)).
Proof.
  intros Hp Ho.
  assert (H : forall n, n <> 0 ->
            page (goto_logical_page d (Some n)) = Z.max 0 (Z.min 9 (n - 5))).
  { intros n Hn. unfold goto_logical_page.
    rewrite logical_to_page_nonzero by exact Hn.
    rewrite goto_page_clamp by lia. rewrite Hp, Ho. reflexivity. }
  repeat split.
  - rewrite H by lia. reflexivity.
  - rewrite H by lia. reflexivity.
  - rewrite H by lia. rewrite Hp. reflexivity.
  - exact H.
Qed.

(** The sample book opened with [--first-page 5]. *)
Lemma goto_logical_page_ten_pages_witness :
  let d := main_open Sample.book (mkOpts None (Some 5) None) in
  pages d = 9 /\ first_page_offset d = 5 /\
  page (goto_logical_page d (Some 5)) = 0 /\
  page (goto_logical_page d (Some 14)) = 9.
Proof.
  split; [reflexivity|]. split; [reflexivity|].
  pose proof (goto_logical_page_ten_pages
                (main_open Sample.book (mkOpts None (Some 5) None))
                eq_refl eq_refl) as [H5 [H14 _]].
  split; [exact H5 | exact H14].
Defined.

(** C8, as the code has it. goto_logical_page(0) treats the argument as
    unset: it computes with the current physical page, so the viewer moves
    to clamp(page - first_page_offset, 0, pages), exactly as
    goto_logical_page() without an argument does. Whether that page is the
    one whose logical number is 0 depends on the document: from a page of
    the document it is so exactly when physical page -first_page_offset
    exists and the viewer is at page 0 or that page is the last one. *)
Theorem goto_logical_page_zero (d : Document) :
  0 <= pages d ->
  let d' := goto_logical_page d (Some 0) in
  logical_to_page d (Some 0) = page d - first_page_offset d /\
  d' = goto_logical_page d None /\
  page d' = Z.max 0 (Z.min (pages d) (page d - first_page_offset d)) /\
  prevpage d' = page d /\
  first_page_offset d' = first_page_offset d /\
  (0 <= page d <= pages d ->
   (page_to_logical d' (Some (page d')) = 0 <->
    0 <= - first_page_offset d <= pages d /\
    (page d = 0 \/ - first_page_offset d = pages d))).
Proof.
  intros Hp d'.
  assert (Hpage : page d'
                  = Z.max 0 (Z.min (pages d) (page d - first_page_offset d))).
  { subst d'. unfold goto_logical_page, logical_to_page. simpl.
    apply goto_page_clamp. exact Hp. }
  assert (Hoff : first_page_offset d' = first_page_offset d).
  { subst d'. unfold goto_logical_page, goto_page.
    destruct (_ >? _); [reflexivity|]. destruct (_ <? _); reflexivity. }
  split; [reflexivity|]. split; [reflexivity|].
  split; [exact Hpage|].
  split; [subst d'; unfold goto_logical_page; apply goto_page_prevpage|].
  split; [exact Hoff|].
  intros Hin. unfold page_to_logical. rewrite Hoff, Hpage. lia.
Qed.

(** On the sample book at physical page 7 with offset 5, logical page 0
    would be physical page -5, clamped to 0; the viewer goes to page 2. *)
Lemma goto_logical_page_zero_witness :
  let d := goto_page (main_open Sample.book (mkOpts None (Some 5) None)) 7 in
  0 <= pages d /\
  page (goto_logical_page d (Some 0)) = 2 /\
  page (goto_page d (0 - first_page_offset d)) = 0.
Proof.
  split; [vm_compute; discriminate|].
  split; [|reflexivity].
  pose proof (goto_logical_page_zero
                (goto_page (main_open Sample.book (mkOpts None (Some 5) None)) 7))
    as H.
  destruct H as [_ [_ [H _]]]; [vm_compute; discriminate|].
  rewrite H. reflexivity.
Defined.

(** C8 as the specification words it does not hold for every open
    document. The sample book opened with [-f -3] is at physical page 0;
    the page whose logical number is 0 is physical page 3, and
    goto_logical_page(0) navigates to exactly that page. *)
Lemma goto_logical_page_zero_lands_on_zero :
  let d := main_open Sample.book (mkOpts None (Some (-3)) None) in
  let d' := goto_logical_page d (Some 0) in
  page d = 0 /\ first_page_offset d = -3 /\ pages d = 9 /\
  page d' = 3 /\
  page_to_logical d' (Some (page d')) = 0 /\
  page_to_logical d (Some 3) = 0 /\
  d' = goto_page d (0 - first_page_offset d).
Proof. repeat split; reflexivity. Qed.

(** What goto_chap stores in [chapter]: its argument clamped to
    [0, len(toc)]. *)
Lemma goto_chap_returns d n :
  exists d', goto_chap d n = Returned d' /\
    chapter d' = Z.max 0 (Z.min (Z.of_nat (length (getToC (base d)))) n).
Proof.
  unfold goto_chap.
  set (len := Z.of_nat (length (getToC (base d)))).
  set (n' := if n >? len then len else if n <? 0 then 0 else n).
  assert (Hn' : n' = Z.max 0 (Z.min len n)).
  { subst n'. destruct (Z.gtb_spec n len); [lia|].
    destruct (Z.ltb_spec n 0); lia. }
  clearbody n'.
  destruct (py_index (getToC (base d)) n') as [ch|]; simpl.
  - eexists. split; [reflexivity|].
    rewrite goto_page_chapter. exact Hn'.
  - eexists. split; [reflexivity|].
    rewrite goto_page_chapter. exact Hn'.
Qed.

(** C10. goto_chap never raises. Its argument is clamped to at most
    len(toc); at that value, and for any argument when the table of
    contents is empty, the lookup toc[n] fails and the handler calls
    goto_page(0): the viewer lands on physical page 0 with chapter set to
    the clamped value. *)
Theorem goto_chap_past_the_end (d : Document) (n : Z) :
  0 <= pages d ->
  let len := Z.of_nat (length (getToC (base d))) in
  (exists d', goto_chap d n = Returned d' /\ chapter d' <= len) /\
  (len <= n \/ len = 0 ->
   goto_chap d n = Returned (goto_page (with_chapter d len) 0) /\
   forall d', goto_chap d n = Returned d' ->
     page d' = 0 /\ chapter d' = len /\ prevpage d' = page d).
Proof.
  intros Hp len. split.
  - destruct (goto_chap_returns d n) as [d' [H1 H2]].
    exists d'. split; [exact H1|]. fold len in H2. lia.
  - intros Hn.
    assert (Hgo : goto_chap d n = Returned (goto_page (with_chapter d len) 0)).
    { unfold goto_chap. fold len.
      assert (Hc : (if n >? len then len else if n <? 0 then 0 else n) = len).
      { destruct (Z.gtb_spec n len); [reflexivity|].
        destruct (Z.ltb_spec n 0); lia. }
      rewrite Hc. subst len. rewrite py_index_len. reflexivity. }
    split; [exact Hgo|].
    intros d' Hd'. rewrite Hgo in Hd'. injection Hd' as <-.
    split; [|split].
    + rewrite goto_page_clamp by exact Hp. simpl. lia.
    + rewrite goto_page_chapter. reflexivity.
    + rewrite goto_page_prevpage. reflexivity.
Qed.

(** next_chap from the last chapter of the sample book, at page 8: the
    viewer jumps to page 0. *)
Lemma goto_chap_past_the_end_witness :
  let d := goto_page (with_chapter (main_open Sample.book (mkOpts None None None)) 4) 8 in
  0 <= pages d /\
  next_chap d 1 = Returned (goto_page (with_chapter d 5) 0) /\
  page (goto_page (with_chapter d 5) 0) = 0.
Proof.
  split; [vm_compute; discriminate|].
  split; [|reflexivity].
  pose proof (goto_chap_past_the_end
                (goto_page (with_chapter
                   (main_open Sample.book (mkOpts None None None)) 4) 8)
                5) as H.
  destruct H as [_ H]; [vm_compute; discriminate|].
  destruct H as [H _]; [left; vm_compute; discriminate|].
  exact H.
Defined.

End NavFacts.

(* ===================================================================== *)
(** * Graphics transport: chunking *)
(* ===================================================================== *)

Section KittyFacts.

Lemma ceil_div_0 b : (0 < b)%nat -> ceil_div 0 b = 0%nat.
Proof. intros Hb. unfold ceil_div. apply Nat.div_small. lia. Qed.

Lemma ceil_div_step a b :
  (0 < b)%nat -> (0 < a)%nat -> ceil_div a b = S (ceil_div (a - b) b).
Proof.
  intros Hb Ha. unfold ceil_div.
  destruct (Nat.le_gt_cases a b) as [Hle | Hgt].
  - replace (a - b)%nat with 0%nat by lia.
    rewrite (Nat.div_small (0 + (b - 1)) b) by lia.
    symmetry. apply (Nat.div_unique _ _ _ (a - 1)); lia.
  - replace (a + (b - 1))%nat with ((a - b + (b - 1)) + 1 * b)%nat by lia.
    rewrite Nat.div_add by lia. lia.
Qed.

(** [ceil_div] is the ceiling of the quotient. *)
Lemma ceil_div_spec a b :
  (0 < b)%nat ->
  (a <= b * ceil_div a b /\ b * ceil_div a b < a + b)%nat.
Proof.
  intros Hb. unfold ceil_div.
  pose proof (Nat.div_mod_eq (a + (b - 1)) b) as E.
  pose proof (Nat.mod_upper_bound (a + (b - 1)) b ltac:(lia)) as U.
  lia.
Qed.

Lemma dict_get_set_eq k v d : dict_get k (dict_set k v d) = Some v.
Proof.
  induction d as [|[k' v'] d IH]; simpl.
  - rewrite String.eqb_refl. reflexivity.
  - destruct (String.eqb k k') eqn:E; simpl; rewrite E; [reflexivity|exact IH].
Qed.

Lemma dict_get_set_ne k k' v d :
  k' <> k -> dict_get k' (dict_set k v d) = dict_get k' d.
Proof.
  intros Hne. induction d as [|[k0 v0] d IH]; simpl.
  - destruct (String.eqb_spec k' k); [contradiction|reflexivity].
  - destruct (String.eqb_spec k k0) as [->|Hk]; simpl.
    + destruct (String.eqb_spec k' k0); [contradiction|reflexivity].
    + destruct (String.eqb k' k0); [reflexivity|exact IH].
Qed.

Lemma chunk_size_pos : (0 < chunk_size)%nat.
Proof.
  with_strategy transparent [chunk_size] (unfold chunk_size). lia.
Qed.

Lemma chunk_size_value : Z.of_nat chunk_size = 4096.
Proof.
  with_strategy transparent [chunk_size] (unfold chunk_size). lia.
Qed.

(** The command of frame [i] out of [n]: the caller's dict with the [m]
    flag for the first frame, the [m] flag alone afterwards. *)
Lemma chunk_loop_frames (data : list byte) :
  forall (cmd : dict),
  let n := ceil_div (length data) chunk_size in
  length (fst (chunk_loop cmd data)) = n /\
  forall i, (i < n)%nat ->
    fst (chunk_loop cmd data) !! i =
      Some (Gr (dict_set "m" (VInt (if (S i =? n)%nat then 0 else 1))
                  (match i with O => cmd | S _ => [] end))
               (Some (take chunk_size (drop (chunk_size * i) data)))).
Proof.
  pose proof chunk_size_pos as Hk.
  remember (length data) as len eqn:Hlen.
  revert data Hlen.
  induction len as [len IH] using lt_wf_ind.
  intros data Hlen cmd n.
  destruct data as [|b data'].
  - simpl in Hlen. subst len n. rewrite chunk_loop_equation_1.
    rewrite ceil_div_0 by lia. split; [reflexivity|]. intros i Hi. lia.
  - rewrite chunk_loop_equation_2. cbv zeta.
    assert (Hpos : (0 < len)%nat) by (subst len; simpl; lia).
    remember (b :: data') as data eqn:Hdata. clear Hdata b data'.
    assert (Hn : n = S (ceil_div (len - chunk_size) chunk_size)).
    { subst n. apply ceil_div_step; lia. }
    assert (Hrest : length (drop chunk_size data) = (len - chunk_size)%nat).
    { rewrite length_drop. lia. }
    destruct (IH (len - chunk_size)%nat ltac:(lia) (drop chunk_size data)
                (eq_sym Hrest) []) as [IHlen IHframes].
    cbv zeta in IHlen, IHframes.
    assert (Hm : match drop chunk_size data with [] => 0 | _ :: _ => 1 end
                 = if (1 =? n)%nat then 0 else 1).
    { rewrite Hn. destruct (drop chunk_size data) as [|x r] eqn:E.
      - simpl in Hrest. rewrite <- Hrest.
        rewrite ceil_div_0 by lia. reflexivity.
      - rewrite ceil_div_step by (simpl in Hrest; lia). reflexivity. }
    split.
    + cbn [fst length]. rewrite IHlen, Hn. reflexivity.
    + intros [|i] Hi.
      * cbn [fst]. rewrite Hm. rewrite Nat.mul_0_r, drop_0. reflexivity.
      * cbn [fst]. rewrite lookup_cons_ne_0 by lia. cbn [Nat.pred].
        rewrite IHframes by lia.
        rewrite drop_drop.
        replace (chunk_size + chunk_size * i)%nat
          with (chunk_size * S i)%nat by lia.
        rewrite Hn.
        replace (S (S i) =? S (ceil_div (len - chunk_size) chunk_size))%nat
          with (S i =? ceil_div (len - chunk_size) chunk_size)%nat
          by reflexivity.
        destruct i; reflexivity.
Qed.

(** The payloads of the frames, put together, are the data. *)
Lemma chunk_loop_payloads data : forall cmd,
  concat (map frame_payload (fst (chunk_loop cmd data))) = data /\
  Forall (fun e => exists c p, e = Gr c (Some p) /\
                     (0 < length p <= chunk_size)%nat)
    (fst (chunk_loop cmd data)).
Proof.
  pose proof chunk_size_pos as Hk.
  remember (length data) as len eqn:Hlen. revert data Hlen.
  induction len as [len IH] using lt_wf_ind. intros data Hlen cmd.
  destruct data as [|b data'].
  - rewrite chunk_loop_equation_1. split; [reflexivity|constructor].
  - rewrite chunk_loop_equation_2. cbv zeta. cbn [fst map concat].
    remember (b :: data') as data eqn:Hdata.
    assert (Hpos : (0 < length data)%nat) by (subst data; cbn; lia).
    clear Hdata b data'.
    destruct (IH (length (drop chunk_size data))
                ltac:(rewrite length_drop; lia)
                (drop chunk_size data) eq_refl []) as [IHc IHf].
    split.
    + cbn [frame_payload]. rewrite IHc. apply take_drop.
    + constructor; [|exact IHf].
      eexists. eexists. split; [reflexivity|].
      rewrite length_take. lia.
Qed.

(** base64 writes four characters for every three bytes, padding the last
    group. *)
Lemma standard_b64encode_length (data : list byte) :
  length (standard_b64encode data) = (4 * ceil_div (length data) 3)%nat.
Proof.
  remember (length data) as len eqn:Hlen. revert data Hlen.
  induction len as [len IH] using lt_wf_ind. intros data Hlen.
  destruct data as [|a [|b [|c rest]]]; subst len;
    [reflexivity|reflexivity|reflexivity|].
  cbn [standard_b64encode length].
  rewrite (IH (length rest) ltac:(cbn [length]; lia) rest eq_refl).
  rewrite (ceil_div_step (S (S (S (length rest)))) 3) by lia.
  replace (S (S (S (length rest))) - 3)%nat with (length rest) by lia.
  lia.
Qed.

(** C4. write_chunked writes ceil(encodedLen / 4096) frames, where
    encodedLen is the length of the base64 text of the payload (compressed
    first unless f is 100) and 4096 is [chunk_size]. Frame i carries bytes
    4096*i .. 4096*i+4095 of that text; its m flag is 0 on the last frame
    and 1 on every other; the first frame carries every key of the caller's
    command (with o=z added when the payload was compressed) and later
    frames carry m alone. *)
Theorem write_chunked_frames (zlib : list byte -> list byte)
    (cmd : dict) (data : list byte) (f : value) (w : World) :
  dict_get "f" cmd = Some f ->
  let enc := encoded_payload zlib f data in
  let n := ceil_div (length enc) chunk_size in
  let cmd1 := if value_neq f (VInt 100)
              then dict_set "o" (VStr "z") cmd else cmd in
  exists (frames : list event) (final : dict),
    write_chunked zlib cmd data w
      = (Returned final, put_trace (trace w ++ frames) w) /\
    length frames = n /\
    forall i, (i < n)%nat ->
      exists c,
        frames !! i
          = Some (Gr c (Some (take chunk_size
                                (drop (chunk_size * i) enc)))) /\
        dict_get "m" c = Some (VInt (if (S i =? n)%nat then 0 else 1)) /\
        (i = 0%nat ->
           (forall k, k <> "m" -> dict_get k c = dict_get k cmd1) /\
           (value_neq f (VInt 100) = true ->
              dict_get "o" c = Some (VStr "z"))) /\
        (i <> 0%nat -> dict_keys c = ["m"]).
Proof.
  intros Hf enc n cmd1.
  destruct (chunk_loop_frames enc cmd1) as [Hlen Hframes].
  exists (fst (chunk_loop cmd1 enc)), (snd (chunk_loop cmd1 enc)).
  split; [|split].
  - unfold write_chunked. rewrite Hf.
    subst enc cmd1. unfold encoded_payload.
    destruct (value_neq f (VInt 100)); reflexivity.
  - exact Hlen.
  - intros i Hi. eexists. split; [apply Hframes; exact Hi|].
    split; [apply dict_get_set_eq|]. split.
    + intros ->. split.
      * intros k Hk. apply dict_get_set_ne. exact Hk.
      * intros Hz. rewrite dict_get_set_ne by discriminate.
        subst cmd1. rewrite Hz. apply dict_get_set_eq.
    + intros Hi0. destruct i; [contradiction|reflexivity].
Qed.

(** 3100 bytes, compressed to 3102 by the sample compressor, make 4136
    base64 characters: two frames. *)
Lemma write_chunked_frames_witness :
  dict_get "f" Sample.image_cmd = Some (VInt 24) /\
  exists frames final,
    write_chunked (@zlib_compress Sample.externals) Sample.image_cmd
      Sample.image_data (Sample.world (Document_init Sample.book) [] [])
    = (Returned final,
       put_trace (trace (Sample.world (Document_init Sample.book) [] [])
                    ++ frames)
         (Sample.world (Document_init Sample.book) [] [])) /\
    length frames = 2%nat.
Proof.
  split; [reflexivity|].
  destruct (write_chunked_frames (@zlib_compress Sample.externals)
              Sample.image_cmd Sample.image_data (VInt 24)
              (Sample.world (Document_init Sample.book) [] []) eq_refl)
    as (frames & final & Hrun & Hlen & _).
  exists frames, final. split; [exact Hrun|].
  rewrite Hlen. vm_compute. reflexivity.
Defined.

End KittyFacts.

(* ===================================================================== *)
(** * Display: the render cache *)
(* ===================================================================== *)

Section DisplayFacts.
Context {X : Externals}.

Lemma update_page_state_run (f : Page_State -> Page_State) p ps w :
  0 <= p ->
  page_states (doc w) !! Z.to_nat p = Some ps ->
  update_page_state f p w
  = (Returned tt,
     put_doc (with_page_states (doc w)
                (<[Z.to_nat p := f ps]> (page_states (doc w)))) w).
Proof.
  intros Hp Hps. unfold update_page_state, py_setitem.
  rewrite py_index_nonneg, Hps by exact Hp.
  pose proof (lookup_lt_Some _ _ _ Hps) as Hlt.
  destruct (Z.leb_spec 0 p); [|lia].
  destruct (Z.ltb_spec p (Z.of_nat (length (page_states (doc w))))); [|lia].
  reflexivity.
Qed.

Lemma truediv_run a b w :
  Qeq_bool b 0 = false -> truediv a b w = (Returned (a / b)%Q, w).
Proof. intros Hb. unfold truediv. rewrite Hb. reflexivity. Qed.

Lemma fdiv_run a b w :
  Qeq_bool b 0 = false -> fdiv a b w = (Returned (round64 (a / b)), w).
Proof. intros Hb. unfold fdiv. rewrite Hb. reflexivity. Qed.

Lemma layout_page_run p pg ps w :
  0 <= p ->
  loadPage (base (doc w)) p = Some pg ->
  page_states (doc w) !! Z.to_nat p = Some ps ->
  layout_defined (doc w) (scr w) pg ->
  layout_page p w
  = (Returned (pg, crop_box (doc w), zoom_factor (doc w) (scr w) pg, ps),
     put_trace
       (trace w ++ [cursor_event (scr w) (placement (doc w) (scr w) pg)])
       (put_doc
          (with_page_states (doc w)
             (<[Z.to_nat p :=
                  set_place (placement (doc w) (scr w) pg)
                    (set_factor (zoom_factor (doc w) (scr w) pg) ps)]>
                (page_states (doc w)))) w)).
Proof.
  intros Hp Hpg Hps (Hw & Hh & Hcw & Hch).
  unfold layout_page, bind, get_doc, get_scr. cbv beta iota.
  rewrite Hpg. rewrite (py_index_nonneg _ _ Hp), Hps.
  fold (crop_box (doc w)). fold (page_width (doc w) pg).
  fold (page_height (doc w) pg).
  rewrite (fdiv_run _ _ _ Hw). cbv beta iota.
  rewrite (fdiv_run _ _ _ Hh). cbv beta iota.
  fold (zoom_factor (doc w) (scr w) pg).
  rewrite (update_page_state_run _ p ps w Hp Hps). cbv beta iota.
  rewrite (fdiv_run _ _ _ Hcw). cbv beta iota.
  rewrite (fdiv_run _ _ _ Hch). cbv beta iota.
  rewrite (fdiv_run _ _ _ Hcw). cbv beta iota.
  rewrite (fdiv_run _ _ _ Hch). cbv beta iota.
  pose proof (lookup_lt_Some _ _ _ Hps) as Hlt.
  erewrite update_page_state_run;
    [| exact Hp | cbn [doc put_doc with_page_states page_states];
                  apply list_lookup_insert_eq; exact Hlt].
  cbv beta iota.
  cbn [doc put_doc with_page_states page_states].
  rewrite list_insert_insert_eq.
  reflexivity.
Qed.

(** The rounding of the float operations shows in the cells: a
    letter-size page on a terminal of 24 rows and 51 columns, 357 by 528
    pixels, is placed at (0, 0, 51, 21), where the same expressions taken
    exactly give (0, 1, 51, 22). *)
Lemma placement_rounds_as_floats :
  let s := {| rows := 24; cols := 51; width := 357; height := 528;
              cell_width := 7; cell_height := 22 |} in
  let d := main_open Sample.book (mkOpts None None None) in
  placement d s Sample.letter_page = (0, 0, 51, 21) /\
  zoom_factor d s Sample.letter_page
  = (5254199565265579 # 9007199254740992)%Q.
Proof. split; vm_compute; reflexivity. Qed.

Lemma chunk_loop_image_frames cmd data :
  Forall (fun e => is_image_frame e = true) (fst (chunk_loop cmd data)).
Proof.
  destruct (chunk_loop_frames data cmd) as [Hlen Hframes].
  apply Forall_lookup. intros i e He.
  pose proof (lookup_lt_Some _ _ _ He) as Hi. rewrite Hlen in Hi.
  rewrite (Hframes i Hi) in He. injection He as <-. reflexivity.
Qed.

Lemma render_and_transmit_run pg cc p fac w :
  cc = crop_box (doc w) ->
  render_and_transmit pg cc p fac w
  = (Returned tt,
     put_trace
       (trace w
        ++ Engine_getPixmap p (crop_box (doc w)) fac
             (rotation (doc w)) (alpha (doc w))
           :: transfer_frames (doc w) p pg fac) w).
Proof.
  intros ->.
  unfold render_and_transmit, bind, get_doc, emit. cbv beta iota.
  unfold transfer_frames, final_pixmap, transfer_cmd.
  destruct (alpha (doc w)), (invert (doc w)), (tint (doc w));
    try destruct (getColor (tint_color (doc w))) as [[t0 t1] t2];
    cbn; rewrite <- app_assoc; reflexivity.
Qed.

Lemma confirm_display_trace p w :
  trace (snd (confirm_display p w))
  = trace w ++ [clear_cmd (prevpage (doc w)); display_cmd p].
Proof.
  unfold confirm_display, bind, get_doc, clear_page,
    write_gr_cmd_with_response, write_gr_cmd, emit, bind.
  cbv beta iota. cbn [stdin put_trace].
  destruct (read_response [] (stdin w)) as [[resp rest]|].
  - destruct (bytes_in OK resp).
    + cbn. rewrite <- app_assoc. reflexivity.
    + cbv beta iota. unfold update_page_state.
      cbn [doc put_stdin put_trace].
      destruct (py_index (page_states (doc w)) p) as [s|];
        [destruct (py_setitem (page_states (doc w)) p (set_stale true s))|];
        cbn; rewrite <- app_assoc; reflexivity.
  - cbn. rewrite <- app_assoc. reflexivity.
Qed.

Lemma confirm_display_ack p w :
  acknowledged (stdin w) ->
  exists rest,
    confirm_display p w
    = (Returned tt,
       put_stdin rest
         (put_trace (trace w ++ [clear_cmd (prevpage (doc w)); display_cmd p])
            w)).
Proof.
  intros (resp & rest & Hresp & Hok). exists rest.
  unfold confirm_display, bind, get_doc, clear_page,
    write_gr_cmd_with_response, write_gr_cmd, emit, bind.
  cbv beta iota. cbn [stdin put_trace]. rewrite Hresp, Hok.
  cbn. rewrite <- app_assoc. reflexivity.
Qed.

Lemma confirm_display_refused p ps w :
  0 <= p ->
  page_states (doc w) !! Z.to_nat p = Some ps ->
  refused (stdin w) ->
  exists rest,
    confirm_display p w
    = (Raised (NameError "bar"),
       put_doc (with_page_states (doc w)
                  (<[Z.to_nat p := set_stale true ps]> (page_states (doc w))))
         (put_stdin rest
            (put_trace
               (trace w ++ [clear_cmd (prevpage (doc w)); display_cmd p])
               w))).
Proof.
  intros Hp Hps (resp & rest & Hresp & Hok). exists rest.
  unfold confirm_display, bind, get_doc, clear_page,
    write_gr_cmd_with_response, write_gr_cmd, emit, bind.
  cbv beta iota. cbn [stdin put_trace]. rewrite Hresp, Hok.
  cbv beta iota.
  erewrite update_page_state_run; [| exact Hp | exact Hps].
  cbn. rewrite <- app_assoc. reflexivity.
Qed.

(** A display that the terminal acknowledges. *)
Lemma display_page_ack p pg ps w :
  0 <= p ->
  loadPage (base (doc w)) p = Some pg ->
  page_states (doc w) !! Z.to_nat p = Some ps ->
  layout_defined (doc w) (scr w) pg ->
  acknowledged (stdin w) ->
  exists rest,
    display_page p true w
    = (Returned tt,
       put_keys (drop (swallowed (keys w)) (keys w))
         (put_doc
            (with_page_states (doc w)
               (<[Z.to_nat p :=
                    set_stale false
                      (set_place (placement (doc w) (scr w) pg)
                         (set_factor (zoom_factor (doc w) (scr w) pg) ps))]>
                  (page_states (doc w))))
            (put_stdin rest
               (put_trace
                  (trace w
                   ++ cursor_event (scr w) (placement (doc w) (scr w) pg)
                      :: (if stale ps then render_cycle (doc w) (scr w) p pg
                          else [])
                      ++ [clear_cmd (prevpage (doc w)); display_cmd p])
                  w)))).
Proof.
  intros Hp Hpg Hps Hlay Hack.
  pose proof (lookup_lt_Some _ _ _ Hps) as Hlt.
  unfold display_page, bind.
  rewrite (layout_page_run p pg ps w Hp Hpg Hps Hlay). cbv beta iota.
  destruct (stale ps).
  - rewrite render_and_transmit_run by reflexivity. cbv beta iota.
    match goal with
    | |- context [confirm_display p ?w'] =>
        destruct (confirm_display_ack p w' Hack) as [rest Hc]; rewrite Hc
    end.
    exists rest. cbv beta iota.
    erewrite update_page_state_run;
      [| exact Hp
       | cbn [doc put_doc put_trace put_stdin with_page_states page_states];
         apply list_lookup_insert_eq; exact Hlt].
    cbv beta iota. unfold Screen.swallow_keys.
    cbn [doc put_doc put_trace put_stdin put_keys with_page_states
         page_states scr trace stdin keys winsz].
    rewrite list_insert_insert_eq.
    unfold render_cycle.
    rewrite <- !app_assoc. reflexivity.
  - unfold ret at 1. cbv beta iota.
    match goal with
    | |- context [confirm_display p ?w'] =>
        destruct (confirm_display_ack p w' Hack) as [rest Hc]; rewrite Hc
    end.
    exists rest. cbv beta iota.
    erewrite update_page_state_run;
      [| exact Hp
       | cbn [doc put_doc put_trace put_stdin with_page_states page_states];
         apply list_lookup_insert_eq; exact Hlt].
    cbv beta iota. unfold Screen.swallow_keys.
    cbn [doc put_doc put_trace put_stdin put_keys with_page_states
         page_states scr trace stdin keys winsz].
    rewrite list_insert_insert_eq.
    rewrite <- !app_assoc. reflexivity.
Qed.

Lemma update_page_state_trace (f : Page_State -> Page_State) p w :
  trace (snd (update_page_state f p w)) = trace w.
Proof.
  unfold update_page_state.
  destruct (py_index (page_states (doc w)) p) as [s|]; [|reflexivity].
  destruct (py_setitem (page_states (doc w)) p (f s)); reflexivity.
Qed.

(** What any call of display_page writes once the layout is defined,
    whatever the terminal answers: the cursor move, one render cycle when
    the page state was stale at entry, and the clear and display commands
    when [display] is set. *)
Lemma display_page_trace p display pg ps w :
  0 <= p ->
  loadPage (base (doc w)) p = Some pg ->
  page_states (doc w) !! Z.to_nat p = Some ps ->
  layout_defined (doc w) (scr w) pg ->
  trace (snd (display_page p display w))
  = trace w
    ++ cursor_event (scr w) (placement (doc w) (scr w) pg)
       :: (if stale ps then render_cycle (doc w) (scr w) p pg else [])
       ++ (if display then [clear_cmd (prevpage (doc w)); display_cmd p]
           else []).
Proof.
  intros Hp Hpg Hps Hlay.
  unfold display_page, bind.
  rewrite (layout_page_run p pg ps w Hp Hpg Hps Hlay). cbv beta iota.
  assert (Hfin : forall w' : World,
    trace (snd (let (o, w'') := update_page_state (set_stale false) p w' in
                match o with
                | Returned _ => Screen.swallow_keys w''
                | Raised e => (Raised e, w'')
                | Blocked => (Blocked, w'')
                end)) = trace w').
  { intros w'. pose proof (update_page_state_trace (set_stale false) p w') as T.
    destruct (update_page_state (set_stale false) p w') as [o w''].
    destruct o; exact T. }
  assert (Hdisp : forall w' : World,
    trace (snd (let (o, w'') :=
                  (if display then confirm_display p else ret tt) w' in
                match o with
                | Returned _ =>
                    let (o0, w'0) :=
                      update_page_state (set_stale false) p w'' in
                    match o0 with
                    | Returned _ => Screen.swallow_keys w'0
                    | Raised e => (Raised e, w'0)
                    | Blocked => (Blocked, w'0)
                    end
                | Raised e => (Raised e, w'')
                | Blocked => (Blocked, w'')
                end))
    = trace w' ++ (if display
                   then [clear_cmd (prevpage (doc w')); display_cmd p]
                   else [])).
  { intros w'. destruct display.
    - pose proof (confirm_display_trace p w') as T.
      destruct (confirm_display p w') as [o w''].
      destruct o; cbn [snd] in T |- *; try exact T.
      rewrite Hfin. exact T.
    - unfold ret at 1. cbv beta iota. rewrite Hfin.
      rewrite app_nil_r. reflexivity. }
  destruct (stale ps).
  - rewrite render_and_transmit_run by reflexivity. cbv beta iota.
    rewrite Hdisp. cbn [doc put_doc put_trace trace with_page_states prevpage].
    unfold render_cycle. rewrite <- !app_assoc. reflexivity.
  - unfold ret at 1. cbv beta iota.
    rewrite Hdisp. cbn [doc put_doc put_trace trace with_page_states prevpage].
    rewrite <- !app_assoc. reflexivity.
Qed.

(** A display that the terminal refuses: the page state is marked stale
    and NameError leaves display_page. *)
Lemma display_page_refused p pg ps w :
  0 <= p ->
  loadPage (base (doc w)) p = Some pg ->
  page_states (doc w) !! Z.to_nat p = Some ps ->
  layout_defined (doc w) (scr w) pg ->
  refused (stdin w) ->
  exists w',
    display_page p true w = (Raised (NameError "bar"), w') /\
    stale_flag (doc w') p = Some true.
Proof.
  intros Hp Hpg Hps Hlay Href.
  pose proof (lookup_lt_Some _ _ _ Hps) as Hlt.
  unfold display_page, bind.
  rewrite (layout_page_run p pg ps w Hp Hpg Hps Hlay). cbv beta iota.
  assert (Hgo : forall w' ps',
            page_states (doc w') !! Z.to_nat p = Some ps' ->
            stdin w' = stdin w ->
            exists w'',
              (let (o, w1) := confirm_display p w' in
               match o with
               | Returned _ =>
                   let (o0, w'0) :=
                     update_page_state (set_stale false) p w1 in
                   match o0 with
                   | Returned _ => Screen.swallow_keys w'0
                   | Raised e => (Raised e, w'0)
                   | Blocked => (Blocked, w'0)
                   end
               | Raised e => (Raised e, w1)
               | Blocked => (Blocked, w1)
               end) = (Raised (NameError "bar"), w'') /\
              stale_flag (doc w'') p = Some true).
  { intros w' ps' Hps' Hin.
    rewrite <- Hin in Href.
    destruct (confirm_display_refused p ps' w' Hp Hps' Href) as [rest Hc].
    rewrite Hc. eexists. split; [reflexivity|].
    unfold stale_flag.
    cbn [doc put_doc put_trace put_stdin with_page_states page_states].
    rewrite py_index_nonneg by exact Hp.
    rewrite list_lookup_insert_eq by (apply (lookup_lt_Some _ _ _ Hps')).
    reflexivity. }
  destruct (stale ps).
  - rewrite render_and_transmit_run by reflexivity. cbv beta iota.
    eapply Hgo; [|reflexivity].
    cbn [doc put_doc put_trace put_stdin with_page_states page_states].
    apply list_lookup_insert_eq. exact Hlt.
  - unfold ret at 1. cbv beta iota.
    eapply Hgo; [|reflexivity].
    cbn [doc put_doc put_trace put_stdin with_page_states page_states].
    apply list_lookup_insert_eq. exact Hlt.
Qed.

Lemma renders_app t1 t2 : renders (t1 ++ t2) = (renders t1 + renders t2)%nat.
Proof. unfold renders. rewrite filter_app, length_app. reflexivity. Qed.

Lemma image_frames_app t1 t2 :
  image_frames (t1 ++ t2) = image_frames t1 ++ image_frames t2.
Proof. unfold image_frames. apply filter_app. Qed.

Lemma renders_image_frames t :
  Forall (fun e => is_image_frame e = true) t -> renders t = 0%nat.
Proof.
  unfold renders. induction 1 as [|e t He _ IH]; [reflexivity|].
  rewrite filter_cons.
  destruct e; try discriminate He.
  destruct (decide (is_getPixmap (Gr cmd payload) = true)) as [H|_];
    [discriminate H | exact IH].
Qed.

Lemma image_frames_all t :
  Forall (fun e => is_image_frame e = true) t -> image_frames t = t.
Proof.
  unfold image_frames. induction 1 as [|e t He _ IH]; [reflexivity|].
  rewrite filter_cons_True by exact He. rewrite IH. reflexivity.
Qed.

Lemma renders_render_cycle d s p pg : renders (render_cycle d s p pg) = 1%nat.
Proof.
  unfold render_cycle.
  change (?e :: ?l) with ([e] ++ l). rewrite renders_app.
  rewrite (renders_image_frames (transfer_frames _ _ _ _))
    by apply chunk_loop_image_frames.
  reflexivity.
Qed.

Lemma renders_cursor s pl : renders [cursor_event s pl] = 0%nat.
Proof. destruct pl as [[[l t] r] b]. reflexivity. Qed.

Lemma image_frames_cursor s pl : image_frames [cursor_event s pl] = [].
Proof. destruct pl as [[[l t] r] b]. reflexivity. Qed.

Lemma image_frames_render_cycle d s p pg :
  image_frames (render_cycle d s p pg)
  = transfer_frames d p pg (zoom_factor d s pg).
Proof.
  unfold render_cycle, image_frames. rewrite filter_cons.
  destruct (decide _) as [H|_]; [discriminate H|].
  apply image_frames_all, chunk_loop_image_frames.
Qed.

(** What write_chunked sends for a page is the image of that page: the
    frames carry the base64 text of the compressed samples, cut into
    chunks, and the first frame carries the transfer command. *)
Lemma transfer_frames_sent d p pg fac :
  image_sent d p (final_pixmap d pg fac) (transfer_frames d p pg fac).
Proof.
  unfold image_sent, transfer_frames. cbv zeta.
  set (pix := final_pixmap d pg fac).
  set (data := zlib_compress (samples pix)).
  destruct (chunk_loop_payloads (standard_b64encode data)
              (transfer_cmd d p pix)) as [Hc Hall].
  destruct (chunk_loop_frames (standard_b64encode data)
              (transfer_cmd d p pix)) as [Hlen Hframes].
  rewrite standard_b64encode_length in Hlen, Hframes.
  split; [exact Hc|].
  split; [rewrite Hc; apply standard_b64encode_length|].
  split; [exact Hlen|].
  split; [exact Hall|].
  intros c pl rest Hfr.
  rewrite Hfr in Hlen, Hframes. cbn [length] in Hlen.
  specialize (Hframes 0%nat ltac:(lia)).
  change ((Gr c pl :: rest) !! 0%nat) with (Some (Gr c pl)) in Hframes.
  match type of Hframes with
  | _ = Some (Gr ?c0 _) => assert (Hcmd : c = c0) by congruence
  end.
  clear Hframes Hfr. subst c.
  rewrite !dict_get_set_ne by discriminate.
  rewrite dict_get_set_eq.
  repeat (split; [reflexivity|]).
  destruct rest as [|e rest]; cbn [length] in Hlen; rewrite <- Hlen.
  - reflexivity.
  - reflexivity.
Qed.

(** C3, as the code has it. Two consecutive calls of display_page for the
    same page, the first acknowledged by the terminal, nothing changed in
    between. The first call stores the zoom factor and the placement it
    computed and stale = false; when the page state was stale it renders
    the page once and sends the image (the frames carry the base64 text of
    the compressed samples of that pixmap), when it was not stale it
    renders and sends nothing. The second call writes only the cursor move
    and, when asked to display, the clear and display commands. Over both
    calls getPixmap and write_chunked run once when the page state was
    stale before the first call and not at all otherwise. *)
Theorem display_page_twice (p : Z) (pg : fitz_Page) (ps : Page_State)
    (w : World) :
  0 <= p ->
  loadPage (base (doc w)) p = Some pg ->
  page_states (doc w) !! Z.to_nat p = Some ps ->
  layout_defined (doc w) (scr w) pg ->
  acknowledged (stdin w) ->
  exists w1 zoom place frames,
    display_page p true w = (Returned tt, w1) /\
    page_states (doc w1) !! Z.to_nat p
      = Some (set_stale false (set_place place (set_factor zoom ps))) /\
    image_sent (doc w) p (final_pixmap (doc w) pg zoom) frames /\
    trace w1
      = trace w
        ++ cursor_event (scr w) place
           :: (if stale ps
               then Engine_getPixmap p (crop_box (doc w)) zoom
                      (rotation (doc w)) (alpha (doc w)) :: frames
               else [])
           ++ [clear_cmd (prevpage (doc w)); display_cmd p] /\
    forall display,
      let w2 := snd (display_page p display w1) in
      trace w2
        = trace w1
          ++ cursor_event (scr w) place
             :: (if display
                 then [clear_cmd (prevpage (doc w)); display_cmd p]
                 else []) /\
      renders (trace w2)
        = (renders (trace w) + (if stale ps then 1 else 0))%nat /\
      image_frames (trace w2)
        = image_frames (trace w) ++ (if stale ps then frames else []).
Proof.
  intros Hp Hpg Hps Hlay Hack.
  pose proof (lookup_lt_Some _ _ _ Hps) as Hlt.
  destruct (display_page_ack p pg ps w Hp Hpg Hps Hlay Hack) as [rest Hrun].
  eexists. exists (zoom_factor (doc w) (scr w) pg).
  exists (placement (doc w) (scr w) pg).
  exists (transfer_frames (doc w) p pg (zoom_factor (doc w) (scr w) pg)).
  split; [exact Hrun|].
  split; [|split; [|split]].
  - cbn [doc put_doc put_trace put_stdin put_keys with_page_states
         page_states].
    apply list_lookup_insert_eq. exact Hlt.
  - apply transfer_frames_sent.
  - reflexivity.
  - intros display w2. subst w2.
    erewrite display_page_trace;
      [| exact Hp | exact Hpg
       | cbn [doc put_doc put_trace put_stdin put_keys with_page_states
              page_states];
         apply list_lookup_insert_eq; exact Hlt
       | exact Hlay ].
    cbn [stale set_stale app].
    cbn [doc put_doc put_trace put_stdin put_keys with_page_states
         page_states scr trace prevpage].
    split; [reflexivity|].
    assert (Hg : forall a b, renders [clear_cmd a; display_cmd b] = 0%nat)
      by reflexivity.
    assert (Hi : forall a b, image_frames [clear_cmd a; display_cmd b] = [])
      by reflexivity.
    split.
    + rewrite !renders_app.
      change (cursor_event ?s ?pl :: ?l) with ([cursor_event s pl] ++ l).
      rewrite !renders_app, !renders_cursor, !Hg.
      fold (render_cycle (doc w) (scr w) p pg).
      destruct (stale ps); [rewrite renders_render_cycle|];
        destruct display; rewrite ?Hg; cbn; lia.
    + rewrite !image_frames_app.
      change (cursor_event ?s ?pl :: ?l) with ([cursor_event s pl] ++ l).
      rewrite !image_frames_app, !image_frames_cursor, !Hi.
      fold (render_cycle (doc w) (scr w) p pg).
      destruct (stale ps); [rewrite image_frames_render_cycle|];
        destruct display; rewrite ?Hi; cbn; rewrite ?app_nil_r; reflexivity.
Qed.

End DisplayFacts.

(** The sample book, just opened, shown on the sample terminal, which
    acknowledges: page 0 is stale and is rendered once over the two
    calls. *)
Lemma display_page_twice_witness :
  let w := Sample.world (main_open Sample.book (mkOpts None None None))
             (Sample.resp_ok ++ Sample.resp_ok) [] in
  exists w1,
    @display_page Sample.externals 0 true w = (Returned tt, w1) /\
    renders (trace (snd (@display_page Sample.externals 0 true w1))) = 1%nat.
Proof.
  intros w.
  assert (Hlay : layout_defined (doc w) (scr w) Sample.letter_page).
  { repeat split; vm_compute; reflexivity. }
  assert (Hack : acknowledged (stdin w)).
  { eexists. eexists. split; vm_compute; reflexivity. }
  destruct (@display_page_twice Sample.externals 0 Sample.letter_page
              (Page_State_init 0) w ltac:(lia) eq_refl eq_refl Hlay Hack)
    as (w1 & zoom & place & frames & Hrun & _ & _ & _ & Hsecond).
  exists w1. split; [exact Hrun|].
  destruct (Hsecond true) as (_ & Hr & _). exact Hr.
Defined.

(** C3 as the specification words it does not hold for a page that is
    already on screen: the sample book has been displayed once, so page 0
    is not stale; the next two consecutive calls for page 0 both return
    and over the two of them getPixmap and write_chunked run not once but
    never. *)
Lemma display_page_twice_fresh_page :
  let w0 := Sample.world (main_open Sample.book (mkOpts None None None))
              (Sample.resp_ok ++ Sample.resp_ok ++ Sample.resp_ok) [] in
  let w := snd (@display_page Sample.externals 0 true w0) in
  let w1 := snd (@display_page Sample.externals 0 true w) in
  let w2 := snd (@display_page Sample.externals 0 true w1) in
  stale_flag (doc w) 0 = Some false /\
  fst (@display_page Sample.externals 0 true w) = Returned tt /\
  fst (@display_page Sample.externals 0 true w1) = Returned tt /\
  renders (trace w2) = renders (trace w) /\
  image_frames (trace w2) = image_frames (trace w) /\
  ~ (renders (trace w2) = S (renders (trace w))).
Proof.
  repeat split; try (vm_compute; reflexivity).
  vm_compute. discriminate.
Qed.

(** C1. The specification expects a refused display to end with
    display_page returning, the page still marked stale and the previous
    page still on screen. On the code: the sample book is open at page 0
    and the terminal answers the display command without OK. The call does
    not return, NameError for [bar] leaves display_page (for every document
    and terminal, [display_page_refused]); the clear command for the
    previous page was written before the display command. *)
Theorem display_page_refused_raises :
  let w := Sample.world (main_open Sample.book (mkOpts None None None))
             Sample.resp_fail [] in
  let r := @display_page Sample.externals 0 true w in
  fst r = Raised (NameError "bar") /\
  stale_flag (doc (snd r)) 0 = Some true /\
  exists t, trace (snd r) = t ++ [clear_cmd 0; display_cmd 0].
Proof.
  split; [vm_compute; reflexivity|].
  split; [vm_compute; reflexivity|].
  eexists. vm_compute.
  match goal with
  | |- ?l = _ =>
      let n := eval vm_compute in (length l - 2)%nat in
      instantiate (1 := take n l)
  end.
  reflexivity.
Qed.

(* ===================================================================== *)
(** * The key dispatcher *)
(* ===================================================================== *)

(** Closed key tests are replaced by their values. *)
Ltac eval_key_tests :=
  repeat match goal with
  | |- context [key_in ?k ?s] =>
      let b := eval vm_compute in (key_in k s) in
      lazymatch b with
      | true => change (key_in k s) with true
      | false => change (key_in k s) with false
      end
  | |- context [in_range ?k ?a ?b] =>
      let v := eval vm_compute in (in_range k a b) in
      lazymatch v with
      | true => change (in_range k a b) with true
      | false => change (in_range k a b) with false
      end
  | |- context [Z.eqb ?k ?a] =>
      let v := eval vm_compute in (Z.eqb k a) in
      lazymatch v with
      | true => change (Z.eqb k a) with true
      | false => change (Z.eqb k a) with false
      end
  end.

Section ViewFacts.
Context {X : Externals}.

Lemma py_index_app_0 {A} (s : list A) (k : A) :
  py_index (s ++ [k]) 0 = Some (hd k s).
Proof.
  rewrite py_index_nonneg by lia. destruct s; reflexivity.
Qed.

Lemma all_stale_mark d : all_stale (mark_all_pages_stale d).
Proof.
  unfold all_stale, mark_all_pages_stale. cbn [page_states with_page_states].
  apply Forall_map, Forall_forall. intros s _. reflexivity.
Qed.

Lemma mark_all_pages_stale_length d :
  length (page_states (mark_all_pages_stale d)) = length (page_states d).
Proof.
  unfold mark_all_pages_stale. cbn [page_states with_page_states].
  apply length_map.
Qed.

Lemma view_key_setting key count l w :
  key_in key setting_keys = true ->
  view_key key count l w
  = (Returned {| bar := bar l; count_string := ""; stack := [0] |},
     put_doc (mark_all_pages_stale (toggled key count (doc w))) w).
Proof.
  intros Hk. unfold key_in in Hk. apply existsb_exists in Hk.
  destruct Hk as [k [Hin Heq]]. apply Z.eqb_eq in Heq. subst k.
  unfold setting_keys in Hin.
  repeat (destruct Hin as [<-|Hin]); [..|destruct Hin];
    unfold view_key, toggled;
    change (ord "r") with 114; change (ord "R") with 82;
    change (ord "c") with 99; change (ord "a") with 97;
    change (ord "i") with 105; change (ord "d") with 100;
    eval_key_tests; cbv beta iota zeta;
    rewrite py_index_app_0; cbv beta iota;
    rewrite andb_false_r; cbv beta iota;
    reflexivity.
Qed.

(** C2. A key that rotates (either way) or toggles autocrop, alpha, invert
    or tint is handled by changing that setting and marking every page
    state stale; nothing is written to the terminal, so every entry of
    page_states is stale when the loop next reaches display_page. *)
Theorem setting_keys_mark_all_stale (key count : Z) (l : view_locals)
    (w : World) :
  key_in key setting_keys = true ->
  exists l' d',
    view_key key count l w = (Returned l', put_doc d' w) /\
    d' = mark_all_pages_stale (toggled key count (doc w)) /\
    all_stale d' /\
    length (page_states d') = length (page_states (doc w)) /\
    trace (put_doc d' w) = trace w.
Proof.
  intros Hk. eexists. eexists.
  split; [apply view_key_setting; exact Hk|].
  split; [reflexivity|].
  split; [apply all_stale_mark|].
  split; [|reflexivity].
  rewrite mark_all_pages_stale_length.
  unfold toggled. repeat case_match; reflexivity.
Qed.

Lemma hd_error_app_keep {A} (s : list A) (k x : A) :
  hd_error s = Some x -> hd_error (s ++ [k]) = Some x.
Proof. destruct s; [discriminate|]. intros H. exact H. Qed.

(** [stack[0]] is the 0 that [view] puts there: keys are appended behind
    it and every reset stores [[0]] again. *)
Lemma view_key_stack_head key count l w l' w' :
  hd_error (stack l) = Some 0 ->
  view_key key count l w = (Returned l', w') ->
  hd_error (stack l') = Some 0.
Proof.
  intros Hhd Hrun.
  assert (Hst : hd_error (if in_range key 48 257 then stack l ++ [key]
                          else stack l) = Some 0).
  { destruct (in_range key 48 257);
      [apply hd_error_app_keep|]; exact Hhd. }
  revert Hrun. unfold view_key.
  set (st := if in_range key 48 257 then stack l ++ [key] else stack l) in *.
  clearbody st.
  unfold resolved, clean_exit, bind, ret, raise.
  repeat match goal with
  | |- match ?x with _ => _ end = _ -> _ => destruct x
  | |- (match ?x with _ => _ end) _ = _ -> _ => destruct x
  | |- _ => progress cbv beta iota
  end;
  intros Hrun;
  try discriminate Hrun;
  try (injection Hrun as <- _; cbn [stack]; first [exact Hst | reflexivity]).
Qed.

Lemma view_iteration_stack_head l w l' w' :
  hd_error (stack l) = Some 0 ->
  view_iteration l w = (Returned l', w') ->
  hd_error (stack l') = Some 0.
Proof.
  intros Hhd. unfold view_iteration, bind.
  repeat match goal with
  | |- match ?x with _ => _ end = _ -> _ => destruct x
  | |- (match ?x with _ => _ end) _ = _ -> _ => destruct x
  | |- _ => progress cbv beta iota
  end; try discriminate.
  apply view_key_stack_head. exact Hhd.
Qed.

Lemma view_iterate_stack_head n : forall l w l' w',
  hd_error (stack l) = Some 0 ->
  view_iterate n l w = (Returned l', w') ->
  hd_error (stack l') = Some 0.
Proof.
  induction n as [|n IH]; intros l w l' w' Hhd.
  - cbn. intros H. injection H as <- _. exact Hhd.
  - cbn [view_iterate]. unfold bind.
    destruct (view_iteration l w) as [[l1| |] w1] eqn:E; try discriminate.
    apply IH. eapply view_iteration_stack_head; [exact Hhd | exact E].
Qed.

(** However many key events [view] has handled, [stack[0]] is 0. *)
Lemma view_stack_head n w l' w' :
  view n w = (Returned l', w') -> hd_error (stack l') = Some 0.
Proof.
  unfold view, bind, Screen.get_size, Screen.init_curses, emit, get_doc.
  destruct (winsz w) as [[[r c] wd] h]. cbv beta iota.
  apply view_iterate_stack_head. reflexivity.
Qed.

(** With 0 at [stack[0]], the key [g] matches no branch: it is appended to
    the stack and nothing else happens, whether or not a [g] is already
    there. *)
Lemma view_key_g count l w :
  hd_error (stack l) = Some 0 ->
  view_key (ord "g") count l w
  = (Returned {| bar := bar l; count_string := count_string l;
                 stack := stack l ++ [ord "g"] |}, w).
Proof.
  intros Hhd. unfold view_key.
  change (ord "g") with 103.
  eval_key_tests. cbv beta iota zeta.
  rewrite py_index_app_0.
  destruct (stack l) as [|x s]; [discriminate Hhd|].
  injection Hhd as ->. cbn [hd].
  eval_key_tests. cbv beta iota. reflexivity.
Qed.
End ViewFacts.

(** The setting key [r] with count 1 on the sample book. *)
Lemma setting_keys_mark_all_stale_witness :
  let w := Sample.world (main_open Sample.book (mkOpts None None None)) [] [] in
  let l := {| bar := mkBar [0] [32]; count_string := ""; stack := [0] |} in
  key_in (ord "r") setting_keys = true /\
  exists l' d',
    @view_key Sample.externals (ord "r") 1 l w = (Returned l', put_doc d' w) /\
    all_stale d' /\ rotation d' = 90.
Proof.
  intros w l. split; [reflexivity|].
  destruct (@setting_keys_mark_all_stale Sample.externals (ord "r") 1 l w
              eq_refl) as (l' & d' & Hrun & Hd & Hall & _).
  exists l', d'. split; [exact Hrun|]. split; [exact Hall|].
  rewrite Hd. reflexivity.
Defined.

(** C5. The specification, like the viewer's help text, expects the
    second [g] to take the viewer to physical page 0. On the code: the
    sample book is open at physical page 3 and the user presses [g] twice.
    After the first press the chord buffer holds that [g]; the second
    press is appended as well and the viewer stays on page 3, because the
    test at line 1162 reads [stack[0]], which is always 0
    ([view_stack_head], [view_key_g]). *)
Theorem gg_chord_does_not_fire :
  let w := Sample.world (main_open Sample.book (mkOpts (Some 3) None None))
             (Sample.resp_ok ++ Sample.resp_ok) [ord "g"; ord "g"] in
  exists l1 w1 l2 w2,
    @view Sample.externals 1 w = (Returned l1, w1) /\
    stack l1 = [0; ord "g"] /\ chord_pending l1 /\
    @view Sample.externals 2 w = (Returned l2, w2) /\
    stack l2 = [0; ord "g"; ord "g"] /\
    page (doc w2) = 3 /\ page (doc w2) <> 0 /\ keys w2 = [].
Proof.
  intros w.
  destruct (@view Sample.externals 1 w) as [o1 w1] eqn:E1.
  destruct (@view Sample.externals 2 w) as [o2 w2] eqn:E2.
  vm_compute in E1. vm_compute in E2.
  injection E1 as <- <-. injection E2 as <- <-.
  do 4 eexists.
  split; [reflexivity|]. split; [reflexivity|].
  split; [exists [0]; reflexivity|].
  split; [reflexivity|]. split; [reflexivity|].
  split; [reflexivity|]. split; [discriminate|reflexivity].
Qed.

(* ===================================================================== *)
(** * Overlay list browsers: selection *)
(* ===================================================================== *)

Section OverlayFacts.
Context {X : Externals}.

Lemma overlay_toggle_cases k :
  overlay_toggle k = SHOW_TOC \/ overlay_toggle k = SHOW_META \/
  overlay_toggle k = SHOW_URLS.
Proof. destruct k; auto. Qed.

(** One NEXT_PAGE key in an overlay. *)
Lemma overlay_loop_next k h key rest index j w :
  key_in key NEXT_PAGE = true ->
  overlay_loop k h (key :: rest) index j w
  = overlay_loop k h rest
      (overlay_next (overlay_len k) index)
      (overlay_scroll h (overlay_next (overlay_len k) index) j)
      (put_keys rest (put_trace (trace w ++ [Pad_refresh index j]) w)).
Proof.
  intros Hk. unfold key_in in Hk. apply existsb_exists in Hk.
  destruct Hk as [k0 [Hin Heq]]. apply Z.eqb_eq in Heq. subst k0.
  destruct (overlay_toggle_cases k) as [Ht|[Ht|Ht]];
    repeat (destruct Hin as [<-|Hin]); try solve [destruct Hin];
    cbn [overlay_loop]; rewrite Ht;
    change (ord "j") with 106; change (ord " ") with 32;
    eval_key_tests; cbv beta iota; reflexivity.
Qed.

(** One PREV_PAGE key in an overlay. *)
Lemma overlay_loop_prev k h key rest index j w :
  key_in key PREV_PAGE = true ->
  overlay_loop k h (key :: rest) index j w
  = overlay_loop k h rest
      (overlay_prev index)
      (overlay_scroll h (overlay_prev index) j)
      (put_keys rest (put_trace (trace w ++ [Pad_refresh index j]) w)).
Proof.
  intros Hk. unfold key_in in Hk. apply existsb_exists in Hk.
  destruct Hk as [k0 [Hin Heq]]. apply Z.eqb_eq in Heq. subst k0.
  destruct (overlay_toggle_cases k) as [Ht|[Ht|Ht]];
    repeat (destruct Hin as [<-|Hin]); try solve [destruct Hin];
    cbn [overlay_loop]; rewrite Ht;
    change (ord "k") with 107;
    eval_key_tests; cbv beta iota; reflexivity.
Qed.

(** A digit typed in an overlay matches no branch: the selection stays. *)
Lemma overlay_loop_digit k h key rest index j w :
  in_range key 48 58 = true ->
  overlay_loop k h (key :: rest) index j w
  = overlay_loop k h rest index (overlay_scroll h index j)
      (put_keys rest (put_trace (trace w ++ [Pad_refresh index j]) w)).
Proof.
  intros Hk. unfold in_range in Hk.
  apply andb_prop in Hk as [Hlo Hhi].
  apply Z.leb_le in Hlo. apply Z.ltb_lt in Hhi.
  assert (Hne : forall s, Forall (fun x => x < 48 \/ 58 <= x) s ->
                          key_in key s = false).
  { intros s Hs. unfold key_in. apply not_true_is_false. intros Hex.
    apply existsb_exists in Hex. destruct Hex as [x [Hin Heq]].
    apply Z.eqb_eq in Heq. subst x.
    rewrite List.Forall_forall in Hs. specialize (Hs key Hin). lia. }
  cbn [overlay_loop].
  rewrite (Hne REFRESH), (Hne QUIT), (Hne (overlay_toggle k)),
    (Hne NEXT_PAGE), (Hne PREV_PAGE), (Hne OPEN).
  - destruct (Z.eqb_spec key 27); [lia|]. reflexivity.
  - repeat constructor; vm_compute; intuition discriminate.
  - repeat constructor; vm_compute; intuition discriminate.
  - repeat constructor; vm_compute; intuition discriminate.
  - destruct k; repeat constructor; vm_compute; intuition discriminate.
  - repeat constructor; vm_compute; intuition discriminate.
  - repeat constructor; vm_compute; intuition discriminate.
Qed.

(** C7, without the count. In each of the three overlays a next or prev
    key moves the selection by exactly one position, next to
    min(len - 1, index + 1) and prev to max(0, index - 1), so that it lies
    in [0, len - 1] afterwards; no count takes part, and a digit typed in
    the overlay leaves the selection where it is. *)
Theorem overlay_moves_by_one (k : overlay_kind) (h key : Z) (rest : list Z)
    (index j : Z) (w : World) :
  key_in key (NEXT_PAGE ++ PREV_PAGE) = true ->
  0 < overlay_len k ->
  -1 <= index <= overlay_len k ->
  let index' := if key_in key NEXT_PAGE
                then Z.min (overlay_len k - 1) (index + 1)
                else Z.max 0 (index - 1) in
  overlay_loop k h (key :: rest) index j w
  = overlay_loop k h rest index' (overlay_scroll h index' j)
      (put_keys rest (put_trace (trace w ++ [Pad_refresh index j]) w)) /\
  0 <= index' <= overlay_len k - 1 /\
  Z.abs (index' - index) <= 1.
Proof.
  intros Hk Hlen Hidx index'.
  assert (Hcases : key_in key NEXT_PAGE = true \/
                   (key_in key NEXT_PAGE = false /\
                    key_in key PREV_PAGE = true)).
  { unfold key_in in *. rewrite existsb_app in Hk.
    destruct (existsb (Z.eqb key) NEXT_PAGE); [left; reflexivity|].
    right. split; [reflexivity | exact Hk]. }
  subst index'.
  destruct Hcases as [Hn | [Hn Hp]]; rewrite Hn.
  - split; [|lia].
    rewrite (overlay_loop_next _ _ _ _ _ _ _ Hn).
    unfold overlay_next. rewrite py_min_spec. reflexivity.
  - split; [|lia].
    rewrite (overlay_loop_prev _ _ _ _ _ _ _ Hp).
    unfold overlay_prev. rewrite py_max_spec. reflexivity.
Qed.
End OverlayFacts.

(** [j] in the table of contents of the sample book, from entry 0. *)
Lemma overlay_moves_by_one_witness :
  let w := Sample.world (main_open Sample.book (mkOpts None None None)) [] [] in
  let k := Overlay_toc (getToC Sample.book) in
  key_in (ord "j") (NEXT_PAGE ++ PREV_PAGE) = true /\
  0 < overlay_len k /\ -1 <= 0 <= overlay_len k /\
  @overlay_loop Sample.externals k 22 [ord "j"] 0 0 w
  = @overlay_loop Sample.externals k 22 [] 1 0
      (put_keys [] (put_trace (trace w ++ [Pad_refresh 0 0]) w)).
Proof.
  intros w k.
  split; [reflexivity|]. split; [reflexivity|].
  split; [split; discriminate|].
  destruct (@overlay_moves_by_one Sample.externals k 22 (ord "j") [] 0 0 w
              eq_refl eq_refl ltac:(split; discriminate)) as [H _].
  exact H.
Defined.

(** C7 with a count does not hold. On the sample book at page 0 the user
    types [3], opens the table of contents (five entries, entry 0 selected)
    and presses [j]: the selection shown is entry 1, not entry
    min(4, 0 + 3) = 3, and Enter then opens the page of entry 1. *)
Lemma overlay_ignores_count :
  let w := Sample.world (main_open Sample.book (mkOpts None None None))
             (Sample.resp_ok ++ Sample.resp_ok)
             [ord "3"; ord "t"; ord "j"; 10] in
  let r := @view Sample.externals 2 w in
  last_selection (trace (snd r)) = Some 1 /\
  last_selection (trace (snd r)) <> Some (Z.max 0 (Z.min (5 - 1) (0 + 3))) /\
  page (doc (snd r)) = 2.
Proof.
  intros w r.
  assert (H : last_selection (trace (snd r)) = Some 1)
    by (vm_compute; reflexivity).
  split; [exact H|]. split; [rewrite H; discriminate|].
  vm_compute. reflexivity.
Qed.

(* ===================================================================== *)
(** * The first display of a page *)
(* ===================================================================== *)

Section KeepsDoc.

Lemma keeps_doc_ret {A} (a : A) : keeps_doc (ret a).
Proof. intros w. reflexivity. Qed.

Lemma keeps_doc_raise {A} e : keeps_doc (@raise A e).
Proof. intros w. reflexivity. Qed.

Lemma keeps_doc_bind {A B} (m : M A) (k : A -> M B) :
  keeps_doc m -> (forall a, keeps_doc (k a)) -> keeps_doc (bind m k).
Proof.
  intros Hm Hk w. unfold bind. specialize (Hm w).
  destruct (m w) as [[a|e|] w']; cbn [snd] in *; [|exact Hm|exact Hm].
  rewrite Hk. exact Hm.
Qed.

Lemma keeps_doc_emit e : keeps_doc (emit e).
Proof. intros w. reflexivity. Qed.

Lemma keeps_doc_emit_all es : keeps_doc (emit_all es).
Proof. intros w. reflexivity. Qed.

Lemma keeps_doc_get_doc : keeps_doc get_doc.
Proof. intros w. reflexivity. Qed.

Lemma keeps_doc_get_scr : keeps_doc get_scr.
Proof. intros w. reflexivity. Qed.

Lemma keeps_doc_getch : keeps_doc getch.
Proof. intros w. unfold getch. destruct (keys w); reflexivity. Qed.

Lemma keeps_doc_truediv a b : keeps_doc (truediv a b).
Proof. intros w. unfold truediv. destruct (Qeq_bool b 0); reflexivity. Qed.

Lemma keeps_doc_fdiv a b : keeps_doc (fdiv a b).
Proof. intros w. unfold fdiv. destruct (Qeq_bool b 0); reflexivity. Qed.

Lemma keeps_doc_get_size : keeps_doc Screen.get_size.
Proof.
  intros w. unfold Screen.get_size.
  destruct (winsz w) as [[[r c] wd] h]. reflexivity.
Qed.

Lemma keeps_doc_response cmd payload :
  keeps_doc (write_gr_cmd_with_response cmd payload).
Proof.
  intros w. unfold write_gr_cmd_with_response, write_gr_cmd, bind, emit.
  cbv beta iota. cbn [stdin put_trace].
  destruct (read_response [] (stdin w)) as [[resp rest]|]; reflexivity.
Qed.

Lemma keeps_doc_write_chunked zlib cmd data :
  keeps_doc (write_chunked zlib cmd data).
Proof.
  intros w. unfold write_chunked.
  destruct (dict_get "f" cmd); [|reflexivity].
  destruct (value_neq v (VInt 100)); reflexivity.
Qed.

End KeepsDoc.

(** Decomposes a goal [keeps_doc m] along the structure of [m]. *)
Ltac keeps :=
  repeat first
    [ progress unfold Screen.clear, Screen.init_curses, Screen.swallow_keys,
        Screen.set_cursor, Screen.create_text_win, clear_page, write_gr_cmd,
        clean_exit, bar_update, resolved, init_pad, count_of
    | apply keeps_doc_ret | apply keeps_doc_raise | apply keeps_doc_emit
    | apply keeps_doc_emit_all | apply keeps_doc_get_doc
    | apply keeps_doc_get_scr | apply keeps_doc_getch
    | apply keeps_doc_truediv | apply keeps_doc_fdiv
    | apply keeps_doc_get_size
    | apply keeps_doc_response | apply keeps_doc_write_chunked
    | apply keeps_doc_bind; [|intros ?]
    | match goal with
      | |- keeps_doc (match ?x with _ => _ end) => destruct x
      end ].

Section FirstDisplay.
Context {X : Externals}.
Variable f : fitz_Document.
Variable p : Z.
Hypothesis p_nonneg : 0 <= p.

Lemma preserves_keeps (I : Document -> Prop) {A} (m : M A) :
  keeps_doc m -> preserves I m.
Proof. intros Hm w Hw. rewrite Hm. exact Hw. Qed.

Lemma preserves_bind (I : Document -> Prop) {A B} (m : M A) (k : A -> M B) :
  preserves I m -> (forall a, preserves I (k a)) -> preserves I (bind m k).
Proof.
  intros Hm Hk w Hw. unfold bind. specialize (Hm w Hw).
  destruct (m w) as [[a|e|] w']; cbn [snd] in *; [|exact Hm|exact Hm].
  apply Hk. exact Hm.
Qed.

Lemma preserves_modify_doc (I : Document -> Prop) (g : Document -> Document) :
  (forall d, I d -> I (g d)) -> preserves I (modify_doc g).
Proof. intros Hg w Hw. apply Hg. exact Hw. Qed.

Lemma preserves_run_doc (I : Document -> Prop)
    (g : Document -> outcome Document) :
  (forall d d', I d -> g d = Returned d' -> I d') -> preserves I (run_doc g).
Proof.
  intros Hg w Hw. unfold run_doc.
  destruct (g (doc w)) as [d'| |] eqn:E; cbn; [|exact Hw|exact Hw].
  eapply Hg; [exact Hw | exact E].
Qed.

(** A change that keeps the engine and the page states keeps [awaiting]. *)
Lemma awaiting_same d d' :
  base d' = base d -> page_states d' = page_states d ->
  awaiting f p d -> awaiting f p d'.
Proof.
  intros Hb Hs [Hf Hp]. unfold awaiting. rewrite Hb, Hs. split; assumption.
Qed.

Lemma awaiting_goto_page d q : awaiting f p d -> awaiting f p (goto_page d q).
Proof.
  apply awaiting_same; [|apply goto_page_page_states].
  unfold goto_page. repeat case_match; reflexivity.
Qed.

Lemma awaiting_mark_all d :
  awaiting f p d -> awaiting f p (mark_all_pages_stale d).
Proof.
  intros [Hf (ps & Hps & Hst)]. split; [exact Hf|].
  exists (set_stale true ps). split; [|reflexivity].
  unfold mark_all_pages_stale. cbn [page_states with_page_states].
  change (map (set_stale true) (page_states d))
    with (set_stale true <$> page_states d).
  rewrite list_lookup_fmap, Hps. reflexivity.
Qed.

Lemma awaiting_goto_chap d n d' :
  awaiting f p d -> goto_chap d n = Returned d' -> awaiting f p d'.
Proof.
  intros Hd. unfold goto_chap, try_except.
  set (len := Z.of_nat (length (getToC (base d)))).
  generalize (if n >? len then len else if n <? 0 then 0 else n).
  intros n'.
  destruct (py_index (getToC (base d)) n') as [ch|];
    intros Hrun; injection Hrun as <-; apply awaiting_goto_page;
    (eapply awaiting_same; [| |exact Hd]; reflexivity).
Qed.

(** Writing the state of a page other than [p], or marking any page stale,
    keeps [awaiting]. *)
Lemma preserves_update_other (g : Page_State -> Page_State) q :
  0 <= q -> q <> p -> preserves (awaiting f p) (update_page_state g q).
Proof.
  intros Hq Hne w [Hf (ps & Hps & Hst)]. unfold update_page_state.
  rewrite py_index_nonneg by exact Hq.
  destruct (page_states (doc w) !! Z.to_nat q) as [s|] eqn:E;
    [|split; [exact Hf | eauto]].
  unfold py_setitem.
  pose proof (lookup_lt_Some _ _ _ E) as Hlt.
  destruct (Z.leb_spec 0 q); [|lia].
  destruct (Z.ltb_spec q (Z.of_nat (length (page_states (doc w))))); [|lia].
  cbn. split; [exact Hf|]. exists ps. split; [|exact Hst].
  cbn [page_states with_page_states].
  rewrite list_lookup_insert_ne by lia. exact Hps.
Qed.

Lemma py_setitem_Some {A} (l l' : list A) q x :
  py_setitem l q x = Some l' -> exists i : nat, l' = <[i := x]> l.
Proof.
  unfold py_setitem. repeat case_match; intros Hs;
    try discriminate Hs; injection Hs as <-; eauto.
Qed.

Lemma preserves_update_stale q :
  preserves (awaiting f p) (update_page_state (set_stale true) q).
Proof.
  intros w [Hf (ps & Hps & Hst)]. unfold update_page_state.
  destruct (py_index (page_states (doc w)) q) as [s|];
    [|split; [exact Hf | eauto]].
  destruct (py_setitem (page_states (doc w)) q (set_stale true s))
    as [l'|] eqn:E; [|split; [exact Hf | eauto]].
  apply py_setitem_Some in E as [i ->].
  cbn. split; [exact Hf|]. cbn [page_states with_page_states].
  destruct (decide (i = Z.to_nat p)) as [->|Hne].
  - exists (set_stale true s). split; [|reflexivity].
    apply list_lookup_insert_eq. apply (lookup_lt_Some _ _ _ Hps).
  - exists ps. split; [|exact Hst].
    rewrite list_lookup_insert_ne by exact Hne. exact Hps.
Qed.

(** Decomposes a goal [preserves (awaiting f p) m] along [m]. *)
Ltac pres :=
  repeat first
    [ solve [apply preserves_keeps; keeps]
    | match goal with
      | H : context [preserves] |- _ => solve [apply H]
      end
    | apply preserves_bind; [|intros ?]
    | apply preserves_update_stale
    | apply preserves_modify_doc;
      unfold goto_logical_page, next_page, prev_page;
      intros ? ?;
      first [ apply awaiting_mark_all; assumption
            | apply awaiting_goto_page; assumption
            | eapply awaiting_same; [| |eassumption]; reflexivity ]
    | apply preserves_run_doc;
      unfold next_chap, prev_chap; intros ? ? ? ?;
      eapply awaiting_goto_chap; eassumption
    | match goal with
      | |- preserves _ (match ?x with _ => _ end) => destruct x
      end ].

Lemma preserves_set_layout a : preserves (awaiting f p) (set_layout a).
Proof. unfold set_layout. pres. Qed.

Lemma preserves_overlay_open k index :
  preserves (awaiting f p) (overlay_open k index).
Proof. unfold overlay_open, goto_link. pres. Qed.

Lemma preserves_overlay_loop k h ks : forall index j,
  preserves (awaiting f p) (overlay_loop k h ks index j).
Proof.
  induction ks as [|key rest IH]; intros index j w Hw.
  - exact Hw.
  - cbn [overlay_loop].
    set (w1 := put_keys rest
                 (put_trace (trace w ++ [Pad_refresh index j]) w)).
    assert (Hw1 : awaiting f p (doc w1)) by exact Hw.
    clearbody w1.
    destruct (key_in key REFRESH).
    { match goal with
      | |- context [match ?m w1 with _ => _ end] =>
          assert (Hm : preserves (awaiting f p) m)
            by (pose proof preserves_set_layout; pres);
          specialize (Hm w1 Hw1); destruct (m w1) as [[a|e|] w2]
      end; cbn [snd] in Hm; [|exact Hm|exact Hm].
      apply IH. exact Hm. }
    destruct (key_in key QUIT); [exact Hw1|].
    destruct ((key =? 27) || key_in key (overlay_toggle k)); [exact Hw1|].
    destruct (key_in key NEXT_PAGE); [apply IH; exact Hw1|].
    destruct (key_in key PREV_PAGE); [apply IH; exact Hw1|].
    destruct (key_in key OPEN); [|apply IH; exact Hw1].
    pose proof (preserves_overlay_open k index w1 Hw1) as Ho.
    destruct (overlay_open k index w1) as [[[|]|e|] w2]; cbn [snd] in Ho;
      try exact Ho.
    apply IH. exact Ho.
Qed.

Lemma preserves_overlay k index : preserves (awaiting f p) (overlay k index).
Proof.
  unfold overlay. pres.
  intros w Hw. apply preserves_overlay_loop. exact Hw.
Qed.

Lemma preserves_view_key key count l :
  preserves (awaiting f p) (view_key key count l).
Proof.
  pose proof preserves_set_layout as Hlay.
  pose proof preserves_overlay as Hov.
  unfold view_key, show_toc, show_meta, show_urls. pres.
  - intros w Hw.
    destruct (visual_mode (doc w) (scr w) (bar l) (keys w)) as [[o ks] evs].
    destruct o; exact Hw.
  - intros w Hw. destruct (send_to_neovim (make_link a)) as [o evs].
    destruct o; exact Hw.
Qed.

Lemma preserves_display_other q display :
  0 <= q -> q <> p -> preserves (awaiting f p) (display_page q display).
Proof.
  intros Hq Hne.
  pose proof (fun g => preserves_update_other g q Hq Hne) as Hup.
  unfold display_page, layout_page, render_and_transmit, confirm_display.
  pres.
Qed.

Lemma Document_init_page_states :
  length (page_states (Document_init f)) = Z.to_nat (pageCount f) /\
  forall q, 0 <= q < pageCount f ->
    page_states (Document_init f) !! Z.to_nat q = Some (Page_State_init q).
Proof.
  unfold Document_init. cbn [page_states]. split.
  - rewrite length_map, range_length. f_equal. lia.
  - intros q Hq.
    change (map Page_State_init ?l) with (Page_State_init <$> l).
    rewrite list_lookup_fmap, range_lookup by lia.
    cbn. f_equal. f_equal. lia.
Qed.

Lemma awaiting_open o : p < pageCount f -> awaiting f p (main_open f o).
Proof.
  intros Hp. unfold main_open.
  apply awaiting_goto_page.
  assert (H0 : awaiting f p (Document_init f)).
  { split; [reflexivity|]. exists (Page_State_init p).
    split; [|reflexivity]. apply Document_init_page_states. lia. }
  destruct (opt_page o), (opt_first_page_offset o), (opt_key o);
    (eapply awaiting_same; [| |exact H0]; reflexivity).
Qed.

(** Until page [p] is displayed, its state stays stale. *)
Lemma undisplayed_awaiting w :
  p < pageCount f -> undisplayed f p w -> awaiting f p (doc w).
Proof.
  intros Hp. induction 1 as [w o Hw|w key count l _ IH|w q display _ IH Hq Hne
                            |w w' _ IH Hw].
  - rewrite Hw. apply awaiting_open. exact Hp.
  - apply preserves_view_key. exact IH.
  - apply preserves_display_other; assumption.
  - rewrite Hw. exact IH.
Qed.

(** C9. Page_State.__init__ sets stale, and Document.__init__ builds one
    state per page index; the state of a page stays stale through every
    key event and every display of another page, so the first display_page
    call for a page since the document was opened renders it (one getPixmap
    call, at the zoom factor the call computed) and transmits the image
    (write_chunked: frames that carry the base64 text of the compressed
    samples of that pixmap), whatever [display] is. *)
Theorem first_display_renders (w : World) (pg : fitz_Page) (display : bool) :
  p < pageCount f ->
  undisplayed f p w ->
  loadPage f p = Some pg ->
  layout_defined (doc w) (scr w) pg ->
  stale (Page_State_init p) = true /\
  page_states (Document_init f) !! Z.to_nat p = Some (Page_State_init p) /\
  length (page_states (Document_init f)) = Z.to_nat (pageCount f) /\
  exists zoom place frames,
    let w' := snd (display_page p display w) in
    image_sent (doc w) p (final_pixmap (doc w) pg zoom) frames /\
    trace w'
    = trace w
      ++ cursor_event (scr w) place
         :: Engine_getPixmap p (crop_box (doc w)) zoom
              (rotation (doc w)) (alpha (doc w))
         :: frames
         ++ (if display then [clear_cmd (prevpage (doc w)); display_cmd p]
             else []) /\
    renders (trace w') = S (renders (trace w)) /\
    image_frames (trace w') = image_frames (trace w) ++ frames.
Proof.
  intros Hp Hund Hpg Hlay.
  split; [reflexivity|].
  split; [apply Document_init_page_states; lia|].
  split; [apply Document_init_page_states|].
  destruct (undisplayed_awaiting w Hp Hund) as [Hf (ps & Hps & Hst)].
  rewrite <- Hf in Hpg.
  exists (zoom_factor (doc w) (scr w) pg).
  exists (placement (doc w) (scr w) pg).
  exists (transfer_frames (doc w) p pg (zoom_factor (doc w) (scr w) pg)).
  cbv zeta.
  rewrite (display_page_trace p display pg ps w p_nonneg Hpg Hps Hlay).
  rewrite Hst.
  split; [apply transfer_frames_sent|].
  split; [reflexivity|].
  change (cursor_event ?s ?pl :: ?t) with ([cursor_event s pl] ++ t).
  split.
  - rewrite !renders_app, renders_cursor, renders_render_cycle.
    assert (Hg : renders (if display
                          then [clear_cmd (prevpage (doc w)); display_cmd p]
                          else []) = 0%nat)
      by (destruct display; reflexivity).
    rewrite Hg. lia.
  - rewrite !image_frames_app, image_frames_cursor,
      image_frames_render_cycle.
    assert (Hg : image_frames
                   (if display
                    then [clear_cmd (prevpage (doc w)); display_cmd p]
                    else []) = [])
      by (destruct display; reflexivity).
    rewrite Hg, app_nil_r. reflexivity.
Qed.
End FirstDisplay.

(** Page 4 of the sample book, first displayed after the viewer has shown
    page 0 and handled the keys [4] and [j]. *)
Lemma first_display_renders_witness :
  let w0 := Sample.world (main_open Sample.book (mkOpts None None None))
              Sample.resp_ok [] in
  let l := {| bar := mkBar [0] [32]; count_string := ""; stack := [0] |} in
  let w1 := snd (@display_page Sample.externals 0 true w0) in
  let w2 := snd (@view_key Sample.externals (ord "4") 1 l w1) in
  let w3 := snd (@view_key Sample.externals (ord "j") 4 l w2) in
  page (doc w3) = 4 /\
  renders (trace (snd (@display_page Sample.externals 4 true w3)))
  = S (renders (trace w3)).
Proof.
  intros w0 l w1 w2 w3.
  split; [vm_compute; reflexivity|].
  assert (Hund : @undisplayed Sample.externals Sample.book 4 w3).
  { apply undisplayed_key, undisplayed_key.
    apply undisplayed_other; [|lia|lia].
    apply (undisplayed_open _ _ w0 (mkOpts None None None)). reflexivity. }
  assert (Hlay : layout_defined (doc w3) (scr w3) Sample.letter_page).
  { repeat split; vm_compute; reflexivity. }
  destruct (@first_display_renders Sample.externals Sample.book 4
              ltac:(lia) w3 Sample.letter_page true eq_refl Hund
              eq_refl Hlay) as (_ & _ & _ & zoom & place & frames & H).
  destruct H as (_ & _ & Hr & _). exact Hr.
Defined.

(* ===================================================================== *)
(** * More on navigation *)
(* ===================================================================== *)

Section NavMore.

(** X1. page_to_logical and logical_to_page undo each other except at
    logical number 0: a physical page whose logical number is 0 is mapped
    back to the current page's physical index minus the offset, because
    logical_to_page reads 0 as no argument. *)
Theorem logical_physical_round_trip (d : Document) (p n : Z) :
  (p + first_page_offset d <> 0 ->
     logical_to_page d (Some (page_to_logical d (Some p))) = p) /\
  (p + first_page_offset d = 0 ->
     logical_to_page d (Some (page_to_logical d (Some p)))
     = page d - first_page_offset d) /\
  (n <> 0 ->
     page_to_logical d (Some (logical_to_page d (Some n))) = n).
Proof.
  unfold logical_to_page, page_to_logical.
  repeat split.
  - intros H. destruct (Z.eqb_spec (p + first_page_offset d) 0); lia.
  - intros H. rewrite H. reflexivity.
  - intros H. destruct (Z.eqb_spec n 0); lia.
Qed.

(** X2. Within the document next_page(count) and prev_page(count) undo
    each other; at the last page next_page stays put, so going forward and
    back from a page less than count pages before the end lands count pages
    before the last page instead. *)
Theorem next_prev_page (d : Document) (count : Z) :
  0 <= pages d -> 0 <= page d <= pages d -> 0 <= count ->
  (page d + count <= pages d ->
     page (prev_page (next_page d count) count) = page d) /\
  (pages d < page d + count ->
     page (next_page d count) = pages d /\
     page (prev_page (next_page d count) count)
     = Z.max 0 (pages d - count)).
Proof.
  intros Hp Hpage Hc.
  assert (Hn : page (next_page d count)
               = Z.max 0 (Z.min (pages d) (page d + count))).
  { unfold next_page. apply goto_page_clamp. exact Hp. }
  assert (Hpn : pages (next_page d count) = pages d).
  { unfold next_page, goto_page. repeat case_match; reflexivity. }
  assert (Hb : page (prev_page (next_page d count) count)
               = Z.max 0 (Z.min (pages d)
                            (page (next_page d count) - count))).
  { unfold prev_page.
    rewrite goto_page_clamp by (rewrite Hpn; exact Hp).
    rewrite Hpn. reflexivity. }
  split; intros H; [|split]; rewrite ?Hb, ?Hn; lia.
Qed.

Lemma next_prev_page_witness :
  let d := goto_page (main_open Sample.book (mkOpts None None None)) 7 in
  0 <= pages d /\ 0 <= page d <= pages d /\
  page (prev_page (next_page d 2) 2) = 7 /\
  page (prev_page (next_page d 5) 5) = 4.
Proof.
  split; [vm_compute; discriminate|].
  split; [split; vm_compute; discriminate|].
  destruct (next_prev_page
              (goto_page (main_open Sample.book (mkOpts None None None)) 7) 2)
    as [H2 _]; try (vm_compute; discriminate);
    [split; vm_compute; discriminate|].
  destruct (next_prev_page
              (goto_page (main_open Sample.book (mkOpts None None None)) 7) 5)
    as [_ H5]; try (vm_compute; discriminate);
    [split; vm_compute; discriminate|].
  split.
  - apply H2. vm_compute. discriminate.
  - destruct H5 as [_ H5]; [reflexivity|]. rewrite H5. reflexivity.
Defined.

Lemma current_chap_from_spec toc : forall i p len,
  (current_chap_from toc i p len = len /\
   Forall (fun ch => toc_page ch - 1 <= p) toc) \/
  (exists (k : nat) ch,
     toc !! k = Some ch /\ p < toc_page ch - 1 /\
     Forall (fun ch => toc_page ch - 1 <= p) (take k toc) /\
     current_chap_from toc i p len = i + Z.of_nat k - 1).
Proof.
  induction toc as [|ch toc IH]; intros i p len.
  - left. split; [reflexivity|constructor].
  - cbn [current_chap_from].
    destruct (Z.gtb_spec (toc_page ch - 1) p) as [Hgt|Hle].
    + right. exists 0%nat, ch. repeat split; [lia|constructor|lia].
    + destruct (IH (i + 1) p len) as [[Hr Hall]|(k & c & Hk & Hc & Hall & Hr)].
      * left. split; [exact Hr|]. constructor; [lia|exact Hall].
      * right. exists (S k), c. repeat split; [exact Hk|exact Hc| |lia].
        cbn [take]. constructor; [lia|exact Hall].
Qed.

(** X3. current_chap returns the index of the last chapter that starts at
    or before the current page only while a later chapter exists. When no
    chapter starts after the current page (the viewer is in the last
    chapter) it returns len(toc), one past the last index; when the first
    chapter starts after the current page it returns -1. *)
Theorem current_chap_range (d : Document) :
  let toc := getToC (base d) in
  let len := Z.of_nat (length toc) in
  -1 <= current_chap d <= len /\
  (Forall (fun ch => toc_page ch - 1 <= page d) toc ->
     current_chap d = len) /\
  (forall ch rest, toc = ch :: rest -> page d < toc_page ch - 1 ->
     current_chap d = -1) /\
  (current_chap d < len ->
     exists ch, toc !! Z.to_nat (current_chap d + 1) = Some ch /\
                page d < toc_page ch - 1 /\
                Forall (fun ch => toc_page ch - 1 <= page d)
                  (take (Z.to_nat (current_chap d + 1)) toc)).
Proof.
  intros toc len. unfold current_chap. fold toc. fold len.
  destruct (current_chap_from_spec toc 0 (page d) len)
    as [[Hr Hall]|(k & c & Hk & Hc & Hall & Hr)].
  - rewrite Hr. split; [lia|]. split; [reflexivity|]. split.
    + intros ch rest Htoc Hlt. rewrite Htoc in Hall.
      inversion Hall; subst. lia.
    + intros Hlt. lia.
  - pose proof (lookup_lt_Some _ _ _ Hk) as Hlt. fold len in Hr.
    rewrite Hr. split; [subst len; lia|]. split; [|split].
    + intros Hall'. rewrite Forall_lookup in Hall'.
      specialize (Hall' k c Hk). cbn in Hall'. lia.
    + intros ch rest Htoc Hp. destruct k as [|k]; [lia|].
      rewrite Htoc in Hall. cbn [take] in Hall. inversion Hall; subst. lia.
    + intros _. exists c.
      replace (Z.to_nat (0 + Z.of_nat k - 1 + 1)) with k by lia.
      repeat split; assumption.
Qed.

(** X4. For an index inside the table of contents goto_chap stores the
    index in [chapter] and goes to the entry's page (its 1-based page
    number minus one, clamped into the document). *)
Theorem goto_chap_in_range (d : Document) (n : Z) :
  0 <= pages d ->
  0 <= n < Z.of_nat (length (getToC (base d))) ->
  exists ch,
    getToC (base d) !! Z.to_nat n = Some ch /\
    goto_chap d n = Returned (goto_page (with_chapter d n) (toc_page ch - 1)) /\
    chapter (goto_page (with_chapter d n) (toc_page ch - 1)) = n /\
    page (goto_page (with_chapter d n) (toc_page ch - 1))
    = Z.max 0 (Z.min (pages d) (toc_page ch - 1)).
Proof.
  intros Hp Hn.
  destruct (lookup_lt_is_Some_2 (getToC (base d)) (Z.to_nat n)) as [ch Hch];
    [lia|].
  exists ch. split; [exact Hch|].
  split; [|split].
  - unfold goto_chap.
    destruct (Z.gtb_spec n (Z.of_nat (length (getToC (base d))))); [lia|].
    destruct (Z.ltb_spec n 0); [lia|].
    rewrite py_index_nonneg, Hch by lia. reflexivity.
  - rewrite goto_page_chapter. reflexivity.
  - rewrite goto_page_clamp by exact Hp. reflexivity.
Qed.

Lemma goto_chap_in_range_witness :
  let d := main_open Sample.book (mkOpts None None None) in
  0 <= pages d /\ 0 <= 2 < Z.of_nat (length (getToC (base d))) /\
  exists d', goto_chap d 2 = Returned d' /\ page d' = 4 /\ chapter d' = 2.
Proof.
  split; [vm_compute; discriminate|].
  split; [split; vm_compute; [discriminate|reflexivity]|].
  destruct (goto_chap_in_range
              (main_open Sample.book (mkOpts None None None)) 2)
    as (ch & Hch & Hrun & Hc & Hp);
    [vm_compute; discriminate|split; vm_compute; [discriminate|reflexivity]|].
  eexists. split; [exact Hrun|].
  split; [|exact Hc].
  rewrite Hp. vm_compute in Hch. injection Hch as <-. reflexivity.
Defined.

(** X5. next_chap and prev_chap count from the [chapter] field, which only
    goto_chap writes: paging with goto_page in between changes neither the
    chapter they jump to nor the page they land on. *)
Theorem chapter_steps_ignore_paging (d : Document) (q count : Z) :
  chapter (goto_page d q) = chapter d /\
  (exists d1 d2,
     next_chap (goto_page d q) count = Returned d1 /\
     next_chap d count = Returned d2 /\
     page d1 = page d2 /\ chapter d1 = chapter d2) /\
  (exists d1 d2,
     prev_chap (goto_page d q) count = Returned d1 /\
     prev_chap d count = Returned d2 /\
     page d1 = page d2 /\ chapter d1 = chapter d2).
Proof.
  assert (Hb : base (goto_page d q) = base d)
    by (unfold goto_page; repeat case_match; reflexivity).
  assert (Hpg : pages (goto_page d q) = pages d)
    by (unfold goto_page; repeat case_match; reflexivity).
  assert (Hsame : forall d1 d2 t,
            pages d1 = pages d2 ->
            page (goto_page d1 t) = page (goto_page d2 t)).
  { intros d1 d2 t H. unfold goto_page. rewrite H.
    repeat case_match; reflexivity. }
  assert (Hgen : forall n, exists d1 d2,
            goto_chap (goto_page d q) n = Returned d1 /\
            goto_chap d n = Returned d2 /\
            page d1 = page d2 /\ chapter d1 = chapter d2).
  { intros n. unfold goto_chap, try_except. rewrite Hb.
    set (len := Z.of_nat (length (getToC (base d)))).
    generalize (if n >? len then len else if n <? 0 then 0 else n).
    intros n'.
    destruct (py_index (getToC (base d)) n') as [ch|];
      eexists _, _; (split; [reflexivity|]); (split; [reflexivity|]);
      rewrite !goto_page_chapter;
      (split; [|reflexivity]);
      apply Hsame; cbn [pages with_chapter]; exact Hpg. }
  split; [apply goto_page_chapter|].
  split; unfold next_chap, prev_chap;
    rewrite goto_page_chapter; apply Hgen.
Qed.

End NavMore.

(* ===================================================================== *)
(** * More on the graphics transport *)
(* ===================================================================== *)

Section KittyMore.

Lemma read_response_spec input : forall acc,
  match read_response acc input with
  | Some (resp, rest) =>
      exists n : nat,
        resp = acc ++ take n input /\ rest = drop n input /\
        ends_with_ST resp = true /\
        forall k : nat, (k < n)%nat ->
          ends_with_ST (acc ++ take k input) = false
  | None => forall k : nat, ends_with_ST (acc ++ take k input) = false
  end.
Proof.
  induction input as [|b input IH]; intros acc; cbn [read_response].
  - destruct (ends_with_ST acc) eqn:E.
    + exists 0%nat. rewrite app_nil_r. repeat split; [exact E|]. lia.
    + intros k. rewrite take_nil, app_nil_r. exact E.
  - destruct (ends_with_ST acc) eqn:E.
    + exists 0%nat. cbn [take drop]. rewrite app_nil_r.
      repeat split; [exact E|]. lia.
    + specialize (IH (acc ++ [b])).
      destruct (read_response (acc ++ [b]) input) as [[resp rest]|].
      * destruct IH as (n & Hresp & Hrest & Hend & Hmin).
        exists (S n). cbn [take drop].
        rewrite <- app_assoc in Hresp. cbn [app] in Hresp.
        repeat split; [exact Hresp|exact Hrest|exact Hend|].
        intros [|k] Hk; cbn [take]; [rewrite app_nil_r; exact E|].
        specialize (Hmin k ltac:(lia)).
        rewrite <- app_assoc in Hmin. exact Hmin.
      * intros [|k]; cbn [take]; [rewrite app_nil_r; exact E|].
        specialize (IH k). rewrite <- app_assoc in IH. exact IH.
Qed.

(** X6. The response reader consumes stdin up to and including the first
    ESC-backslash and leaves what follows unread; if stdin never delivers
    the terminator it consumes everything and never returns (the viewer
    has no timeout). *)
Theorem read_response_first_terminator (input : list byte) :
  (forall resp rest,
     read_response [] input = Some (resp, rest) ->
     input = resp ++ rest /\ ends_with_ST resp = true /\
     forall k : nat, (k < length resp)%nat ->
       ends_with_ST (take k resp) = false) /\
  (read_response [] input = None <->
   forall k : nat, ends_with_ST (take k input) = false).
Proof.
  pose proof (read_response_spec input []) as H. cbn [app] in H.
  split.
  - intros resp rest E. rewrite E in H.
    destruct H as (n & -> & -> & Hend & Hmin).
    split; [symmetry; apply take_drop|]. split; [exact Hend|].
    intros k Hk. rewrite length_take in Hk.
    rewrite take_take. replace (k `min` n)%nat with k by lia.
    apply Hmin. lia.
  - destruct (read_response [] input) as [[resp rest]|].
    + destruct H as (n & -> & _ & Hend & _).
      split; [discriminate|]. intros Hall.
      rewrite Hall in Hend. discriminate.
    + split; [intros _; exact H | reflexivity].
Qed.

Lemma snd_pair {A B} (a : A) (b : B) : snd (a, b) = b.
Proof. reflexivity. Qed.

Lemma chunk_loop_snd_nil data : snd (chunk_loop [] data) = [].
Proof.
  pose proof chunk_size_pos as Hk.
  remember (length data) as len eqn:Hlen. revert data Hlen.
  induction len as [len IH] using lt_wf_ind. intros data Hlen.
  destruct data as [|b data'].
  - rewrite chunk_loop_equation_1. reflexivity.
  - rewrite chunk_loop_equation_2. cbv zeta.
    assert (Hpos : (0 < len)%nat) by (subst len; cbn [length]; lia).
    remember (b :: data') as data eqn:Hdata. clear Hdata b data'.
    rewrite snd_pair.
    apply (IH (len - chunk_size)%nat); [lia|].
    rewrite length_drop. lia.
Qed.

Lemma chunk_loop_snd cmd data :
  snd (chunk_loop cmd data) = match data with [] => cmd | _ :: _ => [] end.
Proof.
  destruct data as [|b data'].
  - rewrite chunk_loop_equation_1. reflexivity.
  - rewrite chunk_loop_equation_2. cbv zeta.
    rewrite snd_pair. apply chunk_loop_snd_nil.
Qed.

Lemma standard_b64encode_nil_iff data :
  standard_b64encode data = [] <-> data = [].
Proof.
  split; [|intros ->; reflexivity].
  destruct data as [|a [|b [|c rest]]]; [reflexivity|discriminate..].
Qed.

(** X7. The image payload survives chunking: the payloads of the frames
    write_chunked writes, concatenated in order, are the base64 text of the
    (compressed) data; no frame is empty and none is longer than 4096
    bytes. Nothing but the trace changes. *)
Theorem write_chunked_reassembles (zlib : list byte -> list byte)
    (cmd : dict) (data : list byte) (f : value) (w : World) :
  dict_get "f" cmd = Some f ->
  exists frames final,
    write_chunked zlib cmd data w
      = (Returned final, put_trace (trace w ++ frames) w) /\
    concat (map frame_payload frames) = encoded_payload zlib f data /\
    Forall (fun e => exists c p, e = Gr c (Some p) /\
                       (0 < length p <= chunk_size)%nat) frames.
Proof.
  intros Hf. unfold write_chunked, encoded_payload. rewrite Hf.
  destruct (value_neq f (VInt 100)).
  - destruct (chunk_loop_payloads (standard_b64encode (zlib data))
                (dict_set "o" (VStr "z") cmd)) as [Hc Hall].
    eexists. eexists. split; [reflexivity|]. split; assumption.
  - destruct (chunk_loop_payloads (standard_b64encode data) cmd)
      as [Hc Hall].
    eexists. eexists. split; [reflexivity|]. split; assumption.
Qed.

Lemma write_chunked_reassembles_witness :
  dict_get "f" Sample.image_cmd = Some (VInt 24) /\
  exists frames final,
    write_chunked (@zlib_compress Sample.externals) Sample.image_cmd
      Sample.image_data (Sample.world (Document_init Sample.book) [] [])
    = (Returned final,
       put_trace (trace (Sample.world (Document_init Sample.book) [] [])
                    ++ frames)
         (Sample.world (Document_init Sample.book) [] [])) /\
    length (concat (map frame_payload frames)) = 4136%nat.
Proof.
  split; [reflexivity|].
  destruct (write_chunked_reassembles (@zlib_compress Sample.externals)
              Sample.image_cmd Sample.image_data (VInt 24)
              (Sample.world (Document_init Sample.book) [] []) eq_refl)
    as (frames & final & Hrun & Hcat & _).
  exists frames, final. split; [exact Hrun|].
  rewrite Hcat. vm_compute. reflexivity.
Defined.

(** X8. write_chunked works on the caller's dict: a command without the
    [f] key raises KeyError before anything is written; otherwise the dict
    comes back empty as soon as one frame was written ([cmd.clear()]), and
    when the encoded payload is empty no frame is written at all and the
    dict comes back with its keys (and [o=z] if compression was applied).
    With [f] = 100 the encoded payload is empty exactly when the data is. *)
Theorem write_chunked_and_the_dict (zlib : list byte -> list byte)
    (cmd : dict) (data : list byte) (w : World) :
  (dict_get "f" cmd = None ->
     write_chunked zlib cmd data w = (Raised (KeyError "f"), w)) /\
  (forall f, dict_get "f" cmd = Some f ->
     let enc := encoded_payload zlib f data in
     let cmd1 := if value_neq f (VInt 100)
                 then dict_set "o" (VStr "z") cmd else cmd in
     (enc <> [] -> fst (write_chunked zlib cmd data w) = Returned []) /\
     (enc = [] ->
        write_chunked zlib cmd data w
        = (Returned cmd1, put_trace (trace w ++ []) w)) /\
     (value_neq f (VInt 100) = false -> (enc = [] <-> data = []))).
Proof.
  split.
  - intros Hf. unfold write_chunked. rewrite Hf. reflexivity.
  - intros f Hf enc cmd1. subst enc cmd1.
    unfold write_chunked, encoded_payload. rewrite Hf.
    destruct (value_neq f (VInt 100)).
    + split; [|split].
      * intros Hne. cbn. rewrite chunk_loop_snd.
        destruct (standard_b64encode (zlib data)); [contradiction|reflexivity].
      * intros ->. rewrite chunk_loop_equation_1. reflexivity.
      * discriminate.
    + split; [|split].
      * intros Hne. cbn. rewrite chunk_loop_snd.
        destruct (standard_b64encode data); [contradiction|reflexivity].
      * intros ->. rewrite chunk_loop_equation_1. reflexivity.
      * intros _. apply standard_b64encode_nil_iff.
Qed.

End KittyMore.

(* ===================================================================== *)
(** * More on display_page *)
(* ===================================================================== *)

Section DisplayMore.
Context {X : Externals}.







Lemma same_except_refl i d : same_except i d d.
Proof. repeat split. Qed.

Lemma preserves_update_same (g : Page_State -> Page_State) p d0 :
  0 <= p ->
  preserves (same_except (Z.to_nat p) d0) (update_page_state g p).
Proof.
  intros Hp w (Hrest & Hlen & Hother). unfold update_page_state.
  rewrite py_index_nonneg by exact Hp.
  destruct (page_states (doc w) !! Z.to_nat p) as [s|] eqn:E;
    [|repeat split; assumption].
  unfold py_setitem.
  pose proof (lookup_lt_Some _ _ _ E) as Hlt.
  destruct (Z.leb_spec 0 p); [|lia].
  destruct (Z.ltb_spec p (Z.of_nat (length (page_states (doc w))))); [|lia].
  cbn [andb snd doc put_doc]. split; [exact Hrest|].
  cbn [page_states with_page_states]. split.
  - rewrite length_insert. exact Hlen.
  - intros j Hj. rewrite list_lookup_insert_ne by lia. apply Hother, Hj.
Qed.

(** X11. Whatever happens in it (return, exception, endless wait),
    display_page(p) changes nothing in the document but the state of page
    p: the current and previous page, the settings and every other page
    state are as before, and no state is added or removed. *)
Theorem display_page_touches_one_state (p : Z) (display : bool) (w : World) :
  0 <= p ->
  same_except (Z.to_nat p) (doc w) (doc (snd (display_page p display w))).
Proof.
  intros Hp.
  assert (H : preserves (same_except (Z.to_nat p) (doc w))
                (display_page p display)).
  { pose proof (fun g => preserves_update_same g p (doc w) Hp) as Hup.
    unfold display_page, layout_page, render_and_transmit, confirm_display.
    repeat first
      [ solve [apply preserves_keeps; keeps]
      | apply Hup
      | apply preserves_bind; [|intros ?]
      | match goal with
        | |- preserves _ (match ?x with _ => _ end) => destruct x
        end ]. }
  apply H, same_except_refl.
Qed.

Lemma image_frame_not_display e :
  is_image_frame e = true -> is_display_cmd e = false.
Proof.
  destruct e as [cmd [pl|]| | | | | | | | | | |];
    try discriminate; reflexivity.
Qed.

(** X12. When asked to display, display_page writes the clear command for
    the previous page immediately followed by the display command for page
    p, as the last two things it writes, and no other display command:
    a refused or unanswered display is not retried. *)
Theorem display_page_clears_then_displays (p : Z) (pg : fitz_Page)
    (ps : Page_State) (w : World) :
  0 <= p ->
  loadPage (base (doc w)) p = Some pg ->
  page_states (doc w) !! Z.to_nat p = Some ps ->
  layout_defined (doc w) (scr w) pg ->
  exists before,
    trace (snd (display_page p true w))
    = trace w ++ before ++ [clear_cmd (prevpage (doc w)); display_cmd p] /\
    Forall (fun e => is_display_cmd e = false) before /\
    is_display_cmd (display_cmd p) = true /\
    is_display_cmd (clear_cmd (prevpage (doc w))) = false.
Proof.
  intros Hp Hpg Hps Hlay.
  rewrite (display_page_trace p true pg ps w Hp Hpg Hps Hlay).
  exists (cursor_event (scr w) (placement (doc w) (scr w) pg)
          :: (if stale ps then render_cycle (doc w) (scr w) p pg else [])).
  split; [reflexivity|]. split; [|split; reflexivity].
  constructor.
  - destruct (placement (doc w) (scr w) pg) as [[[l t] r] b]. reflexivity.
  - destruct (stale ps); [|constructor].
    unfold render_cycle. constructor; [reflexivity|].
    eapply Forall_impl; [apply chunk_loop_image_frames|].
    intros e He. apply image_frame_not_display, He.
Qed.

End DisplayMore.

Lemma display_page_touches_one_state_witness :
  let w := Sample.world (main_open Sample.book (mkOpts None None None))
             Sample.resp_ok [] in
  page_states (doc (snd (@display_page Sample.externals 0 true w))) !! 5%nat
  = Some (Page_State_init 5).
Proof.
  intros w.
  destruct (@display_page_touches_one_state Sample.externals 0 true w
              ltac:(lia)) as (_ & _ & H).
  rewrite (H 5%nat) by discriminate. reflexivity.
Defined.



Lemma display_page_clears_then_displays_witness :
  let w := Sample.world (main_open Sample.book (mkOpts None None None))
             Sample.resp_fail [] in
  exists before,
    trace (snd (@display_page Sample.externals 0 true w))
    = trace w ++ before ++ [clear_cmd 0; display_cmd 0].
Proof.
  intros w.
  assert (Hlay : layout_defined (doc w) (scr w) Sample.letter_page).
  { repeat split; vm_compute; reflexivity. }
  destruct (@display_page_clears_then_displays Sample.externals 0
              Sample.letter_page (Page_State_init 0) w ltac:(lia) eq_refl
              eq_refl Hlay) as (before & Htr & _).
  exists before. exact Htr.
Defined.

(* ===================================================================== *)
(** * More on the overlays *)
(* ===================================================================== *)

Section NoRedraw.

Lemma no_redraw_ret {A} (a : A) : no_redraw (ret a).
Proof.
  intros w. exists []. rewrite app_nil_r.
  split; [reflexivity|constructor].
Qed.

Lemma no_redraw_raise {A} e : no_redraw (@raise A e).
Proof.
  intros w. exists []. rewrite app_nil_r.
  split; [reflexivity|constructor].
Qed.

Lemma no_redraw_silent {A} (m : M A) :
  (forall w, trace (snd (m w)) = trace w) -> no_redraw m.
Proof.
  intros H w. exists []. rewrite app_nil_r. split; [apply H|constructor].
Qed.

Lemma no_redraw_bind {A B} (m : M A) (k : A -> M B) :
  no_redraw m -> (forall a, no_redraw (k a)) -> no_redraw (bind m k).
Proof.
  intros Hm Hk w. unfold bind. destruct (Hm w) as (t & Ht & Hf).
  destruct (m w) as [[a|e|] w']; cbn [snd] in *; eauto.
  destruct (Hk a w') as (t' & Ht' & Hf').
  exists (t ++ t'). split.
  - rewrite Ht', Ht, app_assoc. reflexivity.
  - apply Forall_app. split; assumption.
Qed.

Lemma no_redraw_emit e : is_pad_refresh e = false -> no_redraw (emit e).
Proof.
  intros He w. exists [e]. split; [reflexivity|].
  constructor; [exact He|constructor].
Qed.

Lemma no_redraw_get_doc : no_redraw get_doc.
Proof. apply no_redraw_silent. reflexivity. Qed.

Lemma no_redraw_get_scr : no_redraw get_scr.
Proof. apply no_redraw_silent. reflexivity. Qed.

Lemma no_redraw_modify_doc g : no_redraw (modify_doc g).
Proof. apply no_redraw_silent. reflexivity. Qed.

Lemma no_redraw_truediv a b : no_redraw (truediv a b).
Proof.
  apply no_redraw_silent. intros w. unfold truediv.
  destruct (Qeq_bool b 0); reflexivity.
Qed.

Lemma no_redraw_get_size : no_redraw Screen.get_size.
Proof.
  apply no_redraw_silent. intros w. unfold Screen.get_size.
  destruct (winsz w) as [[[r c] wd] h]. reflexivity.
Qed.

End NoRedraw.

(** Decomposes a goal [no_redraw m] along the structure of [m]. *)
Ltac quiet :=
  repeat first
    [ progress unfold Screen.clear, Screen.init_curses,
        Screen.create_text_win, clean_exit, init_pad
    | apply no_redraw_ret | apply no_redraw_raise
    | apply no_redraw_emit; reflexivity
    | apply no_redraw_get_doc | apply no_redraw_get_scr
    | apply no_redraw_modify_doc | apply no_redraw_truediv
    | apply no_redraw_get_size
    | apply no_redraw_bind; [|intros ?]
    | match goal with
      | |- no_redraw (match ?x with _ => _ end) => destruct x
      | |- no_redraw (if ?x then _ else _) => destruct x
      end ].

Section OverlayMore.
Context {X : Externals}.

Lemma no_redraw_set_layout a : no_redraw (set_layout a).
Proof. unfold set_layout. quiet. Qed.

Lemma no_redraw_overlay_open k index : no_redraw (overlay_open k index).
Proof. unfold overlay_open, goto_link. quiet. Qed.

Lemma no_redraw_row_visible len h t :
  Forall (fun e => is_pad_refresh e = false) t ->
  Forall (row_visible len h) t.
Proof.
  intros H. eapply Forall_impl; [exact H|].
  intros [] He; try exact I. discriminate He.
Qed.

Lemma overlay_scroll_visible len h index index' j :
  5 <= h ->
  0 <= index < len -> 0 <= j <= index -> index <= j + (h - 5) ->
  0 <= index' < len -> Z.abs (index' - index) <= 1 ->
  0 <= overlay_scroll h index' j <= index' /\
  index' <= overlay_scroll h index' j + (h - 5).
Proof.
  intros Hh Hi Hj Hv Hi' Hd. unfold overlay_scroll.
  destruct (Z.gtb_spec index' (j + (h - 5)));
    [destruct (Z.ltb_spec index' (j + 1))|destruct (Z.ltb_spec index' j)];
    lia.
Qed.

(** X13. Once the highlighted row of an overlay is an entry of the list
    and lies inside the window, it stays so whatever keys follow: every
    redraw of the loop shows a highlighted row between 0 and len - 1 that
    is among the rows j .. j + (h - 5) put on the screen. show_meta and
    show_urls start the loop in such a state (index = j = 0). *)
Theorem overlay_keeps_row_visible (k : overlay_kind) (h : Z) (ks : list Z) :
  forall (index j : Z) (w : World),
  5 <= h ->
  0 <= index < overlay_len k ->
  0 <= j <= index -> index <= j + (h - 5) ->
  exists t,
    trace (snd (overlay_loop k h ks index j w)) = trace w ++ t /\
    Forall (row_visible (overlay_len k) h) t.
Proof.
  induction ks as [|key rest IH]; intros index j w Hh Hi Hj Hv.
  - exists [Pad_refresh index j]. split; [reflexivity|].
    constructor; [cbn; lia|constructor].
  - assert (Hcont : forall index' w1 t1,
              0 <= index' < overlay_len k -> Z.abs (index' - index) <= 1 ->
              trace w1 = trace w ++ Pad_refresh index j :: t1 ->
              Forall (fun e => is_pad_refresh e = false) t1 ->
              exists t,
                trace (snd (overlay_loop k h rest index'
                              (overlay_scroll h index' j) w1))
                = trace w ++ t /\
                Forall (row_visible (overlay_len k) h) t).
    { intros index' w1 t1 Hi' Hd Hw1 Ht1.
      destruct (overlay_scroll_visible (overlay_len k) h index index' j
                  Hh Hi Hj Hv Hi' Hd) as [Hj' Hv'].
      destruct (IH index' (overlay_scroll h index' j) w1 Hh Hi' Hj' Hv')
        as (t & Ht & Hf).
      exists (Pad_refresh index j :: t1 ++ t). split.
      - rewrite Ht, Hw1. rewrite <- app_assoc. reflexivity.
      - constructor; [cbn; lia|]. apply Forall_app. split; [|exact Hf].
        apply no_redraw_row_visible, Ht1. }
    assert (Hstop : forall w1 t1,
              trace w1 = trace w ++ Pad_refresh index j :: t1 ->
              Forall (fun e => is_pad_refresh e = false) t1 ->
              exists t, trace w1 = trace w ++ t /\
                        Forall (row_visible (overlay_len k) h) t).
    { intros w1 t1 Hw1 Ht1. exists (Pad_refresh index j :: t1).
      split; [exact Hw1|]. constructor; [cbn; lia|].
      apply no_redraw_row_visible, Ht1. }
    cbn [overlay_loop].
    set (w1 := put_keys rest
                 (put_trace (trace w ++ [Pad_refresh index j]) w)).
    assert (Hw1 : trace w1 = trace w ++ [Pad_refresh index j])
      by reflexivity.
    clearbody w1.
    assert (Hrun : forall {A} (m : M A), no_redraw m ->
              exists t1,
                trace (snd (m w1)) = trace w ++ Pad_refresh index j :: t1 /\
                Forall (fun e => is_pad_refresh e = false) t1).
    { intros A m Hm. destruct (Hm w1) as (t1 & Ht1 & Hf1).
      exists t1. split; [|exact Hf1].
      rewrite Ht1, Hw1, <- app_assoc. reflexivity. }
    assert (Hsame : forall index', index' = index ->
              0 <= index' < overlay_len k /\ Z.abs (index' - index) <= 1)
      by (intros; lia).
    destruct (key_in key REFRESH).
    { match goal with
      | |- context [match ?m w1 with _ => _ end] =>
          destruct (Hrun _ m) as (t1 & Ht1 & Hf1);
            [pose proof no_redraw_set_layout; quiet|];
          destruct (m w1) as [[a|e|] w2]
      end; cbn [snd] in Ht1.
      - apply (Hcont index w2 t1); [lia|lia|exact Ht1|exact Hf1].
      - apply (Hstop w2 t1); assumption.
      - apply (Hstop w2 t1); assumption. }
    destruct (key_in key QUIT).
    { destruct (Hrun _ (@clean_exit unit)) as (t1 & Ht1 & Hf1); [quiet|].
      apply (Hstop _ t1); assumption. }
    destruct ((key =? 27) || key_in key (overlay_toggle k)).
    { destruct (Hrun _ Screen.clear) as (t1 & Ht1 & Hf1); [quiet|].
      apply (Hstop _ t1); assumption. }
    destruct (key_in key NEXT_PAGE).
    { apply (Hcont _ w1 []); [| |exact Hw1|constructor];
        unfold overlay_next; rewrite py_min_spec; lia. }
    destruct (key_in key PREV_PAGE).
    { apply (Hcont _ w1 []); [| |exact Hw1|constructor];
        unfold overlay_prev; rewrite py_max_spec; lia. }
    destruct (key_in key OPEN);
      [|apply (Hcont index w1 []); [lia|lia|exact Hw1|constructor]].
    destruct (Hrun _ (overlay_open k index)) as (t1 & Ht1 & Hf1);
      [apply no_redraw_overlay_open|].
    destruct (overlay_open k index w1) as [[[|]|e|] w2]; cbn [snd] in Ht1.
    + apply (Hstop w2 t1); assumption.
    + apply (Hcont index w2 t1); [lia|lia|exact Ht1|exact Hf1].
    + apply (Hstop w2 t1); assumption.
    + apply (Hstop w2 t1); assumption.
Qed.

End OverlayMore.

Section OverlayEnter.
Context {X : Externals}.

(** What an overlay does before its loop starts, when curses creates the
    window. *)
Lemma overlay_run k index ps hw w :
  0 <= page (doc w) ->
  page_states (doc w) !! Z.to_nat (page (doc w)) = Some ps ->
  Screen.new_text_win (scr w) (overlay_len k) (overlay_header k) = Some hw ->
  overlay k index w
  = overlay_loop k (fst hw) (keys w) index 0
      (put_trace
         (trace w ++ [clear_cmd (page (doc w)); Clear_screen;
                      Text_win (overlay_len k) (overlay_header k)])
         (put_doc
            (with_page_states (doc w)
               (<[Z.to_nat (page (doc w)) := set_stale true ps]>
                  (page_states (doc w))))
            w)).
Proof.
  intros Hp Hps Hwin. unfold overlay, bind, get_doc. cbv beta iota.
  rewrite (update_page_state_run _ _ ps) by assumption. cbv beta iota.
  unfold clear_page, write_gr_cmd, Screen.clear, init_pad,
    Screen.create_text_win, bind, emit, get_scr, ret. cbv beta iota.
  cbn [trace put_trace put_doc scr keys fst snd doc].
  rewrite Hwin. cbv beta iota.
  cbn [trace put_trace put_doc scr keys fst snd doc].
  rewrite <- !app_assoc. reflexivity.
Qed.

(** When curses does not create the window the overlay ends there:
    curses.error leaves it, no key has been read. *)
Lemma overlay_no_window k index ps w :
  0 <= page (doc w) ->
  page_states (doc w) !! Z.to_nat (page (doc w)) = Some ps ->
  Screen.new_text_win (scr w) (overlay_len k) (overlay_header k) = None ->
  overlay k index w
  = (Raised CursesError,
     put_trace
       (trace w ++ [clear_cmd (page (doc w)); Clear_screen])
       (put_doc
          (with_page_states (doc w)
             (<[Z.to_nat (page (doc w)) := set_stale true ps]>
                (page_states (doc w))))
          w)).
Proof.
  intros Hp Hps Hwin. unfold overlay, bind, get_doc. cbv beta iota.
  rewrite (update_page_state_run _ _ ps) by assumption. cbv beta iota.
  unfold clear_page, write_gr_cmd, Screen.clear, init_pad,
    Screen.create_text_win, bind, emit, get_scr, ret, raise. cbv beta iota.
  cbn [trace put_trace put_doc scr keys fst snd doc].
  rewrite Hwin. cbv beta iota.
  rewrite <- !app_assoc. reflexivity.
Qed.


End OverlayEnter.

Section OverlayEffects.
Context {X : Externals}.

(** X14. An overlay marks the page it covers stale before it draws, and
    nothing it does afterwards (moving the selection, a refresh, opening
    an entry, quitting, running out of keys) clears the mark: when the
    overlay is left, the page that was current when it opened is still
    stale, so the next display renders it again. *)
Theorem overlay_marks_page_stale (k : overlay_kind) (index : Z)
    (ps : Page_State) (w : World) :
  0 <= page (doc w) ->
  page_states (doc w) !! Z.to_nat (page (doc w)) = Some ps ->
  stale_flag (doc (snd (overlay k index w))) (page (doc w)) = Some true.
Proof.
  intros Hp Hps.
  destruct (Screen.new_text_win (scr w) (overlay_len k) (overlay_header k))
    as [hw|] eqn:Hwin.
  - rewrite (overlay_run k index ps hw w Hp Hps Hwin).
    match goal with
    | |- context [overlay_loop _ _ _ _ _ ?w0] => set (w1 := w0)
    end.
    assert (H1 : awaiting (base (doc w)) (page (doc w)) (doc w1)).
    { split; [reflexivity|]. exists (set_stale true ps).
      split; [|reflexivity].
      apply list_lookup_insert_eq, (lookup_lt_Some _ _ _ Hps). }
    destruct (preserves_overlay_loop (base (doc w)) (page (doc w)) k
                (fst hw) (keys w) index 0 w1 H1)
      as [_ (ps' & Hps' & Hst)].
    unfold stale_flag. rewrite py_index_nonneg by exact Hp.
    rewrite Hps'. cbn. rewrite Hst. reflexivity.
  - rewrite (overlay_no_window k index ps w Hp Hps Hwin).
    unfold stale_flag.
    cbn [snd doc put_doc put_trace with_page_states page_states].
    rewrite py_index_nonneg by exact Hp.
    rewrite list_lookup_insert_eq by apply (lookup_lt_Some _ _ _ Hps).
    reflexivity.
Qed.








End OverlayEffects.

Lemma overlay_keeps_row_visible_witness :
  let w := Sample.world (main_open Sample.book (mkOpts None None None)) [] [] in
  let k := Overlay_meta (metadata Sample.book) in
  exists t,
    trace (snd (@overlay_loop Sample.externals k 22
                  [ord "j"; ord "j"; ord "k"; 18] 0 0 w))
    = trace w ++ t /\
    Forall (row_visible 2 22) t.
Proof.
  intros w k.
  apply (@overlay_keeps_row_visible Sample.externals k 22
           [ord "j"; ord "j"; ord "k"; 18] 0 0 w);
    [lia | split; [lia | reflexivity] | lia | lia].
Defined.

Lemma overlay_marks_page_stale_witness :
  let w0 := Sample.world (main_open Sample.book (mkOpts None None None))
              Sample.resp_ok [ord "j"; 10] in
  let w := snd (@display_page Sample.externals 0 true w0) in
  stale_flag (doc w) 0 = Some false /\
  stale_flag
    (doc (snd (@overlay Sample.externals (Overlay_toc (getToC Sample.book))
                 0 w))) 0
  = Some true.
Proof.
  intros w0 w. split; [vm_compute; reflexivity|].
  eapply (@overlay_marks_page_stale Sample.externals _ 0 _ w).
  - vm_compute. discriminate.
  - vm_compute. reflexivity.
Defined.




(* ===================================================================== *)
(** * More on the layout and on the key dispatcher *)
(* ===================================================================== *)

Section LayoutMore.
Context {X : Externals}.

Lemma py_round_integer (x : Q) (n : Z) : (x == inject_Z n)%Q -> py_round x = n.
Proof.
  intros Hx. unfold py_round.
  assert (Hf : Qfloor x = n) by (rewrite Hx; apply Qfloor_Z).
  rewrite Hf.
  assert (Hlt : ((x - inject_Z n) ?= (1 # 2))%Q = Lt).
  { apply Qlt_alt. rewrite Hx.
    assert (H0 : (inject_Z n - inject_Z n == 0)%Q) by ring.
    rewrite H0. reflexivity. }
  rewrite Hlt. reflexivity.
Qed.

Lemma inject_Z_nonzero (n : Z) : n <> 0 -> Qeq_bool (inject_Z n) 0 = false.
Proof.
  intros Hn. apply not_true_is_false. intros H.
  apply Qeq_bool_eq in H. unfold Qeq in H. cbn in H. lia.
Qed.

(** X18. set_layout divides the current page by [pages], the index of the
    last page. On a document of one page that is a division by zero:
    set_layout raises ZeroDivisionError before it changes anything, so the
    refresh keys (Ctrl-R, a terminal resize) and the font keys [+] and [-]
    end the viewer on such a document. *)
Theorem set_layout_single_page (key count : Z) (l : view_locals) (w : World) :
  pages (doc w) = 0 ->
  key_in key (REFRESH ++ INC_FONT ++ DEC_FONT) = true ->
  stack l <> [] ->
  (forall a, set_layout a w = (Raised ZeroDivisionError, w)) /\
  exists w',
    view_key key count l w = (Raised ZeroDivisionError, w') /\
    doc w' = doc w.
Proof.
  intros Hpages Hkey Hstack.
  assert (Hlay : forall a w0, pages (doc w0) = 0 ->
            set_layout a w0 = (Raised ZeroDivisionError, w0)).
  { intros a w0 H0. unfold set_layout, bind, get_doc, get_scr, truediv.
    cbv beta iota. rewrite H0. reflexivity. }
  split; [intros a; apply Hlay, Hpages|].
  destruct (stack l) as [|s0 srest] eqn:Hs; [contradiction|].
  unfold key_in in Hkey. apply existsb_exists in Hkey.
  destruct Hkey as [k0 [Hin Heq]]. apply Z.eqb_eq in Heq. subst k0.
  repeat (destruct Hin as [<-|Hin]); try solve [destruct Hin];
    unfold view_key; rewrite Hs;
    change (ord "+") with 43; change (ord "-") with 45;
    eval_key_tests; cbv beta iota;
    rewrite ?py_index_nonneg by lia;
    try change ((s0 :: srest) !! Z.to_nat 0) with (Some s0);
    cbv beta iota; rewrite ?andb_false_r; cbv beta iota;
    unfold bind, Screen.clear, Screen.get_size, Screen.init_curses, emit,
      get_doc;
    cbv beta iota; cbn [winsz put_trace];
    try (destruct (winsz w) as [[[r c] wd] h]; cbv beta iota);
    (rewrite Hlay by exact Hpages);
    eexists; split; reflexivity.
Qed.

(** X19. On a document of more than one page set_layout returns to the
    page it started from: pages * (page / pages) rounds to page. The
    previous page is overwritten with the current one, the page states are
    left as they are, and the engine is asked once for a new layout, with
    the font size given unless that is None or 0. *)
Theorem set_layout_keeps_page (a : option Z) (w : World) :
  pages (doc w) <> 0 ->
  0 <= page (doc w) <= pages (doc w) ->
  let f := match a with
           | Some f => if f =? 0 then fontsize (doc w) else f
           | None => fontsize (doc w)
           end in
  exists w',
    set_layout a w = (Returned tt, w') /\
    page (doc w') = page (doc w) /\
    prevpage (doc w') = page (doc w) /\
    fontsize (doc w') = f /\
    page_states (doc w') = page_states (doc w) /\
    trace w' = trace w ++ [Engine_layout (width (scr w)) (height (scr w)) f].
Proof.
  intros Hpages Hpage f.
  unfold set_layout, bind, get_doc, get_scr. cbv beta iota.
  rewrite truediv_run by (apply inject_Z_nonzero; exact Hpages).
  cbv beta iota.
  assert (Hround : forall n,
            n = pages (doc w) ->
            py_round (inject_Z n
                      * (inject_Z (page (doc w)) / inject_Z (pages (doc w))))
            = page (doc w)).
  { intros n ->. apply py_round_integer. apply Qmult_div_r.
    intros H. unfold Qeq in H. cbn in H. lia. }
  assert (Hgo : forall d, pages d = pages (doc w) ->
            page (goto_page d (page (doc w))) = page (doc w)).
  { intros d Hd. rewrite goto_page_clamp by lia. rewrite Hd. lia. }
  subst f. destruct a as [f|]; [destruct (Z.eqb_spec f 0)|];
    cbn [negb]; unfold ret, modify_doc, emit; cbv beta iota;
    cbn [doc put_doc put_trace trace scr];
    eexists; (split; [reflexivity|]);
    cbn [doc put_doc put_trace trace scr];
    rewrite Hround by reflexivity;
    rewrite goto_page_prevpage, goto_page_page_states;
    (split; [apply Hgo; reflexivity|]);
    (split; [reflexivity|]);
    (split; [unfold goto_page; repeat case_match; reflexivity|]);
    split; reflexivity.
Qed.

(** X20. display_page computes the zoom factor and the placement with
    four divisions, by the page's width and height and by the width and
    height of a terminal cell. When one of the four is zero (an empty
    page box, or a terminal that reports fewer pixels than cells) the call
    raises ZeroDivisionError before it writes anything. *)
Theorem display_page_undefined_layout (p : Z) (display : bool)
    (pg : fitz_Page) (ps : Page_State) (w : World) :
  0 <= p ->
  loadPage (base (doc w)) p = Some pg ->
  page_states (doc w) !! Z.to_nat p = Some ps ->
  ~ layout_defined (doc w) (scr w) pg ->
  exists w',
    display_page p display w = (Raised ZeroDivisionError, w') /\
    trace w' = trace w /\
    stale_flag (doc w') p = Some (stale ps).
Proof.
  intros Hp Hpg Hps Hundef.
  pose proof (lookup_lt_Some _ _ _ Hps) as Hlt.
  assert (Hstale : stale_flag (doc w) p = Some (stale ps)).
  { unfold stale_flag. rewrite py_index_nonneg, Hps by exact Hp.
    reflexivity. }
  assert (Hstale' : forall g, stale (g ps) = stale ps ->
            stale_flag
              (with_page_states (doc w)
                 (<[Z.to_nat p := g ps]> (page_states (doc w)))) p
            = Some (stale ps)).
  { intros g Hg. unfold stale_flag. cbn [page_states with_page_states].
    rewrite py_index_nonneg by exact Hp.
    rewrite list_lookup_insert_eq by exact Hlt. cbn. rewrite Hg.
    reflexivity. }
  unfold display_page, bind. unfold layout_page, bind, get_doc, get_scr.
  cbv beta iota.
  rewrite Hpg. rewrite (py_index_nonneg _ _ Hp), Hps.
  fold (crop_box (doc w)). fold (page_width (doc w) pg).
  fold (page_height (doc w) pg).
  destruct (Qeq_bool (page_width (doc w) pg) 0) eqn:E1.
  { unfold fdiv at 1. rewrite E1. unfold raise. cbv beta iota.
    eexists. split; [reflexivity|]. split; [reflexivity|exact Hstale]. }
  rewrite (fdiv_run _ _ _ E1). cbv beta iota.
  destruct (Qeq_bool (page_height (doc w) pg) 0) eqn:E2.
  { unfold fdiv at 1. rewrite E2. unfold raise. cbv beta iota.
    eexists. split; [reflexivity|]. split; [reflexivity|exact Hstale]. }
  rewrite (fdiv_run _ _ _ E2). cbv beta iota.
  rewrite (update_page_state_run _ p ps w Hp Hps). cbv beta iota.
  destruct (Qeq_bool (inject_Z (cell_width (scr w))) 0) eqn:E3.
  { unfold fdiv at 1. cbn [scr put_doc]. rewrite E3.
    unfold raise. cbv beta iota.
    eexists. split; [reflexivity|]. split; [reflexivity|].
    apply (Hstale' (set_factor _)). reflexivity. }
  rewrite (fdiv_run _ _ _ E3). cbv beta iota.
  destruct (Qeq_bool (inject_Z (cell_height (scr w))) 0) eqn:E4.
  { unfold fdiv at 1. cbn [scr put_doc]. rewrite E4.
    unfold raise. cbv beta iota.
    eexists. split; [reflexivity|]. split; [reflexivity|].
    apply (Hstale' (set_factor _)). reflexivity. }
  exfalso. apply Hundef. repeat split; assumption.
Qed.

End LayoutMore.

Lemma set_layout_single_page_witness :
  let w := Sample.world (main_open Sample2.leaflet (mkOpts None None None))
             [] [] in
  let l := {| bar := mkBar [0] [32]; count_string := ""; stack := [0] |} in
  exists w',
    @view_key Sample.externals (ord "+") 1 l w
    = (Raised ZeroDivisionError, w') /\ doc w' = doc w.
Proof.
  intros w l.
  destruct (@set_layout_single_page Sample.externals (ord "+") 1 l w
              eq_refl eq_refl ltac:(discriminate)) as [_ H].
  exact H.
Defined.

Lemma set_layout_keeps_page_witness :
  let d := goto_page (main_open Sample.book (mkOpts None None None)) 3 in
  let w := Sample.world d [] [] in
  exists w',
    set_layout (Some 14) w = (Returned tt, w') /\
    page (doc w') = 3 /\ prevpage (doc w') = 3 /\ fontsize (doc w') = 14.
Proof.
  intros d w.
  destruct (set_layout_keeps_page (Some 14) w)
    as (w' & Hrun & Hpage & Hprev & Hfont & _).
  - vm_compute. discriminate.
  - split; vm_compute; discriminate.
  - exists w'. repeat split; assumption.
Defined.

Lemma display_page_undefined_layout_witness :
  let w0 := Sample.world (main_open Sample.book (mkOpts None None None))
              Sample.resp_ok [] in
  let w := put_scr {| rows := 24; cols := 80; width := 40; height := 12;
                      cell_width := 0; cell_height := 0 |} w0 in
  exists w',
    @display_page Sample.externals 0 true w
    = (Raised ZeroDivisionError, w') /\ trace w' = [].
Proof.
  intros w0 w.
  destruct (@display_page_undefined_layout Sample.externals 0 true
              Sample.letter_page (Page_State_init 0) w
              ltac:(lia) eq_refl eq_refl)
    as (w' & Hrun & Htr & _).
  - intros (_ & _ & H & _). vm_compute in H. discriminate.
  - exists w'. split; [exact Hrun | exact Htr].
Defined.

Section DispatcherMore.
Context {X : Externals}.

Lemma key_in_app key s t : key_in key (s ++ t) = key_in key s || key_in key t.
Proof. unfold key_in. apply existsb_app. Qed.

(** X21. A key that no branch of view acts on (among them [f] and [y],
    which shortcuts defines as HINTS and YANK, and [D]) changes neither the
    document nor the pending count, and writes nothing; when it is a
    printable character it is appended to the key stack. *)
Theorem unbound_key_is_ignored (key count : Z) (l : view_locals) (w : World) :
  key_in key bound_keys = false ->
  in_range key 48 58 = false ->
  key <> 27 ->
  stack l <> [] ->
  view_key key count l w
  = (Returned {| bar := bar l; count_string := count_string l;
                 stack := if in_range key 48 257 then stack l ++ [key]
                          else stack l |}, w).
Proof.
  intros Hkey Hdigit Hesc Hstack.
  unfold bound_keys in Hkey. rewrite !key_in_app in Hkey.
  repeat match type of Hkey with
         | _ || _ = false =>
             let H := fresh "Hk" in
             apply orb_false_elim in Hkey as [H Hkey]
         end.
  unfold view_key.
  repeat match goal with
         | H : key_in key _ = false |- _ => rewrite H; clear H
         end.
  rewrite Hdigit.
  destruct (Z.eqb_spec key 27) as [|_]; [contradiction|].
  assert (Hidx : exists s0,
            py_index (if in_range key 48 257 then stack l ++ [key]
                      else stack l) 0 = Some s0).
  { destruct (stack l) as [|s0 srest]; [contradiction|].
    exists s0. rewrite py_index_nonneg by lia.
    destruct (in_range key 48 257); reflexivity. }
  destruct Hidx as [s0 ->].
  rewrite andb_false_r. reflexivity.
Qed.

Lemma int_of_digits_app (s : string) : forall (acc : Z) (c : ascii),
  in_range (ord c) 48 58 = true ->
  int_of_digits acc (s ++ String c EmptyString)
  = option_map (fun n => 10 * n + (ord c - 48)) (int_of_digits acc s).
Proof.
  induction s as [|a s IH]; intros acc c Hc.
  - cbn [String.append int_of_digits]. rewrite Hc. reflexivity.
  - cbn [String.append int_of_digits].
    destruct (in_range (ord a) 48 58); [apply IH, Hc | reflexivity].
Qed.

Lemma ord_chr (key : Z) :
  0 <= key < 256 -> ord (ascii_of_nat (Z.to_nat key)) = key.
Proof.
  intros Hk. unfold ord. rewrite nat_ascii_embedding by lia. lia.
Qed.

Lemma digit_not_in key s :
  in_range key 48 58 = true ->
  Forall (fun x => x < 48 \/ 58 <= x) s ->
  key_in key s = false.
Proof.
  intros Hk Hs. unfold in_range in Hk.
  apply andb_prop in Hk as [Hlo Hhi].
  apply Z.leb_le in Hlo. apply Z.ltb_lt in Hhi.
  unfold key_in. apply not_true_is_false. intros Hex.
  apply existsb_exists in Hex. destruct Hex as [x [Hin Heq]].
  apply Z.eqb_eq in Heq. subst x.
  rewrite List.Forall_forall in Hs. specialize (Hs key Hin). lia.
Qed.

(** X22. The digits typed before a command are read as one decimal
    number: a digit key changes nothing but the pending count, and the
    count that the next iteration computes from it is ten times the number
    typed so far plus the digit. A count can be 0. *)
Theorem digit_key_extends_count (key count n : Z) (l : view_locals)
    (w : World) :
  in_range key 48 58 = true ->
  int_of_digits 0 (count_string l) = Some n ->
  exists l',
    view_key key count l w = (Returned l', w) /\
    count_of (count_string l') w = (Returned (10 * n + (key - 48)), w) /\
    bar l' = bar l /\
    stack l' = stack l ++ [key].
Proof.
  intros Hdigit Hn.
  pose proof Hdigit as Hr. unfold in_range in Hr.
  apply andb_prop in Hr as [Hlo Hhi].
  apply Z.leb_le in Hlo. apply Z.ltb_lt in Hhi.
  unfold view_key.
  rewrite (digit_not_in key REFRESH Hdigit)
    by (repeat constructor; vm_compute; intuition discriminate).
  destruct (Z.eqb_spec key 27); [lia|].
  rewrite Hdigit.
  assert (Hp : in_range key 48 257 = true).
  { unfold in_range. apply andb_true_intro. split;
      [apply Z.leb_le | apply Z.ltb_lt]; lia. }
  rewrite Hp.
  eexists. split; [reflexivity|]. cbn [count_string bar stack].
  split; [|split; reflexivity].
  unfold count_of, append_chr.
  assert (Hne : String.eqb (count_string l
                            ++ String (ascii_of_nat (Z.to_nat key))
                                 EmptyString) "" = false)
    by (destruct (count_string l); reflexivity).
  rewrite Hne.
  rewrite int_of_digits_app by (rewrite ord_chr by lia; exact Hdigit).
  rewrite Hn, ord_chr by lia. reflexivity.
Qed.

(** X23. [G] resolves the command and goes to a logical page: with no
    count to the last page of the document (unless pages +
    first_page_offset is 0, which goto_logical_page reads as no argument),
    with a count n other than 0 to physical page n - first_page_offset,
    clamped into the document. *)
Theorem goto_page_key (key count : Z) (l : view_locals) (w : World) :
  key_in key GOTO_PAGE = true ->
  0 <= pages (doc w) ->
  exists w',
    view_key key count l w
    = (Returned {| bar := bar l; count_string := ""; stack := [0] |}, w') /\
    prevpage (doc w') = page (doc w) /\
    trace w' = trace w /\
    (count_string l = "" ->
     pages (doc w) + first_page_offset (doc w) <> 0 ->
     page (doc w') = pages (doc w)) /\
    (count_string l <> "" -> count <> 0 ->
     page (doc w')
     = Z.max 0 (Z.min (pages (doc w)) (count - first_page_offset (doc w)))).
Proof.
  intros Hkey Hpages.
  unfold key_in in Hkey. apply existsb_exists in Hkey.
  destruct Hkey as [k0 [Hin Heq]]. apply Z.eqb_eq in Heq. subst k0.
  destruct Hin as [<-|[]].
  unfold view_key. change (ord "G") with 71. eval_key_tests.
  cbv beta iota.
  unfold bind, get_doc, modify_doc, resolved, ret. cbv beta iota.
  eexists. split; [reflexivity|].
  cbn [doc put_doc trace].
  unfold goto_logical_page.
  rewrite goto_page_prevpage, goto_page_clamp by exact Hpages.
  split; [reflexivity|]. split; [reflexivity|].
  unfold logical_to_page, page_to_logical. split.
  - intros Hs Hz. rewrite Hs. cbn [String.eqb].
    destruct (Z.eqb_spec (pages (doc w) + first_page_offset (doc w)) 0);
      [contradiction|]. lia.
  - intros Hs Hz. apply String.eqb_neq in Hs. rewrite Hs.
    destruct (Z.eqb_spec count 0); [contradiction|]. reflexivity.
Qed.

End DispatcherMore.

Lemma unbound_key_is_ignored_witness :
  let w := Sample.world (main_open Sample.book (mkOpts None None None))
             [] [] in
  let l := {| bar := mkBar [0] [32]; count_string := "3"; stack := [0; 51] |} in
  @view_key Sample.externals (ord "y") 3 l w
  = (Returned {| bar := mkBar [0] [32]; count_string := "3";
                 stack := [0; 51; ord "y"] |}, w).
Proof.
  intros w l.
  apply (@unbound_key_is_ignored Sample.externals (ord "y") 3 l w);
    [reflexivity | reflexivity | discriminate | discriminate].
Defined.

Lemma digit_key_extends_count_witness :
  let w := Sample.world (main_open Sample.book (mkOpts None None None))
             [] [] in
  let l := {| bar := mkBar [0] [32]; count_string := "4"; stack := [0; 52] |} in
  exists l',
    @view_key Sample.externals (ord "2") 4 l w = (Returned l', w) /\
    count_of (count_string l') w = (Returned 42, w).
Proof.
  intros w l.
  destruct (@digit_key_extends_count Sample.externals (ord "2") 4 4 l w
              eq_refl eq_refl) as (l' & Hrun & Hcount & _).
  exists l'. split; [exact Hrun | exact Hcount].
Defined.

Lemma goto_page_key_witness :
  let w := Sample.world (main_open Sample.book (mkOpts None None None))
             [] [] in
  let l := {| bar := mkBar [0] [32]; count_string := ""; stack := [0] |} in
  exists w',
    fst (@view_key Sample.externals (ord "G") 1 l w)
    = Returned {| bar := mkBar [0] [32]; count_string := ""; stack := [0] |}
    /\ snd (@view_key Sample.externals (ord "G") 1 l w) = w'
    /\ page (doc w') = 9.
Proof.
  intros w l.
  destruct (@goto_page_key Sample.externals (ord "G") 1 l w eq_refl
              ltac:(vm_compute; discriminate))
    as (w' & Hrun & _ & _ & Hlast & _).
  exists w'. rewrite Hrun. split; [reflexivity|]. split; [reflexivity|].
  rewrite Hlast; [reflexivity | reflexivity | vm_compute; discriminate].
Defined.

(* ===================================================================== *)
(** * The current page is always a page of the document *)
(* ===================================================================== *)

Section InDocument.
Context {X : Externals}.
Variable n0 : Z.

Lemma inv_same d d' :
  page d' = page d -> pages d' = pages d ->
  length (page_states d') = length (page_states d) ->
  in_document n0 d -> in_document n0 d'.
Proof.
  unfold in_document, page_in_document. intros -> -> ->. tauto.
Qed.

Lemma inv_goto_page d q :
  in_document n0 d -> in_document n0 (goto_page d q).
Proof.
  unfold in_document, page_in_document. intros [[Hp Hl] Hn].
  rewrite goto_page_page_states.
  assert (Hpages : pages (goto_page d q) = pages d)
    by (unfold goto_page; repeat case_match; reflexivity).
  rewrite Hpages, goto_page_clamp by lia. repeat split; lia.
Qed.

Lemma inv_mark_all d :
  in_document n0 d -> in_document n0 (mark_all_pages_stale d).
Proof.
  apply inv_same; [reflexivity|reflexivity|].
  apply mark_all_pages_stale_length.
Qed.

Lemma inv_goto_chap d n d' :
  in_document n0 d -> goto_chap d n = Returned d' -> in_document n0 d'.
Proof.
  intros Hd. unfold goto_chap, try_except.
  set (len := Z.of_nat (length (getToC (base d)))).
  generalize (if n >? len then len else if n <? 0 then 0 else n).
  intros n'.
  destruct (py_index (getToC (base d)) n') as [ch|];
    intros Hrun; injection Hrun as <-; apply inv_goto_page;
    (eapply inv_same; [| | |exact Hd]; reflexivity).
Qed.

Lemma preserves_update_inv (g : Page_State -> Page_State) q :
  preserves (in_document n0) (update_page_state g q).
Proof.
  intros w Hw. unfold update_page_state.
  destruct (py_index (page_states (doc w)) q) as [s|]; [|exact Hw].
  destruct (py_setitem (page_states (doc w)) q (g s)) as [l'|] eqn:E;
    [|exact Hw].
  apply py_setitem_Some in E as [i ->].
  cbn [snd doc put_doc].
  eapply inv_same; [| | |exact Hw]; try reflexivity.
  cbn [page_states with_page_states]. apply length_insert.
Qed.

(** Decomposes a goal [preserves (in_document n0) m] along [m]. *)
Ltac stays :=
  repeat first
    [ solve [apply preserves_keeps; keeps]
    | match goal with
      | H : context [preserves] |- _ => solve [apply H]
      end
    | apply preserves_bind; [|intros ?]
    | apply preserves_update_inv
    | apply preserves_modify_doc;
      unfold goto_logical_page, next_page, prev_page;
      intros ? ?;
      first [ apply inv_mark_all; assumption
            | apply inv_goto_page; assumption
            | eapply inv_same; [| | |eassumption]; reflexivity ]
    | apply preserves_run_doc;
      unfold next_chap, prev_chap; intros ? ? ? ?;
      eapply inv_goto_chap; eassumption
    | match goal with
      | |- preserves _ (match ?x with _ => _ end) => destruct x
      end ].

Lemma inv_set_layout a : preserves (in_document n0) (set_layout a).
Proof. unfold set_layout. stays. Qed.

Lemma inv_overlay_open k index :
  preserves (in_document n0) (overlay_open k index).
Proof. unfold overlay_open, goto_link. stays. Qed.

Lemma inv_overlay_loop k h ks : forall index j,
  preserves (in_document n0) (overlay_loop k h ks index j).
Proof.
  induction ks as [|key rest IH]; intros index j w Hw.
  - exact Hw.
  - cbn [overlay_loop].
    set (w1 := put_keys rest
                 (put_trace (trace w ++ [Pad_refresh index j]) w)).
    assert (Hw1 : in_document n0 (doc w1)) by exact Hw.
    clearbody w1.
    destruct (key_in key REFRESH).
    { match goal with
      | |- context [match ?m w1 with _ => _ end] =>
          assert (Hm : preserves (in_document n0) m)
            by (pose proof inv_set_layout; stays);
          specialize (Hm w1 Hw1); destruct (m w1) as [[a|e|] w2]
      end; cbn [snd] in Hm; [|exact Hm|exact Hm].
      apply IH. exact Hm. }
    destruct (key_in key QUIT); [exact Hw1|].
    destruct ((key =? 27) || key_in key (overlay_toggle k)); [exact Hw1|].
    destruct (key_in key NEXT_PAGE); [apply IH; exact Hw1|].
    destruct (key_in key PREV_PAGE); [apply IH; exact Hw1|].
    destruct (key_in key OPEN); [|apply IH; exact Hw1].
    pose proof (inv_overlay_open k index w1 Hw1) as Ho.
    destruct (overlay_open k index w1) as [[[|]|e|] w2]; cbn [snd] in Ho;
      try exact Ho.
    apply IH. exact Ho.
Qed.

Lemma inv_overlay k index : preserves (in_document n0) (overlay k index).
Proof.
  unfold overlay. stays.
  intros w Hw. apply inv_overlay_loop. exact Hw.
Qed.

Lemma inv_view_key key count l :
  preserves (in_document n0) (view_key key count l).
Proof.
  pose proof inv_set_layout as Hlay.
  pose proof inv_overlay as Hov.
  unfold view_key, show_toc, show_meta, show_urls. stays.
  - intros w Hw.
    destruct (visual_mode (doc w) (scr w) (bar l) (keys w)) as [[o ks] evs].
    destruct o; exact Hw.
  - intros w Hw. destruct (send_to_neovim (make_link a)) as [o evs].
    destruct o; exact Hw.
Qed.

Lemma inv_display_page q display :
  preserves (in_document n0) (display_page q display).
Proof.
  unfold display_page, layout_page, render_and_transmit, confirm_display.
  stays.
Qed.

Lemma inv_view_iterate n : forall l,
  preserves (in_document n0) (view_iterate n l).
Proof.
  pose proof inv_view_key as Hkey.
  pose proof inv_display_page as Hdisp.
  induction n as [|n IH]; intros l; cbn [view_iterate].
  - apply preserves_keeps; keeps.
  - unfold view_iteration. stays.
Qed.

Lemma inv_view n : preserves (in_document n0) (view n).
Proof.
  pose proof (inv_view_iterate n) as Hit.
  unfold view. stays.
Qed.

End InDocument.

Lemma main_open_in_document f o :
  1 <= pageCount f ->
  page_in_document (main_open f o) /\ pages (main_open f o) = pageCount f - 1.
Proof.
  intros Hf.
  assert (H0 : pages (Document_init f) = pageCount f - 1) by reflexivity.
  assert (Hlen : Z.of_nat (length (page_states (Document_init f)))
                 = pageCount f).
  { rewrite (proj1 (Document_init_page_states f)). lia. }
  unfold main_open.
  match goal with
  | |- context [goto_page ?d0 _] =>
      assert (Hd : pages d0 = pageCount f - 1 /\
                   page_states d0 = page_states (Document_init f))
        by (destruct (opt_page o), (opt_first_page_offset o), (opt_key o);
            split; reflexivity);
      generalize dependent d0
  end.
  intros d0 [Hpg Hst].
  assert (Hpages : pages (goto_page d0 (page d0)) = pages d0)
    by (unfold goto_page; repeat case_match; reflexivity).
  unfold page_in_document.
  rewrite goto_page_page_states, Hpages, goto_page_clamp by lia.
  rewrite Hst, Hlen, Hpg. repeat split; lia.
Qed.

(** X24. Whatever the options and whatever keys are typed, the viewer
    never leaves the document: after any number of passes through the
    loop of view the current page is between 0 and the last page, there
    is one page state for every page, and [pages] is still pageCount - 1.
    So the subscript page_states[page] of display_page is always in
    range. *)
Theorem view_stays_in_document {X : Externals} (f : fitz_Document) (o : opts)
    (n : nat) (w : World) :
  1 <= pageCount f ->
  doc w = main_open f o ->
  let d := doc (snd (view n w)) in
  0 <= page d <= pageCount f - 1 /\
  Z.of_nat (length (page_states d)) = pageCount f /\
  pages d = pageCount f - 1.
Proof.
  intros Hf Hw d.
  destruct (main_open_in_document f o Hf) as [Hin Hpages].
  destruct (inv_view (pageCount f - 1) n w) as [[Hp Hl] Hn].
  { rewrite Hw. split; assumption. }
  fold d in Hp, Hl, Hn. lia.
Qed.

Lemma view_stays_in_document_witness :
  let w := Sample.world (main_open Sample.book (mkOpts (Some 41) None None))
             (Sample.resp_ok ++ Sample.resp_ok ++ Sample.resp_ok)
             [ord "9"; ord "j"; ord "l"] in
  0 <= page (doc (snd (@view Sample.externals 3 w))) <= 9.
Proof.
  intros w.
  destruct (@view_stays_in_document Sample.externals Sample.book
              (mkOpts (Some 41) None None) 3 w ltac:(vm_compute; discriminate)
              eq_refl) as [H _].
  exact H.
Defined.

(* ===================================================================== *)
(** * The status bar *)
(* ===================================================================== *)

Section BarFacts.
Import BarText.

Lemma center_fits (m : text) (w : Z) :
  len m <= w ->
  center m w
  = repeat 32 (Z.to_nat ((w - len m) / 2)) ++ m
      ++ repeat 32 (Z.to_nat (w - len m - (w - len m) / 2)).
Proof.
  intros Hm. unfold center.
  destruct (Z.leb_spec (w - len m) 0) as [H0|H0]; [|reflexivity].
  replace (w - len m) with 0 by lia.
  cbn. rewrite app_nil_r. reflexivity.
Qed.

(** X25. When the terminal leaves at least one column for the message,
    status_bar.update produces a bar of exactly scr.cols characters: the
    command echo, a space, the message between [left] and [right] spaces,
    a space and the counter. A message that fits is kept and centred in
    the room left by the command echo and the counter ([left] is half the
    spare room, rounded down, and [right] the rest, so they differ by at
    most one); a longer one is cut to that room with an ellipsis as its
    last character and fills it. *)
Theorem bar_fills_the_row (cmd message : text) (d : Document) (cols : Z) :
  let me_w := cols - len cmd - len (counter d) - 2 in
  1 <= me_w ->
  exists message' bar left right,
    update cmd message d cols = Returned (message', bar) /\
    len bar = cols /\
    len message' <= me_w /\
    (len message <= me_w -> message' = message) /\
    (me_w < len message ->
     message' = take (Z.to_nat (me_w - 1)) message ++ [ELLIPSIS] /\
     len message' = me_w) /\
    bar = cmd ++ [32] ++ repeat 32 left ++ message' ++ repeat 32 right
              ++ [32] ++ counter d /\
    Z.of_nat left = (me_w - len message') / 2 /\
    Z.of_nat left + len message' + Z.of_nat right = me_w /\
    (left <= right <= left + 1)%nat.
Proof.
  intros me_w Hw. unfold update. fold me_w.
  destruct (Z.ltb_spec me_w 0) as [|_]; [lia|].
  set (msg := if len message >? me_w
              then py_slice_to message (me_w - 1) ++ [ELLIPSIS]
              else message).
  assert (Hmsg : len msg <= me_w /\
                 (len message <= me_w -> msg = message) /\
                 (me_w < len message ->
                  msg = take (Z.to_nat (me_w - 1)) message ++ [ELLIPSIS] /\
                  len msg = me_w)).
  { subst msg. destruct (Z.gtb_spec (len message) me_w) as [Hlong|Hfits].
    - assert (Hcut : py_slice_to message (me_w - 1)
                     = take (Z.to_nat (me_w - 1)) message).
      { unfold py_slice_to.
        destruct (Z.leb_spec 0 (me_w - 1)); [reflexivity|lia]. }
      rewrite Hcut.
      assert (Hl : len (take (Z.to_nat (me_w - 1)) message ++ [ELLIPSIS])
                   = me_w).
      { unfold len in *. rewrite length_app, length_take. cbn [length].
        lia. }
      split; [lia|]. split; [lia|]. intros _. split; [reflexivity|exact Hl].
    - split; [lia|]. split; [reflexivity|]. lia. }
  destruct Hmsg as (Hle & Hfit & Hcut).
  pose proof (Z.div_pos (me_w - len msg) 2 ltac:(lia) ltac:(lia)) as Hd0.
  assert (Hd1 : 2 * ((me_w - len msg) / 2) <= me_w - len msg
                < 2 * ((me_w - len msg) / 2) + 2).
  { pose proof (Z.div_mod (me_w - len msg) 2 ltac:(lia)) as E.
    pose proof (Z.mod_pos_bound (me_w - len msg) 2 ltac:(lia)) as B.
    lia. }
  exists msg, (cmd ++ [32] ++ center msg me_w ++ [32] ++ counter d),
    (Z.to_nat ((me_w - len msg) / 2)),
    (Z.to_nat (me_w - len msg - (me_w - len msg) / 2)).
  split; [reflexivity|].
  rewrite (center_fits msg me_w Hle).
  split.
  { unfold len in *. rewrite !length_app, !repeat_length. cbn [length].
    subst me_w. unfold len in *. lia. }
  split; [exact Hle|]. split; [exact Hfit|]. split; [exact Hcut|].
  split; [rewrite <- !app_assoc; reflexivity|].
  split; [lia|]. split; lia.
Qed.

End BarFacts.

Lemma bar_fills_the_row_witness :
  let d := main_open Sample.book (mkOpts None None None) in
  exists message' bar,
    BarText.update [0] (BarText.text_of "No ToC available") d 20
    = Returned (message', bar) /\
    BarText.len bar = 20 /\
    BarText.len message' = 11.
Proof.
  intros d.
  destruct (bar_fills_the_row [0] (BarText.text_of "No ToC available") d 20)
    as (m' & bar & left & right & Hrun & Hlen & _ & _ & Hcut & _).
  - vm_compute. discriminate.
  - exists m', bar. split; [exact Hrun|]. split; [exact Hlen|].
    apply Hcut. reflexivity.
Defined.

(* ===================================================================== *)
(** * The command line *)
(* ===================================================================== *)

Section CommandLineFacts.
Variable isfile : string -> bool.
Variable int_of_str : string -> option Z.
Variable open_document : string -> option fitz_Document.

Lemma parse_loop_files args : forall rest i skip files o files' o',
  parse_loop isfile int_of_str args rest i skip files o
  = Returned (files', o') ->
  exists extra,
    files' = files ++ extra /\
    Forall (fun f => isfile f = true) extra /\
    sublist extra rest.
Proof.
  induction rest as [|arg rest IH]; intros i skip files o files' o' Hrun.
  - injection Hrun as <- _. exists []. rewrite app_nil_r.
    repeat split; constructor.
  - cbn [parse_loop] in Hrun.
    assert (Hskip : forall skip' o1,
              parse_loop isfile int_of_str args rest (i + 1) skip' files o1
              = Returned (files', o') ->
              exists extra,
                files' = files ++ extra /\
                Forall (fun f => isfile f = true) extra /\
                sublist extra (arg :: rest)).
    { intros skip' o1 H. destruct (IH _ _ _ _ _ _ H) as (ex & He & Hf & Hs).
      exists ex. repeat split; [exact He|exact Hf|].
      apply sublist_cons, Hs. }
    destruct skip; [eapply Hskip, Hrun|].
    destruct (str_in arg ["-p"; "--page-number"]).
    { destruct (py_index args (i + 1)) as [v|]; [|discriminate].
      destruct (int_of_str v); [eapply Hskip, Hrun|discriminate]. }
    destruct (str_in arg ["-f"; "--first-page"]).
    { destruct (py_index args (i + 1)) as [v|]; [|discriminate].
      destruct (int_of_str v); [eapply Hskip, Hrun|discriminate]. }
    destruct (str_in arg ["--nvim-listen-address"]).
    { destruct (py_index args (i + 1)) as [v|]; [|discriminate].
      eapply Hskip, Hrun. }
    destruct (str_in arg ["--citekey"]).
    { destruct (py_index args (i + 1)) as [v|]; [|discriminate].
      eapply Hskip, Hrun. }
    destruct (isfile arg) eqn:Hfile.
    { destruct (IH _ _ _ _ _ _ Hrun) as (ex & He & Hf & Hs).
      exists (arg :: ex). split; [|split].
      - rewrite He, <- app_assoc. reflexivity.
      - constructor; assumption.
      - apply sublist_skip, Hs. }
    destruct (String.prefix "-" arg); discriminate.
Qed.

(** X26. Whenever parse_args returns, every file name it returns passed
    os.path.isfile, and the names are arguments of the command line in
    their order (the program name excluded). A command line of the program
    name alone never gets that far: it is treated as [-h]. *)
Theorem parse_args_files (args files : list string) (o : cli_opts) :
  parse_args isfile int_of_str args = Returned (files, o) ->
  Forall (fun f => isfile f = true) files /\
  sublist files (tail args) /\
  length args <> 1%nat.
Proof.
  unfold parse_args. intros Hrun.
  destruct (Nat.eqb_spec (length args) 1) as [Hone|Hmore].
  - destruct args as [|prog [|x rest]]; try discriminate Hone.
    discriminate Hrun.
  - destruct (existsb _ (tail args)); [discriminate|].
    destruct (existsb _ (tail args)); [discriminate|].
    destruct (parse_loop_files _ _ _ _ _ _ _ _ Hrun) as (ex & -> & Hf & Hs).
    repeat split; assumption.
Qed.

Lemma main_after_parse (args files : list string) (o : cli_opts)
    (w : World) r c wd h :
  winsz w = (r, c, wd, h) -> wd <> 0 ->
  parse_args isfile int_of_str args = Returned (files, o) ->
  main isfile int_of_str open_document true args w
  = match py_index files 0 with
    | None => raise IndexError
    | Some name =>
        match open_document name with
        | None => raise (SystemExit ("Unable to open " ++ name))
        | Some f => ret (main_open f (to_opts o))
        end
    end (snd (Screen.get_size w)).
Proof.
  intros Hwin Hwd Hparse. unfold main. cbn [negb].
  unfold bind, Screen.get_size, get_scr. rewrite Hwin. cbv beta iota.
  cbn [scr put_scr width snd].
  destruct (Z.eqb_spec wd 0); [contradiction|].
  rewrite Hparse. reflexivity.
Qed.

(** X27. A command line that gives options but no file gets through
    parse_args with an empty file list; main then evaluates files[0] in
    its try block and again in the except clause, so it ends with
    IndexError instead of the SystemExit message it was building. *)
Theorem main_without_file (args : list string) (o : cli_opts) (w : World)
    r c wd h :
  winsz w = (r, c, wd, h) -> wd <> 0 ->
  parse_args isfile int_of_str args = Returned ([], o) ->
  fst (main isfile int_of_str open_document true args w) = Raised IndexError.
Proof.
  intros Hwin Hwd Hparse.
  rewrite (main_after_parse _ _ _ _ _ _ _ _ Hwin Hwd Hparse).
  reflexivity.
Qed.

Lemma no_dash_no_option (s : string) (names : list string) :
  String.prefix "-" s = false ->
  Forall (fun n => String.prefix "-" n = true) names ->
  str_in s names = false.
Proof.
  intros Hs Hnames. unfold str_in. apply not_true_is_false. intros Hex.
  apply existsb_exists in Hex. destruct Hex as [n [Hin Heq]].
  apply String.eqb_eq in Heq. subst n.
  rewrite List.Forall_forall in Hnames. specialize (Hnames s Hin).
  congruence.
Qed.

(** X28. [-p n file] opens the file at page n: the option is stored as
    n - 1 and main normalises it with goto_page, so a page number below 1
    opens the first page and one beyond the document opens the last. *)
Theorem main_page_option (prog v file : string) (n : Z)
    (f : fitz_Document) (w : World) r c wd h :
  winsz w = (r, c, wd, h) -> wd <> 0 ->
  str_in v ["-h"; "--help"; "-v"; "--version"] = false ->
  int_of_str v = Some n ->
  String.prefix "-" file = false ->
  isfile file = true ->
  open_document file = Some f ->
  1 <= pageCount f ->
  exists d w',
    main isfile int_of_str open_document true [prog; "-p"; v; file] w
    = (Returned d, w') /\
    base d = f /\
    page d = Z.max 0 (Z.min (pageCount f - 1) (n - 1)).
Proof.
  intros Hwin Hwd Hv Hn Hdash Hfile Hopen Hf.
  assert (Hnot : forall names,
            Forall (fun n => String.prefix "-" n = true) names ->
            str_in file names = false)
    by (intros names; apply no_dash_no_option, Hdash).
  assert (Hparse : parse_args isfile int_of_str [prog; "-p"; v; file]
                   = Returned ([file], mkCli (Some (n - 1)) None None None)).
  { unfold parse_args. cbn [length Nat.eqb tail existsb].
    unfold str_in in Hv. cbn [existsb] in Hv.
    repeat match type of Hv with
           | _ || _ = false => apply orb_false_elim in Hv as [? Hv]
           end.
    assert (Hh : str_in v ["-h"; "--help"] = false)
      by (unfold str_in; cbn [existsb]; repeat (apply orb_false_intro);
          assumption).
    assert (Hver : str_in v ["-v"; "--version"] = false)
      by (unfold str_in; cbn [existsb]; repeat (apply orb_false_intro);
          assumption).
    rewrite Hh, Hver.
    rewrite !Hnot by (repeat constructor).
    change (str_in "-p" ["-h"; "--help"]) with false.
    change (str_in "-p" ["-v"; "--version"]) with false.
    cbn [orb].
    cbn [parse_loop].
    change (str_in "-p" ["-p"; "--page-number"]) with true. cbv beta iota.
    change (py_index ["-p"; v; file] (0 + 1)) with (Some v).
    cbv beta iota. rewrite Hn.
    rewrite !Hnot by (repeat constructor).
    rewrite Hfile. reflexivity. }
  rewrite (main_after_parse _ _ _ _ _ _ _ _ Hwin Hwd Hparse).
  change (py_index [file] 0) with (Some file). cbv beta iota.
  rewrite Hopen. unfold ret.
  eexists _, _. split; [reflexivity|].
  split.
  - unfold main_open, to_opts. cbn [opt_page opt_first_page_offset opt_key
      cli_page cli_first_page_offset cli_key].
    unfold goto_page. repeat case_match; reflexivity.
  - unfold main_open, to_opts. cbn [opt_page opt_first_page_offset opt_key
      cli_page cli_first_page_offset cli_key].
    rewrite goto_page_clamp by (cbn; lia). reflexivity.
Qed.

End CommandLineFacts.

Lemma parse_args_files_witness :
  sublist ["paper.pdf"]
    (tail ["termpdf"; "--citekey"; "knuth84"; "paper.pdf"]).
Proof.
  apply (parse_args_files Sample2.isfile Sample2.int_of_str
           ["termpdf"; "--citekey"; "knuth84"; "paper.pdf"] ["paper.pdf"]
           (mkCli None None None (Some "knuth84"))).
  reflexivity.
Defined.

Lemma main_without_file_witness :
  let w := Sample.world (Document_init Sample2.paper) [] [] in
  fst (main Sample2.isfile Sample2.int_of_str Sample2.open_document true
         ["termpdf"; "-p"; "3"] w)
  = Raised IndexError.
Proof.
  intros w.
  apply (main_without_file Sample2.isfile Sample2.int_of_str
           Sample2.open_document ["termpdf"; "-p"; "3"]
           (mkCli (Some 2) None None None) w 24 80 800 480);
    [reflexivity | discriminate | reflexivity].
Defined.

Lemma main_page_option_witness :
  let w := Sample.world (Document_init Sample2.paper) [] [] in
  exists d w',
    main Sample2.isfile Sample2.int_of_str Sample2.open_document true
      ["termpdf"; "-p"; "99"; "paper.pdf"] w
    = (Returned d, w') /\ page d = 7.
Proof.
  intros w.
  destruct (main_page_option Sample2.isfile Sample2.int_of_str
              Sample2.open_document "termpdf" "99" "paper.pdf" 99
              Sample2.paper w 24 80 800 480
              eq_refl ltac:(discriminate) eq_refl eq_refl eq_refl eq_refl
              eq_refl ltac:(vm_compute; discriminate))
    as (d & w' & Hrun & _ & Hpage).
  exists d, w'. split; [exact Hrun|]. rewrite Hpage. reflexivity.
Defined.

(* ===================================================================== *)
(** * The selection of visual_mode *)
(* ===================================================================== *)

Section VisualFacts.
Import Visual.

Lemma int_of_digits_nonneg (s : string) : forall acc n,
  0 <= acc -> int_of_digits acc s = Some n -> 0 <= n.
Proof.
  induction s as [|a s IH]; intros acc n Hacc Hrun.
  - injection Hrun as <-. exact Hacc.
  - cbn [int_of_digits] in Hrun.
    destruct (in_range (ord a) 48 58) eqn:Hr; [|discriminate].
    unfold in_range in Hr. apply andb_prop in Hr as [Hlo _].
    apply Z.leb_le in Hlo.
    eapply IH; [|exact Hrun]. lia.
Qed.

Lemma visual_inv_moved t b st row :
  visual_inv t b st -> t <= row <= b -> visual_inv t b (moved st row).
Proof.
  intros (Hc & Hs & Hf & _) Hrow. unfold visual_inv, moved.
  cbn [current_row select selection vcount_string].
  destruct (select st); cbn [fst snd]; repeat split; try lia;
    exists 0; reflexivity.
Qed.

Lemma visual_inv_count t b st :
  visual_inv t b st -> exists count, visual_count st = Some count /\ 0 <= count.
Proof.
  intros (_ & _ & _ & n & Hn). unfold visual_count.
  destruct (String.eqb (vcount_string st) "").
  - exists 1. split; [reflexivity|lia].
  - exists n. split; [exact Hn|].
    apply (int_of_digits_nonneg (vcount_string st) 0 n); [lia|exact Hn].
Qed.

Lemma visual_key_inv t b key count st :
  t <= b -> 0 <= count -> visual_inv t b st ->
  match visual_key t b key count st with
  | V_continue st' => visual_inv t b st'
  | V_yank (r1, r2) | V_send (r1, r2) => t <= r1 /\ r1 <= r2 /\ r2 <= b
  | V_raise _ | V_waiting _ => False
  | V_quit | V_leave => True
  end.
Proof.
  intros Htb Hcount Hinv. pose proof Hinv as (Hc & Hs & Hf & n & Hn).
  unfold visual_key.
  destruct (in_range key 48 58) eqn:Hdigit.
  { unfold visual_inv. cbn [current_row select selection vcount_string].
    repeat split; try lia.
    pose proof Hdigit as Hr. unfold in_range in Hr.
    apply andb_prop in Hr as [Hlo Hhi].
    apply Z.leb_le in Hlo. apply Z.ltb_lt in Hhi.
    unfold append_chr. rewrite int_of_digits_app
      by (rewrite ord_chr by lia; exact Hdigit).
    rewrite Hn. eexists. reflexivity. }
  destruct (key_in key QUIT); [exact I|].
  destruct ((key =? 27) || key_in key VISUAL_MODE); [exact I|].
  destruct (key_in key [ord "s"]).
  { unfold visual_inv. cbn [current_row select selection vcount_string fst snd].
    repeat split; try lia. exists 0. reflexivity. }
  destruct (key_in key NEXT_PAGE).
  { apply visual_inv_moved; [exact Hinv|]. rewrite py_min_spec. lia. }
  destruct (key_in key PREV_PAGE).
  { apply visual_inv_moved; [exact Hinv|]. rewrite py_max_spec. lia. }
  destruct (key_in key GOTO_PAGE).
  { apply visual_inv_moved; [exact Hinv|]. lia. }
  destruct (key_in key GOTO).
  { apply visual_inv_moved; [exact Hinv|]. lia. }
  assert (Hsort : let '(r1, r2) := sort2 (selection st) in
                  t <= r1 /\ r1 <= r2 /\ r2 <= b).
  { unfold sort2. destruct (selection st) as [s1 s2]. cbn [fst snd] in *.
    destruct (Z.ltb_spec s2 s1); lia. }
  destruct (key_in key YANK); [exact Hsort|].
  destruct (key_in key SEND_NOTE); [exact Hsort|].
  exact Hinv.
Qed.

(** X29. In visual mode the current row starts at the top row of the page
    and never leaves the rows of the page, whatever counts and movement
    keys are typed; the rows handed to get_text_in_rows by a yank or a
    note are sorted and lie on the page; and int(count_string) never
    raises, because only digits are appended to the count. *)
Theorem visual_selection_on_page (t b : Z) (ks : list Z) :
  t <= b ->
  match visual_loop t b ks (visual_init t) with
  | V_continue st | V_waiting st =>
      t <= current_row st <= b /\ snd (selection st) = current_row st /\
      t <= fst (selection st) <= b
  | V_yank (r1, r2) | V_send (r1, r2) => t <= r1 /\ r1 <= r2 /\ r2 <= b
  | V_raise _ => False
  | V_quit | V_leave => True
  end.
Proof.
  intros Htb.
  assert (Hinit : visual_inv t b (visual_init t)).
  { unfold visual_inv, visual_init. cbn. repeat split; try lia.
    exists 0. reflexivity. }
  generalize dependent (visual_init t).
  induction ks as [|key rest IH]; intros st Hinv;
    cbn [visual_loop];
    destruct (visual_inv_count t b st Hinv) as (count & -> & Hcount).
  - destruct Hinv as (Hc & Hs & Hf & _). repeat split; lia.
  - pose proof (visual_key_inv t b key count st Htb Hcount Hinv) as Hstep.
    destruct (visual_key t b key count st)
      as [st'|st'| | |[r1 r2]|[r1 r2]|e];
      try exact Hstep; try contradiction.
    apply IH, Hstep.
Qed.

End VisualFacts.

Lemma visual_selection_on_page_witness :
  Visual.visual_loop 0 23
    [ord "s"; ord "9"; ord "9"; ord "j"; ord "5"; ord "k"; ord "y"]
    (Visual.visual_init 0)
  = Visual.V_yank (0, 18) /\
  0 <= 0 /\ 0 <= 18 /\ 18 <= 23.
Proof.
  split; [vm_compute; reflexivity|].
  pose proof (visual_selection_on_page 0 23
                [ord "s"; ord "9"; ord "9"; ord "j"; ord "5"; ord "k";
                 ord "y"] ltac:(lia)) as H.
  vm_compute in H. vm_compute. exact H.
Defined.
